(** * FlareProx local proxy: selection, forwarding, CONNECT and the PID marker

    A shallow embedding of the local proxy server of [flareprox.py]
    ([_choose_endpoint], the request handler built by [_make_handler],
    [_read_pid] / [_remove_pid] and the [serve-stop] branch of [main]),
    together with the properties of the specification that concern it.

    Conventions.
    - A Python [str] is represented by the Rocq string of its UTF-8
      encoding; [bytes] are Rocq strings too.  With this reading
      [s.encode()] is the identity and [len] of a [bytes] value is
      [String.length].
    - A Python [dict] is a [gmap]; the header list of an inbound request,
      where order and repetitions matter, is an association list.
    - Exceptions are explicit: a computation returns [Ok v] or [Raise e].
    - Calls on the outside world (the HTTP response being written, the
      outbound [requests.request], sockets, signals, the marker file) are
      recorded in a trace of events; what the world answers is given by
      oracles passed as arguments. *)

From Stdlib Require Import ZArith QArith String Ascii List DecimalString DecimalPos Lia.
From stdpp Require Import base tactics option list gmap strings.

Local Open Scope Z_scope.
Local Open Scope string_scope.

(** ** Exceptions *)

Inductive exn : Type :=
| IndexError
| ZeroDivisionError
| ValueError
| RequestException (msg : string)
| OtherException (msg : string).

Inductive result (A : Type) : Type :=
| Ok (a : A)
| Raise (e : exn).
Arguments Ok {A} a.
Arguments Raise {A} e.

#[global] Instance result_ret : MRet result := fun _ a => Ok a.
#[global] Instance result_bind : MBind result := fun _ _ f m =>
  match m with
  | Ok a => f a
  | Raise e => Raise e
  end.

(** ** Python primitives used by the source *)

Module Py.

(** [a % b] on integers: floor modulus, [ZeroDivisionError] for [b = 0]. *)
Definition mod_ (a b : Z) : result Z :=
  if decide (b = 0) then Raise ZeroDivisionError else Ok (a `mod` b).

(** [len(l)] *)
Definition len {A} (l : list A) : Z := Z.of_nat (length l).

(** [l[i]] on a list: negative indices count from the end, anything out of
    range raises [IndexError]. *)
Definition getitem {A} (l : list A) (i : Z) : result A :=
  let j := if decide (i < 0) then i + len l else i in
  if decide (j < 0) then Raise IndexError
  else match l !! Z.to_nat j with
       | Some x => Ok x
       | None => Raise IndexError
       end.

(** [random.choice(seq)]: [IndexError] on an empty sequence, otherwise
    [seq[_randbelow(len(seq))]]; the entropy consumed is the argument
    [rnd], reduced to the range [0 .. len(seq) - 1]. *)
Definition random_choice {A} (rnd : Z) (l : list A) : result A :=
  match l with
  | [] => Raise IndexError
  | _ => getitem l (rnd `mod` len l)
  end.

(** Truth value of an [Optional[str]]: [None] and the empty string are
    false. *)
Definition truthy (o : option string) : bool :=
  match o with
  | None => false
  | Some s => negb (String.eqb s "")
  end.

(** Truth value of an [Optional[int]]: [None] and [0] are false. *)
Definition truthy_int (o : option Z) : bool :=
  match o with
  | None => false
  | Some n => negb (Z.eqb n 0)
  end.

(** The line feed, and carriage return with line feed *)
Definition nl : string := String (ascii_of_nat 10) EmptyString.
Definition crlf : string := String (ascii_of_nat 13) nl.

(** [s.startswith(prefix)] *)
Definition startswith (s prefix : string) : bool := String.prefix prefix s.

(** [s[1:]] *)
Definition tail (s : string) : string :=
  match s with
  | EmptyString => EmptyString
  | String _ r => r
  end.

(** [s[:n]] for [n >= 0], also [rfile.read(n)] on a stream holding [s] *)
Definition take (n : Z) (s : string) : string :=
  String.substring 0 (Z.to_nat n) s.

(** [len(b)] of a [bytes] value *)
Definition blen (b : string) : Z := Z.of_nat (String.length b).

(** [str(n)] of an integer *)
Definition str (n : Z) : string := NilZero.string_of_int (Z.to_int n).

Definition lower_ascii (c : ascii) : ascii :=
  let n := nat_of_ascii c in
  if (Nat.leb 65 n && Nat.leb n 90)%bool then ascii_of_nat (n + 32) else c.

(** [s.lower()].  Only ASCII letters are mapped; the source compares the
    result with ASCII names only, and header names, decoded from ISO-8859-1
    by [http.server] and [http.client], hold no letter whose Unicode
    lower-case form is an ASCII letter other than these. *)
Fixpoint lower (s : string) : string :=
  match s with
  | EmptyString => EmptyString
  | String c r => String (lower_ascii c) (lower r)
  end.

(** The parts of [s] before and after the first [c], when there is one:
    [s.split(c, 1)] has two elements exactly then. *)
Fixpoint split_once (c : ascii) (s : string) : option (string * string) :=
  match s with
  | EmptyString => None
  | String a r =>
    if Ascii.eqb a c then Some (EmptyString, r)
    else match split_once c r with
         | Some (x, y) => Some (String a x, y)
         | None => None
         end
  end.

(** The same at the last [c]. *)
Fixpoint rsplit_once (c : ascii) (s : string) : option (string * string) :=
  match s with
  | EmptyString => None
  | String a r =>
    match rsplit_once c r with
    | Some (x, y) => Some (String a x, y)
    | None => if Ascii.eqb a c then Some (EmptyString, r) else None
    end
  end.

(** [host, port_str = s.split(":", 1)]: unpacking a one-element list
    raises [ValueError]. *)
Definition split_colon (s : string) : result (string * string) :=
  match split_once ":" s with
  | Some hp => Ok hp
  | None => Raise ValueError
  end.

Definition is_space (c : ascii) : bool :=
  let n := nat_of_ascii c in
  (Nat.eqb n 32 || (Nat.leb 9 n && Nat.leb n 13) || (Nat.leb 28 n && Nat.leb n 31))%bool.

Fixpoint lstrip (s : string) : string :=
  match s with
  | EmptyString => EmptyString
  | String c r => if is_space c then lstrip r else s
  end.

Fixpoint rstrip (s : string) : string :=
  match s with
  | EmptyString => EmptyString
  | String c r =>
    match rstrip r with
    | EmptyString => if is_space c then EmptyString else String c EmptyString
    | r' => String c r'
    end
  end.

(** [s.strip()] (ASCII white space) *)
Definition strip (s : string) : string := rstrip (lstrip s).

(** [os.path.join(a, b)] on POSIX *)
Definition path_join (a b : string) : string :=
  if startswith b "/" then b
  else if (String.eqb a "" || startswith (String.string_of_list_ascii
             (rev (String.list_ascii_of_string a))) "/")%bool then a +:+ b
  else a +:+ "/" +:+ b.

End Py.

(** ** The standard library and [requests], as an interface

    The functions below belong to CPython and are only called by the
    source.  The general theorems hold for every implementation of the
    interface; [CPython.lib] further down is a model of the real one that
    examples are evaluated with. *)

Module Lib.

(** The named tuple returned by [urllib.parse.urlparse]. *)
Record ParseResult : Type := mkParseResult {
  scheme : string;
  netloc : string;
  path : string;
  params : string;
  query : string;
  fragment : string
}.

Class PyLib : Type := {
  (** [urlparse(url)]; it raises [ValueError] on some malformed hosts *)
  urlparse : string → result ParseResult;
  (** [parse_qs(query)]: parameter name to the list of its values *)
  parse_qs : string → gmap string (list string);
  (** [quote(s, safe='')] *)
  quote : string → string;
  (** [json.dumps(d)] for a dictionary literal with string values, the
      items in the order they are written *)
  json_dumps : list (string * string) → string;
  (** [int(s)]; it raises [ValueError] when [s] is not a decimal literal *)
  int_ : string → result Z
}.


End Lib.

(** ** A model of the CPython functions

    Written after [urllib/parse.py], [json/encoder.py] and the integer
    parser of CPython 3.11.  It is exact on ASCII text, which is what the
    examples use; the notes say where it stops. *)

Module CPython.

Definition in_range (lo hi : nat) (c : ascii) : bool :=
  let n := nat_of_ascii c in (Nat.leb lo n && Nat.leb n hi)%bool.

Definition is_alpha (c : ascii) : bool := (in_range 65 90 c || in_range 97 122 c)%bool.
Definition is_digit (c : ascii) : bool := in_range 48 57 c.

(** [c in scheme_chars] *)
Definition is_scheme_char (c : ascii) : bool :=
  (is_alpha c || is_digit c || Ascii.eqb c "+" || Ascii.eqb c "-" || Ascii.eqb c ".")%bool.

Fixpoint forallb_str (p : ascii → bool) (s : string) : bool :=
  match s with
  | EmptyString => true
  | String c r => (p c && forallb_str p r)%bool
  end.

Fixpoint filter_str (p : ascii → bool) (s : string) : string :=
  match s with
  | EmptyString => EmptyString
  | String c r => if p c then String c (filter_str p r) else filter_str p r
  end.

Fixpoint dropwhile_str (p : ascii → bool) (s : string) : string :=
  match s with
  | EmptyString => EmptyString
  | String c r => if p c then dropwhile_str p r else s
  end.

(** The longest prefix without a character of [p], and the rest. *)
Fixpoint break_str (p : ascii → bool) (s : string) : string * string :=
  match s with
  | EmptyString => (EmptyString, EmptyString)
  | String c r =>
    if p c then (EmptyString, s)
    else let '(x, y) := break_str p r in (String c x, y)
  end.

Definition contains (c : ascii) (s : string) : bool :=
  negb (forallb_str (fun a => negb (Ascii.eqb a c)) s).

(** [scheme in uses_params] *)
Definition uses_params (scheme : string) : bool :=
  bool_decide (scheme ∈ [""; "ftp"; "hdl"; "prospero"; "http"; "imap"; "https";
                          "shttp"; "rtsp"; "rtspu"; "sip"; "sips"; "mms"; "sftp"; "tel"]).

(** [_splitparams(url)], called when [url] holds a [;] *)
Definition _splitparams (url : string) : string * string :=
  match Py.rsplit_once "/" url with
  | Some (dir, seg) =>
    match Py.split_once ";" seg with
    | Some (x, y) => (dir +:+ "/" +:+ x, y)
    | None => (url, "")
    end
  | None =>
    match Py.split_once ";" url with
    | Some xy => xy
    | None => (url, "")
    end
  end.

(** [urlparse(url)].  Leading C0 controls and spaces are stripped, tabs
    and line breaks removed, then scheme, netloc, fragment, query and
    params are split off in this order.  A netloc with an unmatched
    bracket raises [ValueError].  Not modelled: the validation of a
    bracketed host as an IP literal and the NFKC check of a non-ASCII
    netloc, which make CPython raise on further inputs. *)
Definition urlparse (url : string) : result Lib.ParseResult :=
  let url := dropwhile_str (in_range 0 32) url in
  let url := filter_str (fun c => negb (Ascii.eqb c "009" || Ascii.eqb c "010"
                                        || Ascii.eqb c "013")) url in
  let '(scheme, url) :=
    match Py.split_once ":" url with
    | Some (String c r as s, rest) =>
      if (is_alpha c && forallb_str is_scheme_char s)%bool
      then (Py.lower s, rest) else ("", url)
    | _ => ("", url)
    end in
  '(netloc, url) ←
    (if Py.startswith url "//" then
       let '(netloc, rest) :=
         break_str (fun c => Ascii.eqb c "/" || Ascii.eqb c "?" || Ascii.eqb c "#")
                   (Py.tail (Py.tail url)) in
       if negb (Bool.eqb (contains "[" netloc) (contains "]" netloc))
       then Raise ValueError else Ok (netloc, rest)
     else Ok ("", url));
  let '(url, fragment) :=
    match Py.split_once "#" url with Some xy => xy | None => (url, "") end in
  let '(url, query) :=
    match Py.split_once "?" url with Some xy => xy | None => (url, "") end in
  let '(url, params) :=
    if (uses_params scheme && contains ";" url)%bool then _splitparams url
    else (url, "") in
  Ok (Lib.mkParseResult scheme netloc url params query fragment).

Definition hex_value (c : ascii) : option nat :=
  let n := nat_of_ascii c in
  if in_range 48 57 c then Some (n - 48)%nat
  else if in_range 65 70 c then Some (n - 55)%nat
  else if in_range 97 102 c then Some (n - 87)%nat
  else None.

(** [unquote_to_bytes(s)]: every [%xx] with two hexadecimal digits becomes
    the byte [xx], anything else stays.  [unquote] then decodes the bytes
    as UTF-8, which is the identity here when they are valid UTF-8;
    CPython replaces undecodable bytes by U+FFFD, which is not modelled. *)
Fixpoint unquote (s : string) : string :=
  match s with
  | EmptyString => EmptyString
  | String c r =>
    if Ascii.eqb c "%" then
      match r with
      | String h (String l r') =>
        match hex_value h, hex_value l with
        | Some a, Some b => String (ascii_of_nat (16 * a + b)) (unquote r')
        | _, _ => String c (unquote r)
        end
      | _ => String c (unquote r)
      end
    else String c (unquote r)
  end.

(** [s.replace('+', ' ')] *)
Fixpoint plus_to_space (s : string) : string :=
  match s with
  | EmptyString => EmptyString
  | String c r => String (if Ascii.eqb c "+" then " "%char else c) (plus_to_space r)
  end.

(** [s.split(sep)] for a one-character separator *)
Fixpoint split_all (sep : ascii) (s : string) : list string :=
  match s with
  | EmptyString => [EmptyString]
  | String c r =>
    if Ascii.eqb c sep then EmptyString :: split_all sep r
    else match split_all sep r with
         | x :: xs => String c x :: xs
         | [] => [String c EmptyString]
         end
  end.

(** [parse_qsl(qs)] with its default arguments: fields are separated by
    [&]; a field without [=] or with an empty value is dropped; in names
    and values [+] is a space and percent escapes are decoded. *)
Definition parse_qsl (qs : string) : list (string * string) :=
  let query_args := if String.eqb qs "" then [] else split_all "&" qs in
  omap (fun name_value =>
          match Py.split_once "=" name_value with
          | Some (n, v) =>
            if String.eqb v "" then None
            else Some (unquote (plus_to_space n), unquote (plus_to_space v))
          | None => None
          end) query_args.

(** [parse_qs(qs)]: the values of each name, in order of appearance *)
Definition parse_qs (qs : string) : gmap string (list string) :=
  foldl (fun d '(name, value) => <[name := (default [] (d !! name) ++ [value])%list]> d)
        ∅ (parse_qsl qs).

Definition hex_digit (n : nat) : ascii :=
  ascii_of_nat (if Nat.ltb n 10 then 48 + n else 55 + n).

Definition is_unreserved (c : ascii) : bool :=
  (is_alpha c || is_digit c || Ascii.eqb c "_" || Ascii.eqb c "."
   || Ascii.eqb c "-" || Ascii.eqb c "~")%bool.

(** [quote(s, safe='')]: every byte of the UTF-8 encoding other than a
    letter, a digit or one of [_.-~] becomes [%XX]. *)
Fixpoint quote (s : string) : string :=
  match s with
  | EmptyString => EmptyString
  | String c r =>
    if is_unreserved c then String c (quote r)
    else let n := nat_of_ascii c in
         String "%" (String (hex_digit (n / 16)) (String (hex_digit (n mod 16)) (quote r)))
  end.

Definition hex_digit_lower (n : nat) : ascii :=
  ascii_of_nat (if Nat.ltb n 10 then 48 + n else 87 + n).

(** The body of a JSON string as [json.dumps] writes it ([ensure_ascii]
    on): quote and backslash get a backslash, the usual short escapes
    stand for line feed, carriage return, tab, backspace and form feed,
    and the other controls are written as a four-digit hexadecimal
    escape.  Bytes from 128 on are left as they are: CPython writes the
    code point they encode as such an escape too, which is not modelled. *)
Fixpoint json_escape (s : string) : string :=
  match s with
  | EmptyString => EmptyString
  | String c r =>
    let n := nat_of_ascii c in
    let bs := ascii_of_nat 92 in
    (if (Nat.eqb n 34 || Nat.eqb n 92)%bool then String bs (String c EmptyString)
     else if Nat.eqb n 10 then String bs "n"
     else if Nat.eqb n 13 then String bs "r"
     else if Nat.eqb n 9 then String bs "t"
     else if Nat.eqb n 8 then String bs "b"
     else if Nat.eqb n 12 then String bs "f"
     else if (Nat.ltb n 32 || Nat.eqb n 127)%bool then
       String bs "u00" +:+ String (hex_digit_lower (n / 16))
                            (String (hex_digit_lower (n mod 16)) EmptyString)
     else String c EmptyString) +:+ json_escape r
  end.

Definition json_string (s : string) : string :=
  String (ascii_of_nat 34) (json_escape s) +:+ String (ascii_of_nat 34) EmptyString.

Fixpoint json_items (d : list (string * string)) : string :=
  match d with
  | [] => ""
  | (k, v) :: d' =>
    json_string k +:+ ": " +:+ json_string v +:+
    match d' with [] => "" | _ => ", " +:+ json_items d' end
  end.

(** [json.dumps(d)] for a dictionary of strings *)
Definition json_dumps (d : list (string * string)) : string :=
  "{" +:+ json_items d +:+ "}".

Fixpoint digits_value (acc : Z) (s : string) : option Z :=
  match s with
  | EmptyString => Some acc
  | String c r =>
    if is_digit c then digits_value (10 * acc + Z.of_nat (nat_of_ascii c - 48)) r
    else if Ascii.eqb c "_" then
      match r with
      | String d _ => if is_digit d then digits_value acc r else None
      | EmptyString => None
      end
    else None
  end.

Definition is_int_space (c : ascii) : bool :=
  let n := nat_of_ascii c in (Nat.eqb n 32 || (Nat.leb 9 n && Nat.leb n 13))%bool.

Definition rev_str (s : string) : string :=
  String.string_of_list_ascii (rev (String.list_ascii_of_string s)).

(** [int(s)]: white space around, an optional sign, then decimal digits
    that single underscores may separate.  Not modelled: digits outside
    ASCII and the limit on the number of digits. *)
Definition int_ (s : string) : result Z :=
  let s := dropwhile_str is_int_space s in
  let s := rev_str (dropwhile_str is_int_space (rev_str s)) in
  let '(neg, s) :=
    match s with
    | String c r =>
      if Ascii.eqb c "-" then (true, r)
      else if Ascii.eqb c "+" then (false, r) else (false, s)
    | EmptyString => (false, s)
    end in
  match s with
  | String c _ =>
    if is_digit c then
      match digits_value 0 s with
      | Some n => Ok (if neg then - n else n)
      | None => Raise ValueError
      end
    else Raise ValueError
  | EmptyString => Raise ValueError
  end.

#[export] Instance lib : Lib.PyLib := {|
  Lib.urlparse := urlparse;
  Lib.parse_qs := parse_qs;
  Lib.quote := quote;
  Lib.json_dumps := json_dumps;
  Lib.int_ := int_
|}.

End CPython.

(** ** Endpoint selection

    [endpoints] is the list of endpoint dictionaries loaded at start-up,
    [state] the dictionary [context["state"]] shared by all requests
    (created empty by [run_local_proxy]). *)

Definition _choose_endpoint (endpoints : list (gmap string string))
    (policy : string) (state : gmap string Z) (rnd : Z)
  : result (option string * gmap string Z) :=
  match endpoints with
  | [] => Ok (None, state)
  | _ =>
    if String.eqb policy "roundrobin" then
      let idx := default 0 (state !! "idx") in
      i ← Py.mod_ idx (Py.len endpoints);
      ep ← Py.getitem endpoints i;
      let url := ep !! "url" in
      j ← Py.mod_ (idx + 1) (Py.len endpoints);
      Ok (url, <["idx" := j]> state)
    else
      ep ← Py.random_choice rnd endpoints;
      Ok (ep !! "url", state)
  end.

(** Selections made one after the other, one for each entropy value of
    [rnds]; the results are collected in call order. *)
Fixpoint select_seq (endpoints : list (gmap string string)) (policy : string)
    (rnds : list Z) (state : gmap string Z)
  : result (list (option string) * gmap string Z) :=
  match rnds with
  | [] => Ok ([], state)
  | rnd :: rnds' =>
    '(url, state1) ← _choose_endpoint endpoints policy state rnd;
    '(urls, state2) ← select_seq endpoints policy rnds' state1;
    Ok (url :: urls, state2)
  end.

(** ** Requests, responses and the trace of a handler *)

(** What a handler sees of an inbound request: [self.command],
    [self.path] (the request target), [self.headers.items()] in the order
    received, and the bytes that can be read from [self.rfile]. *)
Record request : Type := mkRequest {
  command : string;
  path : string;
  headers : list (string * string);
  rfile : string
}.

(** A [requests.Response]: [status_code], [headers.items()], [content]. *)
Record response : Type := mkResponse {
  status_code : Z;
  resp_headers : list (string * string);
  content : string
}.

(** [context] of [_make_handler], without the mutable ["state"] entry,
    which the handler monad carries. *)
Record context : Type := mkContext {
  endpoints : list (gmap string string);
  policy : string;
  timeout : Q
}.

Inductive sock : Type := Client | Upstream.

Inductive signal : Type := SIGTERM.

(** The calls a run makes on the outside world, in the order made. *)
Inductive event : Type :=
| send_response (code : Z)
| send_header (keyword value : string)
| end_headers
| wfile_write (data : string)
| _access_log (status bytes_sent : Z)
| requests_request (method url : string) (hdrs : gmap string string)
    (data : option string) (tmo : Q)
| create_connection (host : string) (port : Z) (tmo : Z)
| sendall (s : sock) (data : string)
| select_ (tmo : Z)
| recv (s : sock)
| upstream_close
| os_kill (pid : Z) (sig : signal)
| os_remove (p : string)
| print (line : string).

(** Handler state: the shared dictionary [context["state"]] and the trace
    so far.  An exception leaves both as they were when it was raised. *)
Record hstate : Type := mkHstate {
  state : gmap string Z;
  trace : list event
}.

Definition handler (A : Type) : Type := hstate → result A * hstate.

#[global] Instance handler_ret : MRet handler := fun _ a s => (Ok a, s).
#[global] Instance handler_bind : MBind handler := fun _ _ f m s =>
  match m s with
  | (Ok a, s') => f a s'
  | (Raise e, s') => (Raise e, s')
  end.

Definition emit (e : event) : handler unit :=
  fun s => (Ok tt, mkHstate (state s) (trace s ++ [e])).

Definition lift {A} (r : result A) : handler A := fun s => (r, s).

(** [self.headers.get(name)]: the value of the first header whose name
    matches without regard to case. *)
Definition headers_get (hs : list (string * string)) (name : string) : option string :=
  snd <$> List.find (fun kv => String.eqb (Py.lower (fst kv)) (Py.lower name)) hs.


(** The value of the last header named exactly [k]. *)
Fixpoint last_header (hs : list (string * string)) (k : string) : option string :=
  match hs with
  | [] => None
  | (k', v) :: hs' =>
    match last_header hs' k with
    | Some v' => Some v'
    | None => if String.eqb k' k then Some v else None
    end
  end.

(** [s or d] on strings *)
Definition or_ (s d : string) : string := if String.eqb s "" then d else s.

(** ** The forwarder *)

Section forwarder.
Context `{Lib.PyLib}.

(** The first part of [_forward]: the value of [target] when the test
    [if not target] that answers 400 is reached. *)
Definition _forward_target (req : request) : result (option string) :=
  parsed ← Lib.urlparse (path req);
  let target : option string := None in
  let p := Lib.path parsed in
  let target :=
    if (Py.startswith p "/http://" || Py.startswith p "/https://")%bool
    then Some (Py.tail p) else target in
  let target :=
    if (negb (Py.truthy target)
        && bool_decide (Lib.scheme parsed ∈ ["http"; "https"])
        && negb (String.eqb (Lib.netloc parsed) ""))%bool
    then Some (path req) else target in
  target ←
    (if negb (Py.truthy target) then
       let qs := Lib.parse_qs (Lib.query parsed) in
       u ← Py.getitem (default [None] (fmap (M:=list) Some <$> qs !! "url")) 0;
       Ok (if Py.truthy u then u else target)
     else Ok target);
  let target :=
    if negb (Py.truthy target) then
      let hdr := headers_get (headers req) "X-Target-URL" in
      if Py.truthy hdr then hdr else target
    else target in
  Ok target.

(** [exclude] of [_forward] *)
Definition exclude : gset string :=
  {[ "host"; "connection"; "proxy-connection"; "keep-alive";
     "transfer-encoding"; "upgrade" ]}.

(** The loop that fills [fwd_headers]. *)
Definition fwd_headers (hs : list (string * string)) : gmap string string :=
  foldl (fun fwd '(k, v) =>
           if decide (Py.lower k ∈ exclude) then fwd else <[k := v]> fwd)
        ∅ hs.

(** The request body read for the outbound call. *)
Definition read_data (req : request) : result (option string) :=
  if negb (bool_decide (command req ∈ ["GET"; "HEAD"])) then
    length ← Lib.int_ (or_ (default "0" (headers_get (headers req) "Content-Length")) "0");
    Ok (if decide (length > 0) then Some (Py.take length (rfile req)) else None)
  else Ok None.

(** [excluded_resp] of [_forward] *)
Definition excluded_resp : gset string := {[ "transfer-encoding"; "content-encoding" ]}.

(** The loop over [resp.headers.items()]. *)
Fixpoint send_resp_headers (hs : list (string * string)) : handler unit :=
  match hs with
  | [] => mret tt
  | (k, v) :: hs' =>
    (if decide (Py.lower k ∈ excluded_resp) then mret tt
     else if String.eqb (Py.lower k) "content-length" then mret tt
     else emit (send_header k v));;
    send_resp_headers hs'
  end.

(** [_choose_endpoint] run on the shared state. *)
Definition choose (ctx : context) (rnd : Z) : handler (option string) :=
  fun s =>
    match _choose_endpoint (endpoints ctx) (policy ctx) (state s) rnd with
    | Ok (worker, st) => (Ok worker, mkHstate st (trace s))
    | Raise e => (Raise e, s)
    end.

(** The [try] block of [_forward] from the point where
    [requests.request] has answered with [outcome]: a response is relayed,
    a [RequestException] is reported with status 502, any other exception
    is not caught. *)
Definition _forward_relay (outcome : result response) : handler unit :=
  match outcome with
  | Ok resp =>
    let content := content resp in
    emit (send_response (status_code resp));;
    send_resp_headers (resp_headers resp);;
    emit (send_header "Content-Length" (Py.str (Py.blen content)));;
    emit end_headers;;
    (if negb (String.eqb content "") then emit (wfile_write content) else mret tt);;
    emit (_access_log (status_code resp) (Py.blen content))
  | Raise (RequestException e) =>
    let msg := Lib.json_dumps [("error", "Proxy request failed"); ("message", e)] in
    emit (send_response 502);;
    emit (send_header "Content-Type" "application/json");;
    emit (send_header "Content-Length" (Py.str (Py.blen msg)));;
    emit end_headers;;
    emit (wfile_write msg);;
    emit (_access_log 502 (Py.blen msg))
  | Raise e => lift (Raise e)
  end.

(** [_forward].  [net] is what [requests.request] does with the outbound
    call (method, URL, headers, body): a response, or an exception; [rnd]
    is the entropy for a random selection. *)
Definition _forward (ctx : context)
    (net : string → string → gmap string string → option string → result response)
    (rnd : Z) (req : request) : handler unit :=
  target ← lift (_forward_target req);
  if negb (Py.truthy target) then
    let body := Lib.json_dumps [("error", "No target URL specified")] in
    emit (send_response 400);;
    emit (send_header "Content-Type" "application/json");;
    emit (send_header "Content-Length" (Py.str (Py.blen body)));;
    emit end_headers;;
    emit (wfile_write body);;
    emit (_access_log 400 (Py.blen body))
  else
  let target := default "" target in
  worker ← choose ctx rnd;
  if negb (Py.truthy worker) then
    let body := Lib.json_dumps [("error", "No worker endpoints available")] in
    emit (send_response 503);;
    emit (send_header "Content-Type" "application/json");;
    emit (send_header "Content-Length" (Py.str (Py.blen body)));;
    emit end_headers;;
    emit (wfile_write body);;
    emit (_access_log 503 (Py.blen body))
  else
  let worker := default "" worker in
  let upstream_url := worker +:+ "?url=" +:+ Lib.quote target in
  let fwd := fwd_headers (headers req) in
  data ← lift (read_data req);
  emit (requests_request (command req) upstream_url fwd data (timeout ctx));;
  _forward_relay (net (command req) upstream_url fwd data).



End forwarder.

(** ** The CONNECT tunnel *)

(** What one [recv] of the relay loop meets: data that is passed on, data
    whose forwarding [sendall] fails, an empty read (the peer closed) or
    an error. *)
Inductive recv_outcome : Type :=
| Data (data : string)
| DataSendFails (data : string)
| Closed
| RecvError.

(** The inner [for s in rlist] loop.  The result is [inl bytes_out] when
    the list is exhausted and [inr bytes_out] when the [except] branch
    ended the session. *)
Fixpoint relay_ready (rlist : list (sock * recv_outcome)) (bytes_out : Z)
  : handler (Z + Z) :=
  match rlist with
  | [] => mret (inl bytes_out)
  | (s, o) :: rlist' =>
    emit (recv s);;
    match o with
    | Data data =>
      match s with
      | Client => emit (sendall Upstream data);; relay_ready rlist' bytes_out
      | Upstream =>
        emit (sendall Client data);; relay_ready rlist' (bytes_out + Py.blen data)
      end
    | DataSendFails data =>
      emit (sendall (match s with Client => Upstream | Upstream => Client end) data);;
      mret (inr bytes_out)
    | Closed | RecvError => mret (inr bytes_out)
    end
  end.

(** The [while True] loop over the answers of [select.select]; an empty
    answer is the 30 second timeout, and so is the end of the script. *)
Fixpoint relay (script : list (list (sock * recv_outcome))) (bytes_out : Z)
  : handler unit :=
  emit (select_ 30);;
  match script with
  | [] | [] :: _ =>
    emit upstream_close;;
    emit (_access_log 200 bytes_out)
  | rlist :: script' =>
    r ← relay_ready rlist bytes_out;
    match r with
    | inl bytes_out' => relay script' bytes_out'
    | inr bytes_out' =>
      emit upstream_close;;
      emit (_access_log 200 bytes_out');;
      emit upstream_close
    end
  end.

Section tunnel.
Context `{Lib.PyLib}.

(** The first [try] block of [do_CONNECT]: [host] and [port] of the
    request target, or the exception raised by the unpacking or by
    [int]. *)
Definition connect_target (req : request) : result (string * Z) :=
  '(host, port_str) ← Py.split_colon (path req);
  port ← Lib.int_ port_str;
  Ok (host, port).

(** [do_CONNECT].  [dial host port] tells whether
    [socket.create_connection] succeeds, [established_ok] whether the
    first [sendall] to the client does, [script] what the relay loop then
    meets. *)
Definition do_CONNECT (dial : string → Z → bool) (established_ok : bool)
    (script : list (list (sock * recv_outcome))) (req : request) : handler unit :=
  match connect_target req with
  | Raise _ =>
    emit (send_response 400);;
    emit end_headers;;
    emit (_access_log 400 0)
  | Ok (host, port) =>
    emit (create_connection host port 10);;
    if negb (dial host port) then
      emit (send_response 502);;
      emit end_headers;;
      emit (_access_log 502 0)
    else
      emit (sendall Client ("HTTP/1.1 200 Connection Established"
                            +:+ Py.crlf +:+ Py.crlf));;
      if established_ok then relay script 0
      else emit upstream_close;; lift (Raise (OtherException "sendall"))
  end.

End tunnel.

(** ** The PID marker and [serve-stop] *)

(** [_pid_path()], [cwd] being [os.getcwd()] *)
Definition _pid_path (cwd : string) : string :=
  Py.path_join cwd "flareprox_server.pid".

(** [_write_pid(pid)]; files are a map from path to contents *)
Definition _write_pid (cwd : string) (pid : Z) (fs : gmap string string)
  : gmap string string :=
  <[_pid_path cwd := Py.str pid]> fs.

Section supervisor.
Context `{Lib.PyLib}.

(** [_read_pid()] *)
Definition _read_pid (cwd : string) (fs : gmap string string) : option Z :=
  let p := _pid_path cwd in
  match fs !! p with
  | None => None
  | Some text =>
    match Lib.int_ (Py.strip text) with
    | Ok n => Some n
    | Raise _ => None
    end
  end.

(** [_remove_pid()]; [remove_ok] tells whether [os.remove] succeeds, its
    exception is swallowed otherwise.  The result is the trace and the
    files afterwards. *)
Definition _remove_pid (remove_ok : bool) (cwd : string) (fs : gmap string string)
  : list event * gmap string string :=
  let p := _pid_path cwd in
  match fs !! p with
  | Some _ => ([os_remove p], if remove_ok then delete p fs else fs)
  | None => ([], fs)
  end.

(** The [serve-stop] branch of [main].  [kill pid sig] is [None] when
    [os.kill] succeeds and [Some msg] when it raises an exception [e]
    with [str(e) = msg]. *)
Definition serve_stop (kill : Z → signal → option string) (remove_ok : bool)
    (cwd : string) (fs : gmap string string) : list event * gmap string string :=
  let pid := _read_pid cwd fs in
  if negb (Py.truthy_int pid) then
    ([print (Py.nl +:+ "  ✗ No PID file found" +:+ Py.nl)], fs)
  else
    let pid := default 0 pid in
    match kill pid SIGTERM with
    | None =>
      let '(evs, fs') := _remove_pid remove_ok cwd fs in
      (os_kill pid SIGTERM :: evs ++ [print (Py.nl +:+ "  ✓ Server stopped" +:+ Py.nl)],
       fs')%list
    | Some e =>
      ([os_kill pid SIGTERM;
        print (Py.nl +:+ "  ✗ Failed to stop server: " +:+ e +:+ Py.nl)], fs)
    end.

End supervisor.

(** ** Vocabulary of the statements *)

(** The calls that write a JSON reply with status [code] and body [body],
    as [_forward] makes them for 400, 503 and 502. *)
Definition json_reply (code : Z) (body : string) : list event :=
  [ send_response code;
    send_header "Content-Type" "application/json";
    send_header "Content-Length" (Py.str (Py.blen body));
    end_headers;
    wfile_write body;
    _access_log code (Py.blen body) ].

(** The response headers the specification says are relayed: all but
    [transfer-encoding], [content-encoding] and [content-length], names
    compared without regard to case. *)
Definition relayed_header (kv : string * string) : bool :=
  negb (bool_decide (Py.lower kv.1 ∈
          ["transfer-encoding"; "content-encoding"; "content-length"])).

(** The calls that relay the upstream response [resp]. *)
Definition relayed_response (resp : response) : list event :=
  [send_response (status_code resp)]
  ++ map (fun kv => send_header kv.1 kv.2) (List.filter relayed_header (resp_headers resp))
  ++ [send_header "Content-Length" (Py.str (Py.blen (content resp))); end_headers]
  ++ (if String.eqb (content resp) "" then [] else [wfile_write (content resp)])
  ++ [_access_log (status_code resp) (Py.blen (content resp))].

(** The bytes a trace writes to the client as body. *)
Fixpoint body_written (tr : list event) : string :=
  match tr with
  | [] => ""
  | wfile_write data :: tr' => data +:+ body_written tr'
  | _ :: tr' => body_written tr'
  end.

(** The number of outbound calls and of status lines in a trace. *)
Fixpoint outbound_calls (tr : list event) : nat :=
  match tr with
  | [] => 0
  | requests_request _ _ _ _ _ :: tr' => S (outbound_calls tr')
  | _ :: tr' => outbound_calls tr'
  end.

Fixpoint responses_sent (tr : list event) : nat :=
  match tr with
  | [] => 0
  | send_response _ :: tr' => S (responses_sent tr')
  | _ :: tr' => responses_sent tr'
  end.

(** "All inbound headers are copied except the excluded ones", read on
    the header list of a request. *)
Definition all_headers_copied (hs : list (string * string)) : Prop :=
  ∀ k v, (k, v) ∈ hs → Py.lower k ∉ exclude → fwd_headers hs !! k = Some v.

(** A request is forwarded: its target resolves to [t], the selection
    made in state [s] yields the endpoint URL [w] and leaves the cursor
    state [st], and the body read for the outbound call is [data]. *)
Definition forwarded `{Lib.PyLib} (ctx : context) (rnd : Z) (req : request)
    (s : hstate) (t w : string) (st : gmap string Z) (data : option string) : Prop :=
  _forward_target req = Ok (Some t) ∧ t ≠ "" ∧
  _choose_endpoint (endpoints ctx) (policy ctx) (state s) rnd = Ok (Some w, st) ∧
  w ≠ "" ∧
  read_data req = Ok data.

(** ** Data of the examples *)

Module Ex.

Definition pool3 : list (gmap string string) :=
  [ {[ "url" := "A" ]}; {[ "url" := "B" ]}; {[ "url" := "C" ]} ].

Definition worker : string := "https://w1.example.workers.dev".

Definition ctx : context :=
  mkContext [ {[ "name" := "w1"; "url" := worker ]} ] "roundrobin" 30.

Definition ctx_empty (policy : string) : context := mkContext [] policy 30.

Definition s0 : hstate := mkHstate ∅ [].

(** An upstream that answers every call with 200 and the body [ok]. *)
Definition net_ok (method url : string) (hdrs : gmap string string)
    (data : option string) : result response :=
  Ok (mkResponse 200 [("Content-Type", "text/plain"); ("Content-Length", "2");
                      ("Transfer-Encoding", "chunked")] "ok").

(** An upstream that cannot be reached. *)
Definition net_down (method url : string) (hdrs : gmap string string)
    (data : option string) : result response :=
  Raise (RequestException "connection refused").



Definition req_embedded : request := mkRequest "GET" "/https://example.com" [] "".

Definition req_no_target : request := mkRequest "GET" "/" [("Host", "127.0.0.1:8080")] "".

Definition req_foo : request :=
  mkRequest "GET" "/?url=https://example.com/x&foo=1"
    [("Host", "127.0.0.1:8080"); ("Accept", "*/*")] "".

Definition req_post : request :=
  mkRequest "POST" "/?url=http://t.example/"
    [("Host", "127.0.0.1:8080"); ("Connection", "keep-alive");
     ("X-A", "1"); ("X-A", "2"); ("Content-Length", "3")] "abcdef".

Definition req_get_with_body : request :=
  mkRequest "GET" "/?url=http://t.example/" [("Content-Length", "3")] "abc".

Definition req_connect (target : string) : request := mkRequest "CONNECT" target [] "".

Definition cwd : string := "/srv/fp".

(** The double quote, and the text of a JSON object of strings. *)
Definition dq : string := String (ascii_of_nat 34) EmptyString.
Definition json (d : list (string * string)) : string := CPython.json_dumps d.

Definition fs_marker : gmap string string := _write_pid cwd 4242 ∅.

End Ex.


(** * The rest of the local proxy and of the command line

    The definitions from here to the properties embed code that the
    sections above leave out: the dispatch on the request method and the
    serving loop, the [serve] and [serve-status] branches of [main], and
    the pure parts of [CloudflareManager] and [FlareProx]. *)

(** ** The serving loop *)

(** What the outside world answers while one request is handled: the
    outcome of the outbound call, the entropy of a random selection, and
    for a tunnel the outcome of the dial, of the first [sendall] and what
    the relay loop meets. *)
Record world : Type := mkWorld {
  w_net : string → string → gmap string string → option string → result response;
  w_rnd : Z;
  w_dial : string → Z → bool;
  w_established_ok : bool;
  w_script : list (list (sock * recv_outcome))
}.

(** The commands for which [ProxyRequestHandler] defines a [do_] method
    that calls [_forward]. *)
Definition forwarded_methods : list string :=
  ["GET"; "HEAD"; "POST"; "PUT"; "DELETE"; "OPTIONS"].

Section server.
Context `{Lib.PyLib}.

(** The method called for a request: [http.server] calls
    [do_<command>] when the handler class defines it.  For any other
    command the library answers 501 by itself and no code of the class
    runs; that reply is not part of the trace. *)
Definition handle_one_request (ctx : context) (w : world) (req : request)
  : handler unit :=
  if bool_decide (command req ∈ forwarded_methods) then
    _forward ctx (w_net w) (w_rnd w) req
  else if String.eqb (command req) "CONNECT" then
    do_CONNECT (w_dial w) (w_established_ok w) (w_script w) req
  else mret tt.

(** [server.serve_forever()] in the schedule where the handler of a
    request ends before the next one starts.  [ThreadingHTTPServer] runs
    every handler in a thread of its own; runs in which two handlers
    overlap are not described.  An exception that leaves a handler is
    reported by [socketserver] and the loop goes on; what the handler did
    to the shared state stays. *)
Fixpoint serve_forever (ctx : context) (reqs : list (world * request)) (s : hstate)
  : hstate :=
  match reqs with
  | [] => s
  | (w, req) :: reqs' => serve_forever ctx reqs' (handle_one_request ctx w req s).2
  end.

(** [run_local_proxy], [endpoints] being what [_load_or_sync_endpoints]
    returned: the context starts with an empty ["state"]. *)
Definition run_local_proxy (endpoints : list (gmap string string)) (selection : string)
    (timeout : Q) (reqs : list (world * request)) : hstate :=
  serve_forever (mkContext endpoints selection timeout) reqs (mkHstate ∅ []).

(** A request that reaches the selection of an endpoint: its command is
    forwarded and its target resolves. *)
Definition selects (req : request) : bool :=
  bool_decide (command req ∈ forwarded_methods)
  && match _forward_target req with
     | Ok t => Py.truthy t
     | Raise _ => false
     end.

End server.

(** ** Vocabulary on traces *)

(** The access log records of a trace. *)
Fixpoint access_log_records (tr : list event) : list (Z * Z) :=
  match tr with
  | [] => []
  | _access_log status bytes_sent :: tr' => (status, bytes_sent) :: access_log_records tr'
  | _ :: tr' => access_log_records tr'
  end.

(** The values of the headers of a trace whose name is [Content-Length],
    in any case. *)
Fixpoint content_length_headers (tr : list event) : list string :=
  match tr with
  | [] => []
  | send_header k v :: tr' =>
    if String.eqb (Py.lower k) "content-length" then v :: content_length_headers tr'
    else content_length_headers tr'
  | _ :: tr' => content_length_headers tr'
  end.

(** The status codes of the status lines of a trace. *)
Fixpoint status_lines (tr : list event) : list Z :=
  match tr with
  | [] => []
  | send_response code :: tr' => code :: status_lines tr'
  | _ :: tr' => status_lines tr'
  end.

(** How often a trace opens a connection and closes the upstream socket. *)
Fixpoint connections_opened (tr : list event) : nat :=
  match tr with
  | [] => 0
  | create_connection _ _ _ :: tr' => S (connections_opened tr')
  | _ :: tr' => connections_opened tr'
  end.

Fixpoint upstream_closes (tr : list event) : nat :=
  match tr with
  | [] => 0
  | upstream_close :: tr' => S (upstream_closes tr')
  | _ :: tr' => upstream_closes tr'
  end.

(** The readiness reports of a tunnel up to the first time-out of
    [select], laid end to end. *)
Fixpoint until_idle (script : list (list (sock * recv_outcome)))
  : list (sock * recv_outcome) :=
  match script with
  | [] => []
  | [] :: _ => []
  | rlist :: script' => (rlist ++ until_idle script')%list
  end.

(** The reads of a session that passed data on: those before the first
    closed peer, failed read or failed send. *)
Fixpoint passed_on (steps : list (sock * recv_outcome)) : list (sock * string) :=
  match steps with
  | (s, Data data) :: steps' => (s, data) :: passed_on steps'
  | _ => []
  end.

(** The number of bytes among them that came from upstream. *)
Fixpoint from_upstream (chunks : list (sock * string)) : Z :=
  match chunks with
  | [] => 0
  | (Upstream, data) :: chunks' => Py.blen data + from_upstream chunks'
  | (Client, _) :: chunks' => from_upstream chunks'
  end.

Definition relayed_bytes (script : list (list (sock * recv_outcome))) : Z :=
  from_upstream (passed_on (until_idle script)).

(** ** [serve] in the background and [serve-status] *)

(** Calls of the command line on the outside world that the handler does
    not make. *)
Inductive cli_event : Type :=
| printed (line : string)
| popen (cmd : list string)
| os_kill_0 (pid : Z)
| requests_delete (url : string).

(** The URLs of the DELETE requests of a trace. *)
Fixpoint deletes (evs : list cli_event) : list string :=
  match evs with
  | [] => []
  | requests_delete url :: evs' => url :: deletes evs'
  | _ :: evs' => deletes evs'
  end.

(** The command line of the child that [serve --daemon] starts.
    [executable] is [sys.executable], [script] is
    [os.path.abspath(__file__)] and [timeout] is [str(args.timeout)]. *)
Definition daemon_cmd (executable script host : string) (port : Z)
    (selection timeout : string) : list string :=
  [executable; script; "serve"; "--host"; host; "--port"; Py.str port;
   "--selection"; selection; "--timeout"; timeout; "--foreground"].

(** The [serve] branch of [main] when [--daemon] is given without
    [--foreground].  [spawn cmd] is the process id of the child that
    [subprocess.Popen] starts, or the text of the exception it raises,
    which the last [except] clause of [main] prints. *)
Definition serve_daemon (spawn : list string → Z + string)
    (executable script host : string) (port : Z) (selection timeout : string)
    (cwd : string) (fs : gmap string string)
  : list cli_event * gmap string string :=
  let cmd := daemon_cmd executable script host port selection timeout in
  match spawn cmd with
  | inl pid =>
    ([popen cmd;
      printed (Py.nl +:+ "  ✓ Server started in background (PID " +:+ Py.str pid +:+ ")"
               +:+ Py.nl)],
     _write_pid cwd pid fs)
  | inr e =>
    ([popen cmd; printed (Py.nl +:+ "  ✗ Unexpected error: " +:+ e +:+ Py.nl)], fs)
  end.

Section status.
Context `{Lib.PyLib}.

(** The [serve-status] branch of [main].  [alive pid] tells whether
    [os.kill(pid, 0)] returns rather than raises. *)
Definition serve_status (alive : Z → bool) (cwd : string) (fs : gmap string string)
  : list cli_event :=
  let pid := _read_pid cwd fs in
  if negb (Py.truthy_int pid) then
    [printed (Py.nl +:+ "  • Server not running" +:+ Py.nl)]
  else
    let pid := default 0 pid in
    if alive pid then
      [os_kill_0 pid;
       printed (Py.nl +:+ "  ✓ Server running (PID " +:+ Py.str pid +:+ ")" +:+ Py.nl)]
    else
      [os_kill_0 pid;
       printed (Py.nl +:+ "  • PID file exists but process not running" +:+ Py.nl)].

End status.

(** ** [CloudflareManager]: names, listing and deletion of workers

    A [FlareProxError] is written [OtherException], with its message. *)

Module Cf.

(** [string.ascii_lowercase] and [string.digits] *)
Definition ascii_lowercase : string := "abcdefghijklmnopqrstuvwxyz".
Definition digits : string := "0123456789".

(** [''.join(random.choices(population, k=k))]: draw [i] is
    [population[floor(random() * len(population))]], the index being the
    entropy [rnd i] reduced to the range.  An empty population raises
    [IndexError]. *)
Fixpoint choices_from (population : list ascii) (rnd : nat → Z) (i k : nat)
  : result string :=
  match k with
  | O => Ok EmptyString
  | S k' =>
    c ← Py.getitem population (rnd i `mod` Py.len population);
    rest ← choices_from population rnd (S i) k';
    Ok (String c rest)
  end.

Definition choices (population : string) (k : nat) (rnd : nat → Z) : result string :=
  match String.list_ascii_of_string population with
  | [] => Raise IndexError
  | pop => choices_from pop rnd 0 k
  end.

(** [_generate_subdomain_name] *)
Definition _generate_subdomain_name (account_id : string) (rnd : nat → Z)
  : result string :=
  let account_prefix := Py.lower (Py.take 10 account_id) in
  random_suffix ← choices (ascii_lowercase +:+ digits) 3 rnd;
  Ok (account_prefix +:+ "-" +:+ random_suffix).

(** [_generate_worker_name], [now] being [int(time.time())] *)
Definition _generate_worker_name (now : Z) (rnd : nat → Z) : result string :=
  let timestamp := Py.str now in
  random_suffix ← choices ascii_lowercase 6 rnd;
  Ok ("flareprox-" +:+ timestamp +:+ "-" +:+ random_suffix).

(** The dictionary [list_deployments] builds for a script. *)
Definition deployment (subdomain : string) (script : gmap string string)
  : gmap string string :=
  let name := default "" (script !! "id") in
  {[ "name" := name;
     "url" := "https://" +:+ name +:+ "." +:+ subdomain +:+ ".workers.dev";
     "created_at" := default "unknown" (script !! "created_on") ]}.

(** [name.startswith("flareprox-")], [name] being [script.get("id", "")] *)
Definition is_flareprox (script : gmap string string) : bool :=
  Py.startswith (default "" (script !! "id")) "flareprox-".

(** The loop of [list_deployments] over the scripts of the account.
    [worker_subdomain] is what reading the property of that name gives: a
    subdomain, which the property keeps for the next read, or the
    exception it raises.  It is read for every script that is kept.  What
    the property prints when it is first read is not described. *)
Fixpoint list_deployments_loop (worker_subdomain : result string)
    (scripts workers : list (gmap string string))
  : result (list (gmap string string)) :=
  match scripts with
  | [] => Ok workers
  | script :: scripts' =>
    if is_flareprox script then
      subdomain ← worker_subdomain;
      list_deployments_loop worker_subdomain scripts'
        (workers ++ [deployment subdomain script])%list
    else list_deployments_loop worker_subdomain scripts' workers
  end.

(** [list_deployments].  [api] is the outcome of the request for the
    scripts of the account: [data.get("result", [])], or the exception of
    [requests.get] and [raise_for_status]. *)
Definition list_deployments (api : result (list (gmap string string)))
    (worker_subdomain : result string) : result (list (gmap string string)) :=
  match api with
  | Ok scripts => list_deployments_loop worker_subdomain scripts []
  | Raise (RequestException e) =>
    Raise (OtherException ("Failed to list workers: " +:+ e))
  | Raise e => Raise e
  end.

(** [base_url] and the URL of a script *)
Definition base_url : string := "https://api.cloudflare.com/client/v4".

Definition script_url (account_id name : string) : string :=
  base_url +:+ "/accounts/" +:+ account_id +:+ "/workers/scripts/" +:+ name.

(** [status_code in [200, 404]] *)
Definition gone (status_code : Z) : bool :=
  bool_decide (status_code ∈ [200; 404]).

(** The loop of [delete_workers].  [delete i url] is the outcome of the
    [i]-th call of [requests.delete]: a status code or an exception; only
    a [RequestException] is caught. *)
Fixpoint delete_workers_loop (account_id : string) (delete : nat → string → result Z)
    (i : nat) (worker_names : list string) (results : gmap string bool)
  : list cli_event * result (gmap string bool) :=
  match worker_names with
  | [] => ([], Ok results)
  | name :: names' =>
    let url := script_url account_id name in
    match delete i url with
    | Ok status_code =>
      let '(evs, r) :=
        delete_workers_loop account_id delete (S i) names'
          (<[name := gone status_code]> results) in
      (requests_delete url :: evs, r)
    | Raise (RequestException _) =>
      let '(evs, r) :=
        delete_workers_loop account_id delete (S i) names' (<[name := false]> results) in
      (requests_delete url :: evs, r)
    | Raise e => ([requests_delete url], Raise e)
    end
  end.

(** [delete_workers] *)
Definition delete_workers (account_id : string) (delete : nat → string → result Z)
    (worker_names : list string) : list cli_event * result (gmap string bool) :=
  delete_workers_loop account_id delete 0 worker_names ∅.

(** [d[key]] on a dictionary of strings: a missing key raises [KeyError]. *)
Definition item (d : gmap string string) (key : string) : result string :=
  match d !! key with
  | Some v => Ok v
  | None => Raise (OtherException ("KeyError: " +:+ key))
  end.

(** [f"[{i}/{n}]"] *)
Definition progress (i n : Z) : string :=
  "[" +:+ Py.str i +:+ "/" +:+ Py.str n +:+ "]".

(** The loop of [cleanup_all] over [enumerate(workers, 1)], from worker
    number [i] of [n] on; the result holds the two counters. *)
Fixpoint cleanup_loop (account_id : string) (delete : nat → string → result Z)
    (n : Z) (i : nat) (workers : list (gmap string string))
    (deleted_count failed_count : Z)
  : list cli_event * result (Z * Z) :=
  match workers with
  | [] => ([], Ok (deleted_count, failed_count))
  | worker :: workers' =>
    match item worker "name" with
    | Raise e => ([], Raise e)
    | Ok name =>
      let url := script_url account_id name in
      let number := progress (Z.of_nat i + 1) n in
      match delete i url with
      | Ok status_code =>
        if gone status_code then
          let '(evs, r) := cleanup_loop account_id delete n (S i) workers'
                             (deleted_count + 1) failed_count in
          (requests_delete url
           :: printed ("  ✓ " +:+ number +:+ " Deleted: " +:+ name) :: evs, r)
        else
          let '(evs, r) := cleanup_loop account_id delete n (S i) workers'
                             deleted_count (failed_count + 1) in
          (requests_delete url
           :: printed ("  ✗ " +:+ number +:+ " Failed: " +:+ name) :: evs, r)
      | Raise (RequestException _) =>
        let '(evs, r) := cleanup_loop account_id delete n (S i) workers'
                           deleted_count (failed_count + 1) in
        (requests_delete url
         :: printed ("  ✗ " +:+ number +:+ " Error: " +:+ name) :: evs, r)
      | Raise e => ([requests_delete url], Raise e)
      end
    end
  end.

(** [f"  Summary: ..."] *)
Definition summary (deleted_count failed_count : Z) : string :=
  Py.nl +:+ "  Summary: " +:+ Py.str deleted_count +:+ " deleted, "
  +:+ Py.str failed_count +:+ " failed".

(** [CloudflareManager.cleanup_all] *)
Definition cleanup_all (account_id : string) (api : result (list (gmap string string)))
    (worker_subdomain : result string) (delete : nat → string → result Z)
  : list cli_event * result unit :=
  match list_deployments api worker_subdomain with
  | Raise e => ([], Raise e)
  | Ok [] => ([printed "  • No workers to delete"], Ok tt)
  | Ok workers =>
    let n := Py.len workers in
    let head :=
      printed ("  Deleting " +:+ Py.str n +:+ " worker"
               +:+ (if decide (n ≠ 1) then "s" else "") +:+ "..." +:+ Py.nl) in
    match cleanup_loop account_id delete n 0 workers 0 0 with
    | (evs, Ok (deleted_count, failed_count)) =>
      (head :: evs ++ [printed (summary deleted_count failed_count)], Ok tt)%list
    | (evs, Raise e) => (head :: evs, Raise e)
    end
  end.

End Cf.

(** ** [FlareProx]: the configuration *)

Module Config.

(** What the code does with a value that [json.load] returned and with
    the dictionary [config["cloudflare"]]: the operations of Python it
    applies to them.  An exception is named by its type. *)
Class PyJson : Type := {
  (** a value [json.load] returns, or that such a value holds *)
  value : Type;
  (** a dictionary that [update] fills *)
  pydict : Type;
  (** [{}] *)
  empty_dict : pydict;
  (** [bool(d)] *)
  dict_bool : pydict → bool;
  (** [d.get(key)] *)
  dict_get : pydict → string → option value;
  (** [bool(v)] *)
  value_bool : value → bool;
  (** [key in v] *)
  contains : value → string → result bool;
  (** [v[key]] *)
  getitem : value → string → result value;
  (** [d.update(v)], the dictionary afterwards *)
  dict_update : pydict → value → result pydict;
  (** [{}] is false and has no key *)
  empty_dict_bool : dict_bool empty_dict = false;
  empty_dict_get : ∀ key, dict_get empty_dict key = None
}.

Section loading.
Context `{PyJson}.

(** The files: a path is absent, or [open] or [json.load] raises on it
    [JSONDecodeError] or [IOError] with the given text ([inl]), or raises
    another exception, or [json.load] returns a value ([inr]). *)
Definition files : Type := gmap string (string + result value).

(** [str(e)] of the [FileNotFoundError] that [open] raises for a path
    that does not exist. *)
Variable no_such_file : string → string.

(** [_load_config_file].  The [except] clause catches [JSONDecodeError]
    and [IOError] only.  [config["cloudflare"]] raises [KeyError] when
    [config] has no such key. *)
Definition _load_config_file (fs : files) (config_path : string)
    (config : gmap string pydict) : list cli_event * result (gmap string pydict) :=
  match fs !! config_path with
  | Some (inr (Ok file_config)) =>
    match contains file_config "cloudflare" with
    | Raise e => ([], Raise e)
    | Ok false => ([], Ok config)
    | Ok true =>
      match config !! "cloudflare" with
      | None => ([], Raise (OtherException "KeyError"))
      | Some cloudflare =>
        if negb (dict_bool cloudflare) then
          match getitem file_config "cloudflare" with
          | Raise e => ([], Raise e)
          | Ok section =>
            match dict_update cloudflare section with
            | Raise e => ([], Raise e)
            | Ok cloudflare' => ([], Ok (<["cloudflare" := cloudflare']> config))
            end
          end
        else ([], Ok config)
      end
    end
  | Some (inr (Raise e)) => ([], Raise e)
  | Some (inl e) =>
    ([printed ("Warning: Could not load config file " +:+ config_path +:+ ": " +:+ e)],
     Ok config)
  | None =>
    ([printed ("Warning: Could not load config file " +:+ config_path +:+ ": "
               +:+ no_such_file config_path)],
     Ok config)
  end.

(** The loop of [_load_config] over [default_configs]: the first file
    that exists is loaded and ends the loop. *)
Fixpoint load_first_existing (fs : files) (default_configs : list string)
    (config : gmap string pydict) : list cli_event * result (gmap string pydict) :=
  match default_configs with
  | [] => ([], Ok config)
  | default_config :: rest =>
    if bool_decide (is_Some (fs !! default_config)) then
      _load_config_file fs default_config config
    else load_first_existing fs rest config
  end.

(** [_load_config], [home_config] being
    [os.path.expanduser("~/.flareprox.json")] *)
Definition _load_config (fs : files) (home_config : string) (config_file : option string)
  : list cli_event * result (gmap string pydict) :=
  let config : gmap string pydict := {[ "cloudflare" := empty_dict ]} in
  let '(evs1, r) :=
    if (Py.truthy config_file
        && bool_decide (is_Some (fs !! default "" config_file)))%bool
    then _load_config_file fs (default "" config_file) config
    else ([], Ok config) in
  match r with
  | Raise e => (evs1, Raise e)
  | Ok config =>
    let default_configs := ["flareprox.json"; "cloudproxy.json"; home_config] in
    let '(evs2, r) := load_first_existing fs default_configs config in
    ((evs1 ++ evs2)%list, r)
  end.

(** The arguments [_setup_cloudflare] builds a [CloudflareManager] from,
    when the credentials are there. *)
Record manager : Type := mkManager {
  api_token : option value;
  account_id : option value;
  zone_id : option value
}.

(** [bool(v)] of what [get] returned, [None] when the key is absent *)
Definition got_bool (v : option value) : bool :=
  match v with
  | Some v => value_bool v
  | None => false
  end.

(** [_setup_cloudflare] *)
Definition _setup_cloudflare (config : gmap string pydict) : option manager :=
  let cf_config := default empty_dict (config !! "cloudflare") in
  let api_token := dict_get cf_config "api_token" in
  let account_id := dict_get cf_config "account_id" in
  if (got_bool api_token && got_bool account_id)%bool then
    Some (mkManager api_token account_id (dict_get cf_config "zone_id"))
  else None.

(** [FlareProx(config_file).is_configured]; an exception of
    [_load_config] leaves [__init__], and there is no object to ask. *)
Definition is_configured (fs : files) (home_config : string)
    (config_file : option string) : result bool :=
  match (_load_config fs home_config config_file).2 with
  | Ok config => Ok (bool_decide (is_Some (_setup_cloudflare config)))
  | Raise e => Raise e
  end.

End loading.

(** *** A part of JSON for the examples

    The values [null], strings and objects, with what Python does on
    them. *)

#[warnings="-register-all"]
Inductive json : Type :=
| JNull
| JStr (s : string)
| JObj (members : gmap string json).

(** [needle in s] on strings *)
Fixpoint is_substring (needle s : string) : bool :=
  (String.prefix needle s
   || match s with
      | EmptyString => false
      | String _ r => is_substring needle r
      end)%bool.

Definition json_bool (v : json) : bool :=
  match v with
  | JNull => false
  | JStr s => negb (String.eqb s "")
  | JObj members => negb (Nat.eqb (size members) 0)
  end.

Definition json_contains (v : json) (key : string) : result bool :=
  match v with
  | JNull => Raise (OtherException "TypeError")
  | JStr s => Ok (is_substring key s)
  | JObj members => Ok (bool_decide (is_Some (members !! key)))
  end.

Definition json_getitem (v : json) (key : string) : result json :=
  match v with
  | JNull | JStr _ => Raise (OtherException "TypeError")
  | JObj members =>
    match members !! key with
    | Some x => Ok x
    | None => Raise (OtherException "KeyError")
    end
  end.

(** [d.update(v)]: the members of an object are set in [d]; a string is
    read as a sequence of pairs, which only the empty one is; [None] is
    not iterable. *)
Definition json_update (d : gmap string json) (v : json) : result (gmap string json) :=
  match v with
  | JNull => Raise (OtherException "TypeError")
  | JStr s => if String.eqb s "" then Ok d else Raise ValueError
  | JObj members => Ok (members ∪ d)
  end.

#[global] Instance cpython : PyJson := {|
  value := json;
  pydict := gmap string json;
  empty_dict := ∅;
  dict_bool d := negb (Nat.eqb (size d) 0);
  dict_get d key := d !! key;
  value_bool := json_bool;
  contains := json_contains;
  getitem := json_getitem;
  dict_update := json_update;
  empty_dict_bool := eq_refl;
  empty_dict_get := lookup_empty
|}.

End Config.

(** ** Further data of the examples *)

Module Sample.

Definition ctx3 : context := mkContext Ex.pool3 "roundrobin" 30.

Definition req_bad_length : request :=
  mkRequest "POST" "/?url=http://t.example/" [("Content-Length", "abc")] "abcdef".

Definition req_patch : request := mkRequest "PATCH" "/?url=http://t.example/" [] "".

(** A world in which every call and every dial succeeds and tunnels stay
    idle. *)
Definition w : world := mkWorld Ex.net_ok 0 (fun _ _ => true) true [].

Definition reqs : list (world * request) :=
  [(w, Ex.req_embedded); (w, Ex.req_connect "example.com:443"); (w, Ex.req_no_target);
   (w, req_bad_length); (w, req_patch)].

(** A tunnel in which upstream sends [pong] and [xy] and then closes. *)
Definition script : list (list (sock * recv_outcome)) :=
  [[(Upstream, Data "pong"); (Client, Data "ping")];
   [(Upstream, Data "xy"); (Upstream, Closed)];
   [(Upstream, Data "late")]].

Definition spawn (cmd : list string) : Z + string := inl 4242.

Definition fs_garbled : gmap string string := {[ _pid_path Ex.cwd := "4242 (stopped)" ]}.

(** DELETE requests answered 200, 404 and 500, and then timing out. *)
Definition delete (i : nat) (url : string) : result Z :=
  match i with
  | 0%nat => Ok 200
  | 1%nat => Ok 404
  | 2%nat => Ok 500
  | _ => Raise (RequestException "timed out")
  end.

Definition script_a : gmap string string :=
  {[ "id" := "flareprox-1700000000-abcdef"; "created_on" := "2024-01-01T00:00:00Z" ]}.
Definition script_b : gmap string string := {[ "id" := "blog" ]}.
Definition script_c : gmap string string := {[ "id" := "flareprox-1700000001-zzzzzz" ]}.

Definition scripts : list (gmap string string) := [script_a; script_b; script_c].

Definition workers : list (gmap string string) :=
  [Cf.deployment "acct" script_a; Cf.deployment "acct" script_c].

Definition no_such_file (p : string) : string :=
  "[Errno 2] No such file or directory: '" +:+ p +:+ "'".

Definition credentials : gmap string Config.json :=
  {[ "api_token" := Config.JStr "token";
     "account_id" := Config.JStr "0123456789abcdef" ]}.

Definition settings : Config.json :=
  Config.JObj {[ "cloudflare" := Config.JObj credentials ]}.

(** A [flareprox.json] that is not JSON beside two files with
    credentials. *)
Definition config_files : Config.files :=
  {[ "flareprox.json" := inl "Expecting value: line 1 column 1 (char 0)";
     "cloudproxy.json" := inr (Ok settings);
     "my.json" := inr (Ok settings) ]}.

(** A [flareprox.json] that holds [null]. *)
Definition null_files : Config.files :=
  {[ "flareprox.json" := inr (Ok Config.JNull);
     "my.json" := inr (Ok settings) ]}.

End Sample.
(** * Properties *)

(** ** Facts on the Python primitives *)

Lemma len_pos {A} (l : list A) : l ≠ [] → 0 < Py.len l.
Proof. destruct l; [done|]. intros _. unfold Py.len. simpl. lia. Qed.

Lemma mod_ok (a b : Z) : 0 < b → Py.mod_ a b = Ok (a `mod` b).
Proof. intros Hb. unfold Py.mod_. case_decide; [lia | done]. Qed.

Lemma getitem_in_range {A} (l : list A) (i : Z) :
  0 ≤ i < Py.len l → ∃ x, l !! Z.to_nat i = Some x ∧ Py.getitem l i = Ok x.
Proof.
  intros [Hlo Hhi]. unfold Py.getitem.
  destruct (decide (i < 0)); [lia|]. case_decide; [lia|].
  destruct (l !! Z.to_nat i) as [x|] eqn:Hx; [eauto|].
  apply lookup_ge_None in Hx. unfold Py.len in Hhi. lia.
Qed.

Lemma truthy_Some (o : option string) :
  Py.truthy o = true ↔ ∃ t, o = Some t ∧ t ≠ "".
Proof.
  destruct o as [t|]; simpl.
  - destruct (String.eqb_spec t "") as [->|Hne]; simpl; split.
    + discriminate.
    + intros (t & [= <-] & Ht). done.
    + eauto.
    + done.
  - split; [discriminate|]. intros (t & Ht & _). discriminate.
Qed.

Lemma truthy_nonempty (t : string) : t ≠ "" → Py.truthy (Some t) = true.
Proof. intros Hne. apply truthy_Some. eauto. Qed.

Lemma truthy_int_nonzero (pid : Z) : pid ≠ 0 → Py.truthy_int (Some pid) = true.
Proof. intros Hne. simpl. apply negb_true_iff. by apply Z.eqb_neq. Qed.

(** A target without a colon is exactly one on which the split fails. *)
Lemma split_once_None (c : ascii) (s : string) :
  Py.split_once c s = None ↔ c ∉ String.list_ascii_of_string s.
Proof.
  induction s as [|a s IH]; simpl.
  - split; [|done]. intros _ Hin. by apply not_elem_of_nil in Hin.
  - destruct (Ascii.eqb_spec a c) as [->|Hne].
    + split; [done|]. intros Hnin. exfalso. apply Hnin. apply list_elem_of_here.
    + destruct (Py.split_once c s) as [[x y]|].
      * split; [done|]. intros Hnin. destruct IH as [_ IH].
        assert (c ∉ list_ascii_of_string s) as Hs.
        { intros Hin. apply Hnin. by apply list_elem_of_further. }
        by specialize (IH Hs).
      * split; [|done]. intros _ Hin. apply elem_of_cons in Hin as [->|Hin]; [done|].
        destruct IH as [IH _]. by apply (IH eq_refl).
Qed.



(** ** The model of CPython keeps the law of the interface *)



(** ** Endpoint selection *)

Lemma choose_nonempty (endpoints : list (gmap string string)) policy state rnd :
  endpoints ≠ [] →
  _choose_endpoint endpoints policy state rnd =
    if String.eqb policy "roundrobin" then
      let idx := default 0 (state !! "idx") in
      i ← Py.mod_ idx (Py.len endpoints);
      ep ← Py.getitem endpoints i;
      let url := ep !! "url" in
      j ← Py.mod_ (idx + 1) (Py.len endpoints);
      Ok (url, <["idx" := j]> state)
    else
      ep ← Py.random_choice rnd endpoints;
      Ok (ep !! "url", state).
Proof. by destruct endpoints. Qed.

Lemma choose_roundrobin (endpoints : list (gmap string string))
    (state : gmap string Z) (rnd : Z) :
  endpoints ≠ [] →
  ∃ ep,
    endpoints !! Z.to_nat (default 0 (state !! "idx") `mod` Py.len endpoints) = Some ep ∧
    _choose_endpoint endpoints "roundrobin" state rnd =
      Ok (ep !! "url",
          <["idx" := (default 0 (state !! "idx") + 1) `mod` Py.len endpoints]> state).
Proof.
  intros Hne. pose proof (len_pos _ Hne) as Hlen.
  destruct (getitem_in_range endpoints (default 0 (state !! "idx") `mod` Py.len endpoints))
    as (ep & Hep & Hget).
  { apply Z.mod_pos_bound; lia. }
  exists ep. split; [done|].
  rewrite choose_nonempty by done.
  change (String.eqb "roundrobin" "roundrobin") with true. cbv zeta iota.
  rewrite !mod_ok by done. cbn [mbind result_bind].
  rewrite Hget. done.
Qed.

Lemma choose_random (endpoints : list (gmap string string)) (policy : string)
    (state : gmap string Z) (rnd : Z) :
  endpoints ≠ [] → policy ≠ "roundrobin" →
  ∃ ep, endpoints !! Z.to_nat (rnd `mod` Py.len endpoints) = Some ep ∧
    _choose_endpoint endpoints policy state rnd = Ok (ep !! "url", state).
Proof.
  intros Hne Hpol. pose proof (len_pos _ Hne) as Hlen.
  destruct (getitem_in_range endpoints (rnd `mod` Py.len endpoints)) as (ep & Hep & Hget).
  { apply Z.mod_pos_bound; lia. }
  exists ep. split; [done|].
  rewrite choose_nonempty by done.
  destruct (String.eqb_spec policy "roundrobin") as [->|_]; [done|].
  unfold Py.random_choice. destruct endpoints; [done|].
  rewrite Hget. done.
Qed.

(** From any stored cursor [i], call [k] of a run of round-robin
    selections uses index [(i + k) mod len]. *)
Lemma select_seq_roundrobin (endpoints : list (gmap string string)) (rnds : list Z) :
  endpoints ≠ [] →
  ∀ state, ∃ urls st,
    select_seq endpoints "roundrobin" rnds state = Ok (urls, st) ∧
    length urls = length rnds ∧
    ∀ (k : nat) ep, (k < length rnds)%nat →
      endpoints !! Z.to_nat ((default 0 (state !! "idx") + Z.of_nat k)
                             `mod` Py.len endpoints) = Some ep →
      urls !! k = Some (ep !! "url").
Proof.
  intros Hne. pose proof (len_pos _ Hne) as Hlen.
  induction rnds as [|rnd rnds IH]; intros state.
  - exists [], state. split; [done|]. split; [done|]. intros k ep Hk. simpl in Hk. lia.
  - destruct (choose_roundrobin endpoints state rnd Hne) as (ep0 & Hep0 & Hch).
    destruct (IH (<["idx" := (default 0 (state !! "idx") + 1) `mod` Py.len endpoints]> state))
      as (urls & st & Hsel & Hlen' & Hk).
    exists (ep0 !! "url" :: urls), st.
    split. { simpl. rewrite Hch. cbn. rewrite Hsel. done. }
    split. { simpl. by rewrite Hlen'. }
    intros [|k] ep Hlt Hep.
    + simpl. rewrite Z.add_0_r in Hep. congruence.
    + simpl. apply Hk. { simpl in Hlt. lia. }
      rewrite lookup_insert_eq. simpl.
      rewrite <- Hep. f_equal. f_equal.
      rewrite Zplus_mod_idemp_l. f_equal. lia.
Qed.

(** C1. For every non-empty pool, round-robin selection called N times in
    sequence on the state the server starts with returns the endpoint
    URLs in cyclic order from index 0: call [k] returns the URL of
    [pool[k mod len(pool)]]. *)
Theorem round_robin_cyclic_order (endpoints : list (gmap string string)) (rnds : list Z) :
  endpoints ≠ [] →
  ∃ urls st,
    select_seq endpoints "roundrobin" rnds ∅ = Ok (urls, st) ∧
    length urls = length rnds ∧
    ∀ k : nat, (k < length rnds)%nat →
      ∃ ep, endpoints !! (k `mod` length endpoints)%nat = Some ep ∧
            urls !! k = Some (ep !! "url").
Proof.
  intros Hne.
  destruct (select_seq_roundrobin endpoints rnds Hne ∅) as (urls & st & Hsel & Hlen & Hk).
  exists urls, st. split; [done|]. split; [done|].
  intros k Hlt.
  assert (length endpoints ≠ 0)%nat as Hn by (by destruct endpoints).
  destruct (endpoints !! (k `mod` length endpoints)%nat) as [ep|] eqn:Hep.
  - exists ep. split; [done|]. apply Hk; [done|].
    rewrite lookup_empty. cbn [from_option id]. rewrite Z.add_0_l. unfold Py.len.
    rewrite <- Nat2Z.inj_mod, Nat2Z.id. done.
  - apply lookup_ge_None in Hep.
    pose proof (Nat.mod_upper_bound k (length endpoints) Hn). lia.
Qed.

(** The pool [A, B, C] called five times yields A, B, C, A, B. *)
Lemma round_robin_cyclic_order_witness :
  Ex.pool3 ≠ [] ∧
  ∃ urls st,
    select_seq Ex.pool3 "roundrobin" [0; 0; 0; 0; 0] ∅ = Ok (urls, st) ∧
    length urls = 5%nat ∧
    ∀ k : nat, (k < 5)%nat →
      ∃ ep, Ex.pool3 !! (k `mod` 3)%nat = Some ep ∧ urls !! k = Some (ep !! "url").
Proof.
  split; [discriminate|].
  apply (round_robin_cyclic_order Ex.pool3 [0; 0; 0; 0; 0]). discriminate.
Defined.

Example round_robin_ABCAB :
  select_seq Ex.pool3 "roundrobin" [0; 0; 0; 0; 0] ∅ =
    Ok ([Some "A"; Some "B"; Some "C"; Some "A"; Some "B"], {[ "idx" := 2 ]}).
Proof. vm_compute. reflexivity. Qed.

(** C10. Selection never raises.  On an empty pool it returns the empty
    result at once, for every policy and state.  On a non-empty pool the
    round-robin index is the stored cursor modulo the pool size, in range
    whatever the stored cursor is, and the cursor stored afterwards lies
    in [0, len(pool)). *)
Theorem choose_endpoint_total_cursor_in_range :
  (∀ policy state rnd, _choose_endpoint [] policy state rnd = Ok (None, state)) ∧
  (∀ ep eps (state : gmap string Z) rnd,
     let endpoints := ep :: eps in
     let idx := default 0 (state !! "idx") in
     let i := idx `mod` Py.len endpoints in
     let j := (idx + 1) `mod` Py.len endpoints in
     0 ≤ i < Py.len endpoints ∧ 0 ≤ j < Py.len endpoints ∧
     ∃ e st,
       endpoints !! Z.to_nat i = Some e ∧
       _choose_endpoint endpoints "roundrobin" state rnd = Ok (e !! "url", st) ∧
       st !! "idx" = Some j) ∧
  (∀ endpoints policy state rnd,
     ∃ r, _choose_endpoint endpoints policy state rnd = Ok r).
Proof.
  split; [done|]. split.
  - intros ep eps state rnd endpoints idx i j.
    assert (endpoints ≠ []) as Hne by done.
    pose proof (len_pos _ Hne) as Hlen.
    split; [apply Z.mod_pos_bound; lia|]. split; [apply Z.mod_pos_bound; lia|].
    destruct (choose_roundrobin endpoints state rnd Hne) as (e & He & Hch).
    exists e, (<["idx" := j]> state). split; [done|]. split; [done|].
    apply lookup_insert_eq.
  - intros endpoints policy state rnd.
    destruct endpoints as [|ep eps]; [by eexists|].
    destruct (decide (policy = "roundrobin")) as [->|Hpol].
    + destruct (choose_roundrobin (ep :: eps) state rnd) as (e & _ & ->); [done|]. by eexists.
    + destruct (choose_random (ep :: eps) policy state rnd) as (e & _ & ->); [done..|]. by eexists.
Qed.

Example choose_negative_cursor :
  _choose_endpoint Ex.pool3 "roundrobin" {[ "idx" := -1 ]} 0 = Ok (Some "C", {[ "idx" := 0 ]}).
Proof. vm_compute. reflexivity. Qed.

(** ** The forwarder *)

Lemma bind_emit {B} (e : event) (k : handler B) (s : hstate) :
  (emit e ;; k) s = k (mkHstate (state s) (trace s ++ [e])).
Proof. reflexivity. Qed.

Ltac run_emits :=
  rewrite ?bind_emit; unfold emit; cbn [state trace];
  rewrite <- ?app_assoc; cbn [app]; try reflexivity.

Lemma relayed_header_code (kv : string * string) :
  relayed_header kv =
    (negb (bool_decide (Py.lower kv.1 ∈ excluded_resp))
     && negb (String.eqb (Py.lower kv.1) "content-length"))%bool.
Proof.
  unfold relayed_header, excluded_resp.
  destruct (String.eqb_spec (Py.lower kv.1) "content-length") as [->|Hcl].
  - reflexivity.
  - rewrite andb_true_r. f_equal. apply bool_decide_ext.
    rewrite !elem_of_cons, elem_of_nil, elem_of_union, !elem_of_singleton. tauto.
Qed.

Lemma last_header_Some hs k v : last_header hs k = Some v → (k, v) ∈ hs.
Proof.
  induction hs as [|[k' v'] hs IH]; simpl; [done|].
  destruct (last_header hs k) as [w|].
  - intros [= ->]. apply list_elem_of_further. by apply IH.
  - destruct (String.eqb_spec k' k) as [->|]; [|done].
    intros [= ->]. apply list_elem_of_here.
Qed.

Lemma last_header_None hs k : last_header hs k = None ↔ ∀ v, (k, v) ∉ hs.
Proof.
  induction hs as [|[k' v'] hs IH]; simpl.
  - split; [|done]. intros _ v Hin. by apply not_elem_of_nil in Hin.
  - destruct (last_header hs k) as [w|] eqn:Hl.
    + split; [done|]. intros Hall. apply last_header_Some in Hl.
      exfalso. apply (Hall w). by apply list_elem_of_further.
    + destruct (String.eqb_spec k' k) as [->|Hne].
      * split; [done|]. intros Hall. exfalso. apply (Hall v'). apply list_elem_of_here.
      * split; [|done]. intros _ v Hin.
        apply elem_of_cons in Hin as [[= ? ?]|Hin]; [by subst|].
        destruct IH as [IH _]. by apply (IH eq_refl v).
Qed.

Lemma fwd_headers_lookup_gen (hs : list (string * string)) (m : gmap string string)
    (k : string) :
  foldl (fun fwd '(k, v) =>
           if decide (Py.lower k ∈ exclude) then fwd else <[k := v]> fwd) m hs !! k =
  if decide (Py.lower k ∈ exclude) then m !! k
  else match last_header hs k with Some v => Some v | None => m !! k end.
Proof.
  revert m. induction hs as [|[k' v] hs IH]; intros m.
  - simpl. by case_decide.
  - cbn [foldl last_header]. rewrite IH. clear IH.
    destruct (decide (Py.lower k ∈ exclude)) as [Hk|Hk].
    + destruct (decide (Py.lower k' ∈ exclude)) as [Hk'|Hk']; [done|].
      rewrite lookup_insert_ne; [done|]. intros ->. done.
    + destruct (last_header hs k) as [v'|]; [done|].
      destruct (String.eqb_spec k' k) as [->|Hne].
      * rewrite decide_False by done. by rewrite lookup_insert_eq.
      * destruct (decide (Py.lower k' ∈ exclude)); [done|]. by rewrite lookup_insert_ne.
Qed.

(** The outbound headers: no excluded name, and for every other name the
    value of its last occurrence. *)
Lemma fwd_headers_lookup (hs : list (string * string)) (k : string) :
  fwd_headers hs !! k =
  if decide (Py.lower k ∈ exclude) then None else last_header hs k.
Proof.
  unfold fwd_headers. rewrite fwd_headers_lookup_gen. rewrite lookup_empty.
  case_decide; [done|]. by destruct (last_header hs k).
Qed.

Lemma NoDup_fst_functional (hs : list (string * string)) (k v w : string) :
  NoDup hs.*1 → (k, v) ∈ hs → (k, w) ∈ hs → v = w.
Proof.
  induction hs as [|[k' v'] hs IH]; intros Hnd Hv Hw.
  - by apply not_elem_of_nil in Hv.
  - apply NoDup_cons in Hnd as [Hnin Hnd].
    apply elem_of_cons in Hv as [[= -> ->]|Hv], Hw as [[= ?]|Hw]; subst.
    + done.
    + exfalso. apply Hnin. apply list_elem_of_fmap. by exists (k', w).
    + exfalso. apply Hnin. apply list_elem_of_fmap. by exists (k', v).
    + by apply IH.
Qed.

(** When no name is repeated, every header that is not excluded is
    copied. *)
Lemma fwd_headers_all_copied (hs : list (string * string)) :
  NoDup hs.*1 → all_headers_copied hs.
Proof.
  intros Hnd k v Hin Hk. rewrite fwd_headers_lookup, decide_False by done.
  destruct (last_header hs k) as [w|] eqn:Hl.
  - apply last_header_Some in Hl. f_equal.
    by apply (NoDup_fst_functional hs k w v).
  - exfalso. eapply last_header_None; eauto.
Qed.

Section forwarder_facts.
Context `{Lib.PyLib}.



Lemma forward_no_target ctx net rnd req (s : hstate) t :
  _forward_target req = Ok t → Py.truthy t = false →
  _forward ctx net rnd req s =
    (Ok tt, mkHstate (state s)
              (trace s ++ json_reply 400
                 (Lib.json_dumps [("error", "No target URL specified")]))).
Proof.
  intros Ht Hf. unfold _forward. unfold mbind at 1. unfold handler_bind, lift.
  rewrite Ht, Hf. cbn [negb]. run_emits.
Qed.

Lemma forward_no_worker ctx net rnd req (s : hstate) t w st :
  _forward_target req = Ok t → Py.truthy t = true →
  _choose_endpoint (endpoints ctx) (policy ctx) (state s) rnd = Ok (w, st) →
  Py.truthy w = false →
  _forward ctx net rnd req s =
    (Ok tt, mkHstate st
              (trace s ++ json_reply 503
                 (Lib.json_dumps [("error", "No worker endpoints available")]))).
Proof.
  intros Ht Htt Hch Hw. unfold _forward.
  unfold mbind at 1. unfold handler_bind at 1. unfold lift at 1.
  rewrite Ht, Htt. cbn [negb].
  unfold mbind at 1. unfold handler_bind at 1. unfold choose. rewrite Hch, Hw. cbn [negb].
  run_emits.
Qed.

(** With a target and a worker, [_forward] issues one outbound call and
    hands its outcome to the relay. *)
Lemma forward_upstream ctx net rnd req (s : hstate) t w st data :
  _forward_target req = Ok (Some t) → t ≠ "" →
  _choose_endpoint (endpoints ctx) (policy ctx) (state s) rnd = Ok (Some w, st) →
  w ≠ "" →
  read_data req = Ok data →
  _forward ctx net rnd req s =
    _forward_relay
      (net (command req) (w +:+ "?url=" +:+ Lib.quote t) (fwd_headers (headers req)) data)
      (mkHstate st
         (trace s ++ [requests_request (command req) (w +:+ "?url=" +:+ Lib.quote t)
                        (fwd_headers (headers req)) data (timeout ctx)])).
Proof.
  intros Ht Hne Hch Hw Hd. unfold _forward.
  unfold mbind at 1. unfold handler_bind at 1. unfold lift at 1.
  rewrite Ht, (truthy_nonempty t Hne). cbn [negb].
  unfold mbind at 1. unfold handler_bind at 1. unfold choose. rewrite Hch.
  rewrite (truthy_nonempty w Hw). cbn [negb].
  unfold mbind at 1. unfold handler_bind at 1. unfold lift at 1. rewrite Hd.
  rewrite bind_emit. reflexivity.
Qed.

Lemma send_resp_headers_trace hs (s : hstate) :
  send_resp_headers hs s =
    (Ok tt, mkHstate (state s)
       (trace s ++ map (fun kv => send_header kv.1 kv.2) (List.filter relayed_header hs))).
Proof.
  revert s. induction hs as [|[k v] hs IH]; intros s.
  - simpl. rewrite app_nil_r. by destruct s.
  - cbn [send_resp_headers]. unfold mbind at 1. unfold handler_bind at 1.
    cbn [List.filter]. rewrite relayed_header_code. cbn [fst snd].
    destruct (decide (Py.lower k ∈ excluded_resp)) as [Hin|Hin].
    + rewrite bool_decide_eq_true_2 by done. cbn. apply IH.
    + rewrite bool_decide_eq_false_2 by done. cbn [negb andb].
      destruct (String.eqb (Py.lower k) "content-length"); cbn [negb].
      * cbn. apply IH.
      * unfold emit. rewrite IH. cbn. by rewrite <- app_assoc.
Qed.

Lemma forward_relay_ok resp (s : hstate) :
  _forward_relay (Ok resp) s =
    (Ok tt, mkHstate (state s) (trace s ++ relayed_response resp)).
Proof.
  unfold _forward_relay, relayed_response. rewrite bind_emit.
  unfold mbind at 1. unfold handler_bind at 1. rewrite send_resp_headers_trace.
  rewrite !bind_emit. unfold mbind at 1. unfold handler_bind at 1.
  destruct (String.eqb (content resp) ""); cbn [negb]; unfold emit, mret, handler_ret; cbn;
    rewrite <- ?app_assoc; reflexivity.
Qed.

Lemma forward_relay_failed e (s : hstate) :
  _forward_relay (Raise (RequestException e)) s =
    (Ok tt, mkHstate (state s)
       (trace s ++ json_reply 502
          (Lib.json_dumps [("error", "Proxy request failed"); ("message", e)]))).
Proof. unfold _forward_relay. run_emits. Qed.

Lemma string_app_assoc (s1 s2 s3 : string) :
  (s1 +:+ s2) +:+ s3 = s1 +:+ (s2 +:+ s3).
Proof.
  induction s1 as [|c s1 IH]; [done|].
  change (String c ((s1 +:+ s2) +:+ s3) = String c (s1 +:+ (s2 +:+ s3))). by f_equal.
Qed.

Lemma string_app_nil_r (s : string) : s +:+ "" = s.
Proof.
  induction s as [|c s IH]; [done|].
  change (String c (s +:+ "") = String c s). by f_equal.
Qed.

Lemma body_written_app (tr1 tr2 : list event) :
  body_written (tr1 ++ tr2) = body_written tr1 +:+ body_written tr2.
Proof.
  induction tr1 as [|e tr1 IH]; [done|].
  destruct e; cbn [app body_written]; try done.
  by rewrite IH, string_app_assoc.
Qed.

Lemma body_written_headers (hs : list (string * string)) :
  body_written (map (fun kv => send_header kv.1 kv.2) hs) = "".
Proof. induction hs; done. Qed.

Lemma body_written_relayed (resp : response) :
  body_written (relayed_response resp) = content resp.
Proof.
  unfold relayed_response. rewrite !body_written_app, body_written_headers.
  destruct (String.eqb_spec (content resp) "") as [->|Hne]; [done|].
  cbn. rewrite !string_app_nil_r. reflexivity.
Qed.

Lemma relayed_header_spec (kv : string * string) :
  relayed_header kv = true ↔
  Py.lower kv.1 ≠ "transfer-encoding" ∧ Py.lower kv.1 ≠ "content-encoding"
  ∧ Py.lower kv.1 ≠ "content-length".
Proof.
  unfold relayed_header. rewrite negb_true_iff, bool_decide_eq_false.
  rewrite !elem_of_cons, elem_of_nil. tauto.
Qed.

End forwarder_facts.

(** *** Target extraction *)




Example target_embedded_only :
  @_forward_target CPython.lib Ex.req_embedded = Ok (Some "https://example.com").
Proof. vm_compute. reflexivity. Qed.

Example target_absolute_request :
  @_forward_target CPython.lib
     (mkRequest "GET" "http://example.com/p?url=http://b.example" [] "") =
    Ok (Some "http://example.com/p?url=http://b.example").
Proof. vm_compute. reflexivity. Qed.

Example no_target_400 :
  @_forward CPython.lib Ex.ctx Ex.net_ok 0 Ex.req_no_target Ex.s0 =
    (Ok tt, mkHstate ∅
       [ send_response 400; send_header "Content-Type" "application/json";
         send_header "Content-Length" "36"; end_headers;
         wfile_write (Ex.json [("error", "No target URL specified")]);
         _access_log 400 36 ]).
Proof. vm_compute. reflexivity. Qed.

Example json_error_body :
  Ex.json [("error", "No target URL specified")] =
    "{" +:+ Ex.dq +:+ "error" +:+ Ex.dq +:+ ": "
        +:+ Ex.dq +:+ "No target URL specified" +:+ Ex.dq +:+ "}".
Proof. vm_compute. reflexivity. Qed.

(** *** The outbound request *)

Lemma post_forwarded :
  @forwarded CPython.lib Ex.ctx 0 Ex.req_post Ex.s0
    "http://t.example/" Ex.worker {[ "idx" := 0 ]} (Some "abc").
Proof. repeat split; try discriminate; vm_compute; reflexivity. Qed.

(** The outbound call as the code builds it, which is what holds of C3.
    For a forwarded request the outbound call has the
    URL [{endpoint.url}?url=<percent-encoded target>] and the method of
    the request.  Its headers map every inbound header name whose
    lower-case form is not host, connection, proxy-connection, keep-alive,
    transfer-encoding or upgrade to the value of the last inbound header
    of that name, and hold no excluded name; when no name is repeated,
    every header that is not excluded is copied.  For GET and HEAD no body
    is sent; for other methods the body sent is the first Content-Length
    bytes of the request stream when Content-Length is positive, and none
    otherwise. *)
Theorem forward_outbound_request `{Lib.PyLib} (ctx : context)
    (net : string → string → gmap string string → option string → result response)
    (rnd : Z) (req : request) (s : hstate) (t w : string) (st : gmap string Z)
    (data : option string) :
  forwarded ctx rnd req s t w st data →
  _forward ctx net rnd req s =
    _forward_relay
      (net (command req) (w +:+ "?url=" +:+ Lib.quote t) (fwd_headers (headers req)) data)
      (mkHstate st
         (trace s ++ [requests_request (command req) (w +:+ "?url=" +:+ Lib.quote t)
                        (fwd_headers (headers req)) data (timeout ctx)])) ∧
  (∀ k, fwd_headers (headers req) !! k =
        if decide (Py.lower k ∈ exclude) then None else last_header (headers req) k) ∧
  (NoDup (headers req).*1 → all_headers_copied (headers req)) ∧
  (command req ∈ ["GET"; "HEAD"] → data = None) ∧
  (command req ∉ ["GET"; "HEAD"] →
   ∃ n, Lib.int_ (or_ (default "0" (headers_get (headers req) "Content-Length")) "0") = Ok n ∧
        data = if decide (n > 0) then Some (Py.take n (rfile req)) else None).
Proof.
  intros (Ht & Hne & Hch & Hw & Hd).
  split; [by apply forward_upstream|].
  split; [apply fwd_headers_lookup|].
  split; [apply fwd_headers_all_copied|].
  unfold read_data in Hd. split.
  - intros Hc. rewrite bool_decide_eq_true_2 in Hd by done. by injection Hd.
  - intros Hc. rewrite bool_decide_eq_false_2 in Hd by done. cbn [negb] in Hd.
    destruct (Lib.int_ _) as [n|e]; [|done]. exists n. split; [done|].
    cbn in Hd. by injection Hd.
Qed.

Lemma forward_outbound_request_witness :
  @forwarded CPython.lib Ex.ctx 0 Ex.req_post Ex.s0
    "http://t.example/" Ex.worker {[ "idx" := 0 ]} (Some "abc") ∧
  ∃ tr,
    @_forward CPython.lib Ex.ctx Ex.net_ok 0 Ex.req_post Ex.s0 =
      @_forward_relay CPython.lib
        (Ok (mkResponse 200 [("Content-Type", "text/plain"); ("Content-Length", "2");
                             ("Transfer-Encoding", "chunked")] "ok"))
        (mkHstate {[ "idx" := 0 ]} tr) ∧
    tr = [requests_request "POST" "https://w1.example.workers.dev?url=http%3A%2F%2Ft.example%2F"
            {[ "X-A" := "2"; "Content-Length" := "3" ]} (Some "abc") 30].
Proof.
  split; [exact post_forwarded|].
  destruct (forward_outbound_request (H := CPython.lib) Ex.ctx Ex.net_ok 0 Ex.req_post Ex.s0
              _ _ _ _ post_forwarded) as (Hrun & _).
  eexists. split; [exact Hrun|]. vm_compute. reflexivity.
Defined.

(** A header sent twice under one name is forwarded once, with the last
    value: not all inbound headers are copied. *)
Lemma repeated_header_counterexample :
  ¬ all_headers_copied (headers Ex.req_post).
Proof.
  assert (("X-A", "1") ∈ headers Ex.req_post) as Hin.
  { cbn. rewrite !elem_of_cons. auto. }
  assert (Py.lower "X-A" ∉ exclude) as Hex by (vm_compute; intros [=]).
  intros Hall. specialize (Hall "X-A" "1" Hin Hex). vm_compute in Hall. discriminate.
Qed.

(** C3 (the code departs from it). The loop over [self.headers.items()]
    meets every inbound header, but [fwd_headers[k] = v] keeps one value
    per name: the request [POST /?url=http://t.example/] with the headers
    [X-A: 1] and [X-A: 2], neither of them excluded, is forwarded with
    [X-A: 2] alone, and the value [1] is nowhere in the outbound call.
    The URL, the method, the excluded names and the body are as the claim
    says. *)
Theorem repeated_header_dropped :
  ("X-A", "1") ∈ headers Ex.req_post ∧
  ("X-A", "2") ∈ headers Ex.req_post ∧
  (Py.lower "X-A" ∉ exclude) ∧
  @_forward CPython.lib Ex.ctx Ex.net_ok 0 Ex.req_post Ex.s0 =
    (Ok tt,
     mkHstate {[ "idx" := 0 ]}
       [ requests_request "POST"
           "https://w1.example.workers.dev?url=http%3A%2F%2Ft.example%2F"
           {[ "X-A" := "2"; "Content-Length" := "3" ]} (Some "abc") 30;
         send_response 200; send_header "Content-Type" "text/plain";
         send_header "Content-Length" "2"; end_headers; wfile_write "ok";
         _access_log 200 2 ]).
Proof.
  split; [|split; [|split]].
  - cbn. rewrite !elem_of_cons. auto.
  - cbn. rewrite !elem_of_cons. auto 10.
  - vm_compute. intros [=].
  - vm_compute. reflexivity.
Qed.

Example repeated_header_last_value :
  fwd_headers (headers Ex.req_post) = {[ "X-A" := "2"; "Content-Length" := "3" ]}.
Proof. vm_compute. reflexivity. Qed.

Example connection_header_stripped :
  fwd_headers (headers Ex.req_post) !! "Connection" = None ∧
  fwd_headers (headers Ex.req_post) !! "Host" = None.
Proof. split; vm_compute; reflexivity. Qed.

Example get_sends_no_body :
  @read_data CPython.lib Ex.req_get_with_body = Ok None.
Proof. vm_compute. reflexivity. Qed.

(** *** The relayed response *)

(** C4. For a forwarded request whose outbound call succeeds, the reply
    carries the upstream status code, every upstream header except
    transfer-encoding, content-encoding and content-length (names compared
    without regard to case), a Content-Length equal to the length of the
    body, and the upstream body. *)
Theorem forward_relays_response `{Lib.PyLib} (ctx : context)
    (net : string → string → gmap string string → option string → result response)
    (rnd : Z) (req : request) (s : hstate) (t w : string) (st : gmap string Z)
    (data : option string) (resp : response) :
  forwarded ctx rnd req s t w st data →
  net (command req) (w +:+ "?url=" +:+ Lib.quote t) (fwd_headers (headers req)) data
    = Ok resp →
  _forward ctx net rnd req s =
    (Ok tt,
     mkHstate st
       (trace s
        ++ [requests_request (command req) (w +:+ "?url=" +:+ Lib.quote t)
              (fwd_headers (headers req)) data (timeout ctx)]
        ++ relayed_response resp)) ∧
  body_written (relayed_response resp) = content resp.
Proof.
  intros (Ht & Hne & Hch & Hw & Hd) Hnet.
  split; [|apply body_written_relayed].
  rewrite (forward_upstream ctx net rnd req s t w st data) by done.
  rewrite Hnet, forward_relay_ok. cbn [state trace]. by rewrite <- app_assoc.
Qed.

Lemma forward_relays_response_witness :
  @forwarded CPython.lib Ex.ctx 0 Ex.req_post Ex.s0
    "http://t.example/" Ex.worker {[ "idx" := 0 ]} (Some "abc") ∧
  @_forward CPython.lib Ex.ctx Ex.net_ok 0 Ex.req_post Ex.s0 =
      (Ok tt,
       mkHstate {[ "idx" := 0 ]}
         [ requests_request "POST"
             "https://w1.example.workers.dev?url=http%3A%2F%2Ft.example%2F"
             {[ "X-A" := "2"; "Content-Length" := "3" ]} (Some "abc") 30;
           send_response 200; send_header "Content-Type" "text/plain";
           send_header "Content-Length" "2"; end_headers; wfile_write "ok";
           _access_log 200 2 ]).
Proof.
  split; [exact post_forwarded|].
  destruct (forward_relays_response (H := CPython.lib) Ex.ctx Ex.net_ok 0 Ex.req_post Ex.s0
              _ _ _ _ _ post_forwarded eq_refl) as (Hrun & _).
  rewrite Hrun. vm_compute. reflexivity.
Defined.

(** *** No endpoint, and an endpoint that cannot be reached *)

(** C5. On an empty pool selection returns the empty result, not an
    exception, whatever the policy; the forwarder then replies 503 with a
    JSON error body and makes no outbound call. *)
Theorem empty_pool_service_unavailable `{Lib.PyLib} (ctx : context)
    (net : string → string → gmap string string → option string → result response)
    (rnd : Z) (req : request) (s : hstate) (t : option string) :
  endpoints ctx = [] →
  _forward_target req = Ok t → Py.truthy t = true →
  (∀ policy state rnd', _choose_endpoint [] policy state rnd' = Ok (None, state)) ∧
  _forward ctx net rnd req s =
    (Ok tt, mkHstate (state s)
              (trace s ++ json_reply 503
                 (Lib.json_dumps [("error", "No worker endpoints available")]))) ∧
  outbound_calls (json_reply 503
                    (Lib.json_dumps [("error", "No worker endpoints available")])) = 0%nat.
Proof.
  intros Hpool Ht Htt. split; [done|]. split; [|done].
  apply (forward_no_worker ctx net rnd req s t None (state s)); try done.
  by rewrite Hpool.
Qed.

Lemma empty_pool_service_unavailable_witness :
  endpoints (Ex.ctx_empty "random") = [] ∧
  @_forward CPython.lib (Ex.ctx_empty "random") Ex.net_ok 7 Ex.req_foo Ex.s0 =
    (Ok tt, mkHstate ∅
       [ send_response 503; send_header "Content-Type" "application/json";
         send_header "Content-Length" "42"; end_headers;
         wfile_write (Ex.json [("error", "No worker endpoints available")]);
         _access_log 503 42 ]).
Proof.
  assert (@_forward_target CPython.lib Ex.req_foo = Ok (Some "https://example.com/x")) as Ht
    by (vm_compute; reflexivity).
  split; [reflexivity|].
  destruct (empty_pool_service_unavailable (H := CPython.lib) (Ex.ctx_empty "random")
              Ex.net_ok 7 Ex.req_foo Ex.s0 (Some "https://example.com/x")
              eq_refl Ht eq_refl) as (_ & Hrun & _).
  rewrite Hrun. vm_compute. reflexivity.
Defined.

(** C6. For a forwarded request whose outbound call fails with a
    [RequestException] (time-out, refused connection, TLS or DNS failure)
    the client gets one reply, with status 502 and a JSON body with the
    fields [error] and [message]; the trace holds exactly one outbound
    call: there is no retry. *)
Theorem forward_network_failure `{Lib.PyLib} (ctx : context)
    (net : string → string → gmap string string → option string → result response)
    (rnd : Z) (req : request) (s : hstate) (t w : string) (st : gmap string Z)
    (data : option string) (e : string) :
  forwarded ctx rnd req s t w st data →
  net (command req) (w +:+ "?url=" +:+ Lib.quote t) (fwd_headers (headers req)) data
    = Raise (RequestException e) →
  ∃ tr,
    _forward ctx net rnd req s = (Ok tt, mkHstate st (trace s ++ tr)) ∧
    tr = requests_request (command req) (w +:+ "?url=" +:+ Lib.quote t)
           (fwd_headers (headers req)) data (timeout ctx)
         :: json_reply 502
              (Lib.json_dumps [("error", "Proxy request failed"); ("message", e)]) ∧
    outbound_calls tr = 1%nat ∧ responses_sent tr = 1%nat.
Proof.
  intros (Ht & Hne & Hch & Hw & Hd) Hnet.
  eexists. split; [|split; [reflexivity|split; reflexivity]].
  rewrite (forward_upstream ctx net rnd req s t w st data) by done.
  rewrite Hnet, forward_relay_failed. cbn [state trace]. by rewrite <- app_assoc.
Qed.

Lemma forward_network_failure_witness :
  @forwarded CPython.lib Ex.ctx 0 Ex.req_post Ex.s0
    "http://t.example/" Ex.worker {[ "idx" := 0 ]} (Some "abc") ∧
  @_forward CPython.lib Ex.ctx Ex.net_down 0 Ex.req_post Ex.s0 =
      (Ok tt,
       mkHstate {[ "idx" := 0 ]}
         [ requests_request "POST"
             "https://w1.example.workers.dev?url=http%3A%2F%2Ft.example%2F"
             {[ "X-A" := "2"; "Content-Length" := "3" ]} (Some "abc") 30;
           send_response 502; send_header "Content-Type" "application/json";
           send_header "Content-Length" "66"; end_headers;
           wfile_write (Ex.json [("error", "Proxy request failed");
                                 ("message", "connection refused")]);
           _access_log 502 66 ]).
Proof.
  split; [exact post_forwarded|].
  destruct (forward_network_failure (H := CPython.lib) Ex.ctx Ex.net_down 0 Ex.req_post Ex.s0
              _ _ _ _ "connection refused" post_forwarded eq_refl) as (tr & Hrun & -> & _).
  rewrite Hrun. vm_compute. reflexivity.
Defined.

(** *** Further query parameters *)

(** C7 (the code departs from it). A request for
    [/?url=https://example.com/x&foo=1] is forwarded with the target
    [https://example.com/x] alone: [foo=1] is in neither the URL, the
    headers nor the body of the outbound call.  The status code of the
    endpoint is relayed as it is. *)
Theorem query_parameter_foo_dropped :
  @_forward CPython.lib Ex.ctx Ex.net_ok 0 Ex.req_foo Ex.s0 =
    (Ok tt,
     mkHstate {[ "idx" := 0 ]}
       [ requests_request "GET"
           "https://w1.example.workers.dev?url=https%3A%2F%2Fexample.com%2Fx"
           {[ "Accept" := "*/*" ]} None 30;
         send_response 200; send_header "Content-Type" "text/plain";
         send_header "Content-Length" "2"; end_headers; wfile_write "ok";
         _access_log 200 2 ]).
Proof. vm_compute. reflexivity. Qed.

(** ** The CONNECT tunnel *)

Section tunnel_facts.
Context `{Lib.PyLib}.

Lemma connect_target_no_colon (req : request) :
  Py.split_once ":" (path req) = None → connect_target req = Raise ValueError.
Proof. intros Hs. unfold connect_target, Py.split_colon. by rewrite Hs. Qed.

Lemma connect_target_port (req : request) (host port_str : string) :
  Py.split_once ":" (path req) = Some (host, port_str) →
  connect_target req = (port ← Lib.int_ port_str; Ok (host, port)).
Proof. intros Hs. unfold connect_target, Py.split_colon. by rewrite Hs. Qed.

Lemma connect_bad_target dial est script (req : request) (s : hstate) e :
  connect_target req = Raise e →
  do_CONNECT dial est script req s =
    (Ok tt, mkHstate (state s)
              (trace s ++ [send_response 400; end_headers; _access_log 400 0])).
Proof. intros Hbad. unfold do_CONNECT. rewrite Hbad. run_emits. Qed.

Lemma connect_dial_fails dial est script (req : request) (s : hstate) host port :
  connect_target req = Ok (host, port) →
  dial host port = false →
  do_CONNECT dial est script req s =
    (Ok tt, mkHstate (state s)
              (trace s ++ [create_connection host port 10;
                           send_response 502; end_headers; _access_log 502 0])).
Proof.
  intros Ht Hdial. unfold do_CONNECT. rewrite Ht.
  rewrite bind_emit. cbn [state trace]. rewrite Hdial. cbn [negb]. run_emits.
Qed.

(** C8. A CONNECT whose target has no colon, or whose port is not a
    number, is answered 400 without any socket being opened, and logged
    with 0 bytes; one whose target parses but whose dial fails is answered
    502 and logged with 0 bytes.  Neither selects an endpoint or makes an
    outbound call. *)
Theorem connect_failures (dial : string → Z → bool) (established_ok : bool)
    (script : list (list (sock * recv_outcome))) (req : request) (s : hstate) :
  ((":"%char ∉ String.list_ascii_of_string (path req) ∨
    ∃ host port_str e,
      Py.split_once ":" (path req) = Some (host, port_str) ∧
      Lib.int_ port_str = Raise e) →
   do_CONNECT dial established_ok script req s =
     (Ok tt, mkHstate (state s)
               (trace s ++ [send_response 400; end_headers; _access_log 400 0]))) ∧
  (∀ host port_str port,
     Py.split_once ":" (path req) = Some (host, port_str) →
     Lib.int_ port_str = Ok port →
     dial host port = false →
     do_CONNECT dial established_ok script req s =
       (Ok tt, mkHstate (state s)
                 (trace s ++ [create_connection host port 10;
                              send_response 502; end_headers; _access_log 502 0]))).
Proof.
  split.
  - intros [Hcolon | (host & port_str & e & Hs & Hint)].
    + apply (connect_bad_target _ _ _ _ _ ValueError).
      apply connect_target_no_colon. by apply split_once_None.
    + apply (connect_bad_target _ _ _ _ _ e).
      rewrite (connect_target_port _ _ _ Hs), Hint. reflexivity.
  - intros host port_str port Hs Hint Hdial.
    apply connect_dial_fails; [|done].
    rewrite (connect_target_port _ _ _ Hs), Hint. reflexivity.
Qed.

End tunnel_facts.

Lemma connect_failures_witness :
  @do_CONNECT CPython.lib (fun _ _ => true) true [] (Ex.req_connect "example.com") Ex.s0 =
    (Ok tt, mkHstate ∅ [send_response 400; end_headers; _access_log 400 0]) ∧
  @do_CONNECT CPython.lib (fun _ _ => true) true [] (Ex.req_connect "example.com:https") Ex.s0 =
    (Ok tt, mkHstate ∅ [send_response 400; end_headers; _access_log 400 0]) ∧
  @do_CONNECT CPython.lib (fun _ _ => false) true [] (Ex.req_connect "example.com:443") Ex.s0 =
    (Ok tt, mkHstate ∅ [create_connection "example.com" 443 10;
                        send_response 502; end_headers; _access_log 502 0]).
Proof.
  split; [|split].
  - apply (connect_failures (H := CPython.lib)). left.
    apply split_once_None. vm_compute. reflexivity.
  - apply (connect_failures (H := CPython.lib)). right.
    exists "example.com", "https", ValueError. split; vm_compute; reflexivity.
  - apply (proj2 (connect_failures (H := CPython.lib) (fun _ _ => false) true []
                    (Ex.req_connect "example.com:443") Ex.s0) "example.com" "443" 443);
      vm_compute; reflexivity.
Defined.

Example connect_idle_tunnel :
  @do_CONNECT CPython.lib (fun _ _ => true) true [[(Upstream, Data "pong")]; []]
     (Ex.req_connect "example.com:443") Ex.s0 =
    (Ok tt, mkHstate ∅
       [ create_connection "example.com" 443 10;
         sendall Client ("HTTP/1.1 200 Connection Established" +:+ Py.crlf +:+ Py.crlf);
         select_ 30; recv Upstream; sendall Client "pong"; select_ 30;
         upstream_close; _access_log 200 4 ]).
Proof. vm_compute. reflexivity. Qed.

(** ** The PID marker and [serve-stop] *)

Section supervisor_facts.
Context `{Lib.PyLib}.

Lemma read_pid_absent cwd (fs : gmap string string) :
  fs !! _pid_path cwd = None → _read_pid cwd fs = None.
Proof. intros Hfs. unfold _read_pid. by rewrite Hfs. Qed.

Lemma read_pid_present cwd (fs : gmap string string) pid :
  _read_pid cwd fs = Some pid → is_Some (fs !! _pid_path cwd).
Proof. unfold _read_pid. destruct (fs !! _pid_path cwd); [eauto | done]. Qed.

(** C9. [serve-stop]: without a marker file it reports that there is
    none and sends no signal; with a marker recording a process id it
    sends SIGTERM to that process and then removes the marker; when the
    signal cannot be delivered it reports the failure and leaves the
    marker as it is. *)
Theorem serve_stop_marker (kill : Z → signal → option string) (remove_ok : bool)
    (cwd : string) (fs : gmap string string) :
  (fs !! _pid_path cwd = None →
   serve_stop kill remove_ok cwd fs =
     ([print (Py.nl +:+ "  ✗ No PID file found" +:+ Py.nl)], fs)) ∧
  (∀ pid, _read_pid cwd fs = Some pid → pid ≠ 0 → kill pid SIGTERM = None →
     serve_stop kill remove_ok cwd fs =
       ([os_kill pid SIGTERM; os_remove (_pid_path cwd);
         print (Py.nl +:+ "  ✓ Server stopped" +:+ Py.nl)],
        if remove_ok then delete (_pid_path cwd) fs else fs)) ∧
  (∀ pid e, _read_pid cwd fs = Some pid → pid ≠ 0 → kill pid SIGTERM = Some e →
     serve_stop kill remove_ok cwd fs =
       ([os_kill pid SIGTERM;
         print (Py.nl +:+ "  ✗ Failed to stop server: " +:+ e +:+ Py.nl)], fs)).
Proof.
  split; [|split].
  - intros Hfs. unfold serve_stop. by rewrite read_pid_absent.
  - intros pid Hpid Hne Hkill. unfold serve_stop.
    rewrite Hpid, truthy_int_nonzero by done.
    cbn [negb from_option id]. cbv zeta. rewrite Hkill. unfold _remove_pid.
    destruct (read_pid_present _ _ _ Hpid) as [text ->]. reflexivity.
  - intros pid e Hpid Hne Hkill. unfold serve_stop.
    rewrite Hpid, truthy_int_nonzero by done.
    cbn [negb from_option id]. cbv zeta. by rewrite Hkill.
Qed.

End supervisor_facts.

Lemma serve_stop_marker_witness :
  @serve_stop CPython.lib (fun _ _ => None) true Ex.cwd ∅ =
    ([print (Py.nl +:+ "  ✗ No PID file found" +:+ Py.nl)], ∅) ∧
  @serve_stop CPython.lib (fun _ _ => None) true Ex.cwd Ex.fs_marker =
    ([os_kill 4242 SIGTERM; os_remove "/srv/fp/flareprox_server.pid";
      print (Py.nl +:+ "  ✓ Server stopped" +:+ Py.nl)], ∅) ∧
  @serve_stop CPython.lib (fun _ _ => Some "[Errno 3] No such process") true
     Ex.cwd Ex.fs_marker =
    ([os_kill 4242 SIGTERM;
      print (Py.nl +:+ "  ✗ Failed to stop server: [Errno 3] No such process" +:+ Py.nl)],
     Ex.fs_marker).
Proof.
  assert (@_read_pid CPython.lib Ex.cwd Ex.fs_marker = Some 4242) as Hpid
    by (vm_compute; reflexivity).
  split; [|split].
  - apply (serve_stop_marker (H := CPython.lib)). reflexivity.
  - rewrite (proj1 (proj2 (serve_stop_marker (H := CPython.lib) (fun _ _ => None) true
                             Ex.cwd Ex.fs_marker)) 4242 Hpid); [|discriminate|reflexivity].
    vm_compute. reflexivity.
  - rewrite (proj2 (proj2 (serve_stop_marker (H := CPython.lib)
                             (fun _ _ => Some "[Errno 3] No such process") true
                             Ex.cwd Ex.fs_marker)) 4242 "[Errno 3] No such process" Hpid);
      [|discriminate|reflexivity].
    vm_compute. reflexivity.
Defined.

(** A marker that does not record a process id is treated like no marker. *)
Example serve_stop_garbled_marker :
  @serve_stop CPython.lib (fun _ _ => None) true Ex.cwd {[ _pid_path Ex.cwd := "0" ]} =
    ([print (Py.nl +:+ "  ✗ No PID file found" +:+ Py.nl)], {[ _pid_path Ex.cwd := "0" ]}).
Proof. vm_compute. reflexivity. Qed.

(** * Further properties *)

(** ** Endpoint selection *)

(** The state after a run of round-robin selections. *)
Lemma select_seq_roundrobin_state (endpoints : list (gmap string string)) (rnds : list Z) :
  endpoints ≠ [] →
  ∀ state urls st,
    select_seq endpoints "roundrobin" rnds state = Ok (urls, st) →
    st = match rnds with
         | [] => state
         | _ => <["idx" := (default 0 (state !! "idx") + Py.len rnds)
                            `mod` Py.len endpoints]> state
         end.
Proof.
  intros Hne. induction rnds as [|rnd rnds IH]; intros state urls st Hsel.
  - simpl in Hsel. by injection Hsel.
  - destruct (choose_roundrobin endpoints state rnd Hne) as (ep0 & _ & Hch).
    cbn [select_seq] in Hsel. rewrite Hch in Hsel. cbn [mbind result_bind] in Hsel.
    destruct (select_seq endpoints "roundrobin" rnds _) as [[urls' st']|e] eqn:Hrest;
      [|discriminate].
    cbn in Hsel. injection Hsel as _ <-.
    apply IH in Hrest. rewrite Hrest. destruct rnds as [|rnd' rnds'].
    + unfold Py.len. cbn [length]. reflexivity.
    + rewrite lookup_insert_eq. cbn [from_option id]. rewrite insert_insert_eq.
      f_equal. rewrite Zplus_mod_idemp_l. f_equal. unfold Py.len.
      cbn [length]. lia.
Qed.

(** X1. One full round: on a non-empty pool, as many round-robin
    selections as the pool has endpoints, made from the state the server
    starts with, return the URL of every endpoint once, in the order of
    the pool, and bring the cursor back to 0. *)
Theorem round_robin_full_round (endpoints : list (gmap string string)) (rnds : list Z) :
  endpoints ≠ [] → length rnds = length endpoints →
  select_seq endpoints "roundrobin" rnds ∅ =
    Ok ((fun ep : gmap string string => ep !! "url") <$> endpoints, {[ "idx" := 0 ]}).
Proof.
  intros Hne Hlen.
  destruct (select_seq_roundrobin endpoints rnds Hne ∅) as (urls & st & Hsel & Hl & Hk).
  rewrite Hsel. f_equal. f_equal.
  - apply list_eq. intros k. rewrite list_lookup_fmap.
    destruct (endpoints !! k) as [ep|] eqn:Hep; cbn [fmap option_fmap option_map].
    + apply Hk.
      * rewrite Hlen. by eapply lookup_lt_Some.
      * rewrite lookup_empty. cbn [from_option id]. rewrite Z.add_0_l. unfold Py.len.
        rewrite <- Nat2Z.inj_mod, Nat2Z.id, Nat.mod_small; [done|].
        by eapply lookup_lt_Some.
    + apply lookup_ge_None. apply lookup_ge_None in Hep. lia.
  - rewrite (select_seq_roundrobin_state endpoints rnds Hne _ _ _ Hsel).
    destruct rnds as [|rnd rnds]; [by destruct endpoints|].
    rewrite lookup_empty. cbn [from_option id]. rewrite Z.add_0_l.
    unfold Py.len. rewrite Hlen, Z_mod_same_full. done.
Qed.

Lemma round_robin_full_round_witness :
  Ex.pool3 ≠ [] ∧ length [5; 6; 7] = length Ex.pool3 ∧
  select_seq Ex.pool3 "roundrobin" [5; 6; 7] ∅ =
    Ok ([Some "A"; Some "B"; Some "C"], {[ "idx" := 0 ]}).
Proof.
  split; [discriminate|]. split; [reflexivity|].
  apply (round_robin_full_round Ex.pool3 [5; 6; 7]); [discriminate | reflexivity].
Defined.

(** X2. Any policy other than the exact string [roundrobin] selects at
    random: on a non-empty pool the result is the URL of an endpoint of
    the pool and the cursor state is left as it was. *)
Theorem other_policy_selects_at_random (endpoints : list (gmap string string))
    (policy : string) (state : gmap string Z) (rnd : Z) :
  endpoints ≠ [] → policy ≠ "roundrobin" →
  ∃ ep, ep ∈ endpoints ∧
        _choose_endpoint endpoints policy state rnd = Ok (ep !! "url", state).
Proof.
  intros Hne Hpol.
  destruct (choose_random endpoints policy state rnd Hne Hpol) as (ep & Hep & Hch).
  exists ep. split; [|done]. by eapply list_elem_of_lookup_2.
Qed.

Lemma other_policy_selects_at_random_witness :
  Ex.pool3 ≠ [] ∧ "round-robin" ≠ "roundrobin" ∧
  ∃ ep, ep ∈ Ex.pool3 ∧
        _choose_endpoint Ex.pool3 "round-robin" {[ "idx" := 1 ]} 5
          = Ok (ep !! "url", {[ "idx" := 1 ]}).
Proof.
  split; [discriminate|]. split; [discriminate|].
  apply (other_policy_selects_at_random Ex.pool3 "round-robin"); discriminate.
Defined.

(** ** The forwarder: every way a request can end *)

Lemma choose_endpoint_ok (endpoints : list (gmap string string)) (policy : string)
    (state : gmap string Z) (rnd : Z) :
  ∃ w st, _choose_endpoint endpoints policy state rnd = Ok (w, st).
Proof.
  destruct endpoints as [|ep eps]; [by eexists _, _|].
  destruct (decide (policy = "roundrobin")) as [->|Hpol].
  - destruct (choose_roundrobin (ep :: eps) state rnd) as (e & _ & ->); [done|].
    by eexists _, _.
  - destruct (choose_random (ep :: eps) policy state rnd) as (e & _ & ->); [done..|].
    by eexists _, _.
Qed.

(** The traces on which the properties below are read. *)
Lemma counts_json_reply (code : Z) (body : string) :
  status_lines (json_reply code body) = [code] ∧
  access_log_records (json_reply code body) = [(code, Py.blen body)] ∧
  body_written (json_reply code body) = body ∧
  content_length_headers (json_reply code body) = [Py.str (Py.blen body)] ∧
  outbound_calls (json_reply code body) = 0%nat.
Proof.
  repeat split; try reflexivity.
  cbn. apply string_app_nil_r.
Qed.

Lemma status_lines_app (tr1 tr2 : list event) :
  status_lines (tr1 ++ tr2) = (status_lines tr1 ++ status_lines tr2)%list.
Proof.
  induction tr1 as [|e tr1 IH]; [done|]. destruct e; cbn [app status_lines]; try done.
  by rewrite IH.
Qed.

Lemma access_log_records_app (tr1 tr2 : list event) :
  access_log_records (tr1 ++ tr2)
  = (access_log_records tr1 ++ access_log_records tr2)%list.
Proof.
  induction tr1 as [|e tr1 IH]; [done|].
  destruct e; cbn [app access_log_records]; try done. by rewrite IH.
Qed.

Lemma content_length_headers_app (tr1 tr2 : list event) :
  content_length_headers (tr1 ++ tr2)
  = (content_length_headers tr1 ++ content_length_headers tr2)%list.
Proof.
  induction tr1 as [|e tr1 IH]; [done|].
  destruct e; cbn [app content_length_headers]; try done.
  destruct (String.eqb _ _); [|done]. by rewrite IH.
Qed.

Lemma outbound_calls_app (tr1 tr2 : list event) :
  outbound_calls (tr1 ++ tr2) = (outbound_calls tr1 + outbound_calls tr2)%nat.
Proof.
  induction tr1 as [|e tr1 IH]; [done|].
  destruct e; cbn [app outbound_calls]; try done. by rewrite IH.
Qed.

Lemma counts_relayed_headers (hs : list (string * string)) :
  let tr := map (fun kv : string * string => send_header kv.1 kv.2)
                (List.filter relayed_header hs) in
  status_lines tr = [] ∧ access_log_records tr = [] ∧
  content_length_headers tr = [] ∧ outbound_calls tr = 0%nat.
Proof.
  induction hs as [|[k v] hs (IH1 & IH2 & IH3 & IH4)]; [done|].
  cbn [List.filter]. destruct (relayed_header (k, v)) eqn:Hk; [|done].
  cbn [map status_lines access_log_records content_length_headers outbound_calls fst snd].
  apply relayed_header_spec in Hk as (_ & _ & Hcl). cbn [fst] in Hcl.
  destruct (String.eqb_spec (Py.lower k) "content-length"); done.
Qed.

Lemma counts_relayed_response (resp : response) :
  status_lines (relayed_response resp) = [status_code resp] ∧
  access_log_records (relayed_response resp)
    = [(status_code resp, Py.blen (content resp))] ∧
  content_length_headers (relayed_response resp) = [Py.str (Py.blen (content resp))] ∧
  outbound_calls (relayed_response resp) = 0%nat.
Proof.
  unfold relayed_response.
  destruct (counts_relayed_headers (resp_headers resp)) as (H1 & H2 & H3 & H4).
  rewrite !status_lines_app, !access_log_records_app, !content_length_headers_app,
    !outbound_calls_app, H1, H2, H3, H4.
  destruct (String.eqb (content resp) ""); done.
Qed.

Section outcomes.
Context `{Lib.PyLib}.

(** What the relay of the outcome of the outbound call adds to the
    trace: the upstream response, a 502 reply, or nothing when the
    exception is not caught. *)
Lemma forward_relay_outcomes (outcome : result response) (s : hstate) :
  (∃ resp, outcome = Ok resp ∧
     _forward_relay outcome s
     = (Ok tt, mkHstate (state s) (trace s ++ relayed_response resp))) ∨
  (∃ e, outcome = Raise (RequestException e) ∧
     _forward_relay outcome s
     = (Ok tt, mkHstate (state s)
                 (trace s ++ json_reply 502
                    (Lib.json_dumps [("error", "Proxy request failed"); ("message", e)])))) ∨
  (∃ e, outcome = Raise e ∧ _forward_relay outcome s = (Raise e, s)).
Proof.
  destruct outcome as [resp|e].
  - left. exists resp. split; [done|]. apply forward_relay_ok.
  - destruct e; try (right; right; eexists; split; reflexivity).
    right. left. exists msg. split; [done|]. apply forward_relay_failed.
Qed.

(** The ways [_forward] ends.  The state after it is the one the
    selection left, when the selection was reached. *)
Lemma forward_outcomes (ctx : context)
    (net : string → string → gmap string string → option string → result response)
    (rnd : Z) (req : request) (s : hstate) :
  (∃ e, _forward_target req = Raise e ∧ _forward ctx net rnd req s = (Raise e, s)) ∨
  (∃ t, _forward_target req = Ok t ∧ Py.truthy t = false ∧
     _forward ctx net rnd req s
     = (Ok tt, mkHstate (state s)
                 (trace s ++ json_reply 400
                    (Lib.json_dumps [("error", "No target URL specified")])))) ∨
  (∃ t w st,
     _forward_target req = Ok t ∧ Py.truthy t = true ∧
     _choose_endpoint (endpoints ctx) (policy ctx) (state s) rnd = Ok (w, st) ∧
     ((Py.truthy w = false ∧
       _forward ctx net rnd req s
       = (Ok tt, mkHstate st
                   (trace s ++ json_reply 503
                      (Lib.json_dumps [("error", "No worker endpoints available")])))) ∨
      (∃ e, read_data req = Raise e ∧
            _forward ctx net rnd req s = (Raise e, mkHstate st (trace s))) ∨
      (∃ url data,
         read_data req = Ok data ∧
         let call := requests_request (command req) url (fwd_headers (headers req)) data
                       (timeout ctx) in
         _forward ctx net rnd req s
         = _forward_relay (net (command req) url (fwd_headers (headers req)) data)
             (mkHstate st (trace s ++ [call]))))).
Proof.
  destruct (_forward_target req) as [t|e] eqn:Ht.
  - destruct (Py.truthy t) eqn:Htt.
    + right. right.
      destruct (choose_endpoint_ok (endpoints ctx) (policy ctx) (state s) rnd)
        as (w & st & Hch).
      exists t, w, st. split; [done|]. split; [done|]. split; [done|].
      destruct (Py.truthy w) eqn:Hw.
      * right. apply truthy_Some in Htt as (t' & -> & Hne).
        apply truthy_Some in Hw as (w' & -> & Hwne).
        destruct (read_data req) as [data|e] eqn:Hd.
        -- right. exists (w' +:+ "?url=" +:+ Lib.quote t'), data.
           split; [done|]. by apply forward_upstream.
        -- left. exists e. split; [done|]. unfold _forward.
           unfold mbind at 1. unfold handler_bind at 1. unfold lift at 1.
           rewrite Ht, (truthy_nonempty t' Hne). cbn [negb].
           unfold mbind at 1. unfold handler_bind at 1. unfold choose. rewrite Hch.
           rewrite (truthy_nonempty w' Hwne). cbn [negb].
           unfold mbind at 1. unfold handler_bind at 1. unfold lift at 1.
           by rewrite Hd.
      * left. split; [done|]. by apply (forward_no_worker ctx net rnd req s t w st).
    + right. left. exists t. split; [done|]. split; [done|].
      by apply (forward_no_target ctx net rnd req s t).
  - left. exists e. split; [done|]. unfold _forward.
    unfold mbind at 1. unfold handler_bind at 1. unfold lift at 1. by rewrite Ht.
Qed.

(** What [_forward] adds to the trace, with the counts the properties
    are about.  The exceptions of the embedding are those of the target
    resolution, of the body read and of the outbound call, all raised
    before anything is written to the client; a write that fails is not
    described. *)
Lemma forward_trace_counts (ctx : context)
    (net : string → string → gmap string string → option string → result response)
    (rnd : Z) (req : request) (s : hstate) :
  ∃ tr st,
    (_forward ctx net rnd req s).2 = mkHstate st (trace s ++ tr) ∧
    (outbound_calls tr ≤ 1)%nat ∧
    match (_forward ctx net rnd req s).1 with
    | Ok _ =>
      ∃ code, status_lines tr = [code] ∧
              access_log_records tr = [(code, Py.blen (body_written tr))] ∧
              content_length_headers tr = [Py.str (Py.blen (body_written tr))]
    | Raise _ =>
      status_lines tr = [] ∧ access_log_records tr = [] ∧
      content_length_headers tr = [] ∧ body_written tr = ""
    end.
Proof.
  destruct (forward_outcomes ctx net rnd req s)
    as [(e & _ & ->) | [(t & _ & _ & ->) | (t & w & st & _ & _ & _ & Hrest)]].
  - exists [], (state s). destruct s as [st0 tr0]. cbn. rewrite app_nil_r.
    repeat split; lia.
  - eexists _, _. split; [reflexivity|]. cbn [fst].
    destruct (counts_json_reply 400
                (Lib.json_dumps [("error", "No target URL specified")]))
      as (H1 & H2 & H3 & H4 & H5).
    rewrite H5, H3. split; [lia|]. by exists 400.
  - destruct Hrest as [(_ & ->) | [(e & _ & ->) | (url & data & _ & ->)]].
    + eexists _, _. split; [reflexivity|]. cbn [fst].
      destruct (counts_json_reply 503
                  (Lib.json_dumps [("error", "No worker endpoints available")]))
        as (H1 & H2 & H3 & H4 & H5).
      rewrite H5, H3. split; [lia|]. by exists 503.
    + exists [], st. cbn. rewrite app_nil_r. repeat split; lia.
    + cbv zeta.
      destruct (forward_relay_outcomes
                  (net (command req) url (fwd_headers (headers req)) data)
                  (mkHstate st (trace s ++ [requests_request (command req) url
                     (fwd_headers (headers req)) data (timeout ctx)])))
        as [(resp & _ & ->) | [(e & _ & ->) | (e & _ & ->)]]; cbn [fst snd state trace].
      * eexists _, st. rewrite <- app_assoc. split; [reflexivity|].
        destruct (counts_relayed_response resp) as (H1 & H2 & H3 & H4).
        cbn [app outbound_calls status_lines access_log_records
             content_length_headers body_written].
        rewrite H4, body_written_relayed. split; [lia|]. by exists (status_code resp).
      * eexists _, st. rewrite <- app_assoc. split; [reflexivity|].
        match goal with |- context [json_reply 502 ?b] =>
          destruct (counts_json_reply 502 b) as (H1 & H2 & H3 & H4 & H5) end.
        cbn [app outbound_calls status_lines access_log_records
             content_length_headers body_written].
        rewrite H5, H3. split; [lia|]. by exists 502.
      * eexists _, st. split; [reflexivity|]. split; [cbn; lia|]. done.
Qed.

(** X3. A request that reaches the selection but whose Content-Length
    [int] does not accept (a method other than GET and HEAD) ends in that
    exception after the endpoint was selected: the round-robin cursor has
    moved, nothing is written to the client and no outbound call is
    made. *)
Theorem forward_bad_length_consumes_selection (ctx : context)
    (net : string → string → gmap string string → option string → result response)
    (rnd : Z) (req : request) (s : hstate) (t w : string) (st : gmap string Z) (e : exn) :
  _forward_target req = Ok (Some t) → t ≠ "" →
  _choose_endpoint (endpoints ctx) (policy ctx) (state s) rnd = Ok (Some w, st) →
  w ≠ "" →
  command req ∉ ["GET"; "HEAD"] →
  Lib.int_ (or_ (default "0" (headers_get (headers req) "Content-Length")) "0") = Raise e →
  _forward ctx net rnd req s = (Raise e, mkHstate st (trace s)).
Proof.
  intros Ht Hne Hch Hw Hc Hint.
  assert (read_data req = Raise e) as Hd.
  { unfold read_data. rewrite bool_decide_eq_false_2 by done. cbn [negb]. by rewrite Hint. }
  destruct (forward_outcomes ctx net rnd req s)
    as [(e' & Ht' & _) | [(t' & Ht' & Htt & _) | (t' & w' & st' & Ht' & _ & Hch' & Hrest)]].
  - congruence.
  - rewrite Ht in Ht'. injection Ht' as <-. by rewrite (truthy_nonempty t Hne) in Htt.
  - rewrite Hch in Hch'. injection Hch' as <- <-.
    destruct Hrest as [(Hw' & _) | [(e' & Hd' & ->) | (url & data & Hd' & _)]].
    + by rewrite (truthy_nonempty w Hw) in Hw'.
    + congruence.
    + congruence.
Qed.

(** X4. A request that [_forward] completes, every write to the client
    having succeeded, made at most one outbound call and got exactly one
    status line and one access log record, which agree: the record
    carries the status sent and the length of the body written. *)
Theorem forward_one_reply_one_record (ctx : context)
    (net : string → string → gmap string string → option string → result response)
    (rnd : Z) (req : request) (s : hstate) :
  (_forward ctx net rnd req s).1 = Ok tt →
  ∃ tr code,
    trace (_forward ctx net rnd req s).2 = (trace s ++ tr)%list ∧
    (outbound_calls tr ≤ 1)%nat ∧
    status_lines tr = [code] ∧
    access_log_records tr = [(code, Py.blen (body_written tr))].
Proof.
  intros Hok.
  destruct (forward_trace_counts ctx net rnd req s) as (tr & st & Hs & Hout & Hres).
  rewrite Hok in Hres. destruct Hres as (code & H1 & H2 & _).
  exists tr, code. rewrite Hs. done.
Qed.

(** X5. Every reply that [_forward] completes carries exactly one
    Content-Length header, whatever the case of the names the endpoint
    sent, and its value is the length of the body written. *)
Theorem forward_content_length_matches_body (ctx : context)
    (net : string → string → gmap string string → option string → result response)
    (rnd : Z) (req : request) (s : hstate) :
  (_forward ctx net rnd req s).1 = Ok tt →
  ∃ tr,
    trace (_forward ctx net rnd req s).2 = (trace s ++ tr)%list ∧
    content_length_headers tr = [Py.str (Py.blen (body_written tr))].
Proof.
  intros Hok.
  destruct (forward_trace_counts ctx net rnd req s) as (tr & st & Hs & _ & Hres).
  exists tr. rewrite Hs. split; [done|].
  rewrite Hok in Hres. by destruct Hres as (code & _ & _ & H3).
Qed.

End outcomes.

Lemma forward_bad_length_consumes_selection_witness :
  @_forward CPython.lib Sample.ctx3 Ex.net_ok 0 Sample.req_bad_length Ex.s0
  = (Raise ValueError, mkHstate {[ "idx" := 1 ]} []).
Proof.
  apply (forward_bad_length_consumes_selection (H := CPython.lib) Sample.ctx3 Ex.net_ok 0
           Sample.req_bad_length Ex.s0 "http://t.example/" "A" {[ "idx" := 1 ]} ValueError).
  - vm_compute. reflexivity.
  - done.
  - vm_compute. reflexivity.
  - done.
  - rewrite !elem_of_cons, elem_of_nil. intros [Hc|[Hc|[]]]; vm_compute in Hc; discriminate.
  - vm_compute. reflexivity.
Defined.

Lemma forward_content_length_matches_body_witness :
  (@_forward CPython.lib Ex.ctx Ex.net_ok 0 Ex.req_foo Ex.s0).1 = Ok tt ∧
  ∃ tr,
    trace (@_forward CPython.lib Ex.ctx Ex.net_ok 0 Ex.req_foo Ex.s0).2
      = (trace Ex.s0 ++ tr)%list ∧
    content_length_headers tr = [Py.str (Py.blen (body_written tr))].
Proof.
  assert ((@_forward CPython.lib Ex.ctx Ex.net_ok 0 Ex.req_foo Ex.s0).1 = Ok tt) as Hok
    by (vm_compute; reflexivity).
  split; [exact Hok|].
  exact (forward_content_length_matches_body (H := CPython.lib) Ex.ctx Ex.net_ok 0
           Ex.req_foo Ex.s0 Hok).
Defined.

Lemma forward_one_reply_one_record_witness :
  (@_forward CPython.lib Ex.ctx Ex.net_down 0 Ex.req_post Ex.s0).1 = Ok tt ∧
  ∃ tr code,
    trace (@_forward CPython.lib Ex.ctx Ex.net_down 0 Ex.req_post Ex.s0).2
      = (trace Ex.s0 ++ tr)%list ∧
    (outbound_calls tr ≤ 1)%nat ∧
    status_lines tr = [code] ∧
    access_log_records tr = [(code, Py.blen (body_written tr))].
Proof.
  assert ((@_forward CPython.lib Ex.ctx Ex.net_down 0 Ex.req_post Ex.s0).1 = Ok tt) as Hok
    by (vm_compute; reflexivity).
  split; [exact Hok|].
  exact (forward_one_reply_one_record (H := CPython.lib) Ex.ctx Ex.net_down 0
           Ex.req_post Ex.s0 Hok).
Defined.

(** ** The tunnel *)

Lemma connections_opened_app (tr1 tr2 : list event) :
  connections_opened (tr1 ++ tr2) = (connections_opened tr1 + connections_opened tr2)%nat.
Proof.
  induction tr1 as [|e tr1 IH]; [done|].
  destruct e; cbn [app connections_opened]; try done. by rewrite IH.
Qed.

Lemma upstream_closes_app (tr1 tr2 : list event) :
  upstream_closes (tr1 ++ tr2) = (upstream_closes tr1 + upstream_closes tr2)%nat.
Proof.
  induction tr1 as [|e tr1 IH]; [done|].
  destruct e; cbn [app upstream_closes]; try done. by rewrite IH.
Qed.

Lemma from_upstream_app (c1 c2 : list (sock * string)) :
  from_upstream (c1 ++ c2) = from_upstream c1 + from_upstream c2.
Proof.
  induction c1 as [|[[] data] c1 IH]; cbn [app from_upstream]; lia.
Qed.

(** One answer of [select]: nothing but reads and sends, and the count
    grows by what came from upstream before the first read that does not
    pass data on. *)
Lemma relay_ready_run (rlist : list (sock * recv_outcome)) (bytes_out : Z) (s : hstate) :
  ∃ tr r,
    relay_ready rlist bytes_out s = (Ok r, mkHstate (state s) (trace s ++ tr)) ∧
    outbound_calls tr = 0%nat ∧ connections_opened tr = 0%nat ∧
    upstream_closes tr = 0%nat ∧ access_log_records tr = [] ∧ status_lines tr = [] ∧
    match r with
    | inl bytes_out' =>
      bytes_out' = bytes_out + from_upstream (passed_on rlist) ∧
      ∀ rest, passed_on (rlist ++ rest) = (passed_on rlist ++ passed_on rest)%list
    | inr bytes_out' =>
      bytes_out' = bytes_out + from_upstream (passed_on rlist) ∧
      ∀ rest, passed_on (rlist ++ rest) = passed_on rlist
    end.
Proof.
  revert bytes_out s.
  induction rlist as [|[sk o] rlist IH]; intros bytes_out s.
  - exists [], (inl bytes_out). cbn. rewrite app_nil_r.
    destruct s; repeat split; lia.
  - cbn [relay_ready]. rewrite bind_emit.
    destruct o as [data|data| |].
    + destruct sk.
      * rewrite bind_emit. cbn [state trace].
        destruct (IH bytes_out (mkHstate (state s)
                    ((trace s ++ [recv Client]) ++ [sendall Upstream data])))
          as (tr & r & -> & H1 & H2 & H3 & H4 & H5 & Hr).
        exists (recv Client :: sendall Upstream data :: tr), r.
        cbn [state trace]. rewrite <- !app_assoc. cbn [app].
        split; [done|]. repeat (split; [done|]).
        destruct r as [b'|b']; destruct Hr as [-> Hp]; (split; [done|]);
          intros rest; cbn [app passed_on]; by rewrite Hp.
      * rewrite bind_emit. cbn [state trace].
        destruct (IH (bytes_out + Py.blen data) (mkHstate (state s)
                    ((trace s ++ [recv Upstream]) ++ [sendall Client data])))
          as (tr & r & -> & H1 & H2 & H3 & H4 & H5 & Hr).
        exists (recv Upstream :: sendall Client data :: tr), r.
        cbn [state trace]. rewrite <- !app_assoc. cbn [app].
        split; [done|]. repeat (split; [done|]).
        destruct r as [b'|b']; destruct Hr as [-> Hp];
          (split; [cbn [passed_on from_upstream]; lia|]);
          intros rest; cbn [app passed_on]; by rewrite Hp.
    + rewrite bind_emit. cbn [state trace].
      eexists [recv sk; sendall _ data], (inr bytes_out).
      rewrite <- !app_assoc. cbn [app]. split; [reflexivity|].
      repeat (split; [done|]). cbn [passed_on from_upstream]. split; [lia|done].
    + exists [recv sk], (inr bytes_out). split; [reflexivity|].
      repeat (split; [done|]). cbn [passed_on from_upstream]. split; [lia|done].
    + exists [recv sk], (inr bytes_out). split; [reflexivity|].
      repeat (split; [done|]). cbn [passed_on from_upstream]. split; [lia|done].
Qed.

(** The relay loop ends, whatever it meets: with the upstream socket
    closed and one record in the log. *)
Lemma relay_run (script : list (list (sock * recv_outcome))) (bytes_out : Z) (s : hstate) :
  ∃ tr,
    relay script bytes_out s = (Ok tt, mkHstate (state s) (trace s ++ tr)) ∧
    outbound_calls tr = 0%nat ∧ connections_opened tr = 0%nat ∧
    (1 ≤ upstream_closes tr)%nat ∧
    access_log_records tr
      = [(200, bytes_out + from_upstream (passed_on (until_idle script)))] ∧
    status_lines tr = [].
Proof.
  revert bytes_out s.
  induction script as [|rlist script IH]; intros bytes_out s.
  - exists [select_ 30; upstream_close; _access_log 200 bytes_out].
    cbn [relay]. rewrite !bind_emit. unfold emit. cbn [state trace].
    rewrite <- !app_assoc. cbn [app]. split; [done|].
    cbn. repeat split; try lia. by rewrite Z.add_0_r.
  - destruct rlist as [|step rlist].
    + exists [select_ 30; upstream_close; _access_log 200 bytes_out].
      cbn [relay]. rewrite !bind_emit. unfold emit. cbn [state trace].
      rewrite <- !app_assoc. cbn [app]. split; [done|].
      cbn. repeat split; try lia. by rewrite Z.add_0_r.
    + cbn [relay]. rewrite bind_emit.
      unfold mbind at 1. unfold handler_bind at 1.
      destruct (relay_ready_run (step :: rlist) bytes_out
                  (mkHstate (state s) (trace s ++ [select_ 30])))
        as (tr1 & r & -> & H1 & H2 & H3 & H4 & H5 & Hr).
      cbn [state trace].
      destruct r as [b'|b']; destruct Hr as [-> Hp].
      * destruct (IH (bytes_out + from_upstream (passed_on (step :: rlist)))
                    (mkHstate (state s) ((trace s ++ [select_ 30]) ++ tr1)))
          as (tr2 & -> & G1 & G2 & G3 & G4 & G5).
        exists (select_ 30 :: tr1 ++ tr2)%list.
        cbn [state trace]. rewrite <- !app_assoc. cbn [app]. split; [done|].
        cbn [outbound_calls connections_opened upstream_closes access_log_records
             status_lines].
        rewrite outbound_calls_app, connections_opened_app, upstream_closes_app,
          access_log_records_app, status_lines_app, H1, H2, H3, H4, H5, G1, G2, G4, G5.
        repeat split; try lia.
        change (until_idle ((step :: rlist) :: script))
          with ((step :: rlist) ++ until_idle script)%list.
        rewrite Hp, from_upstream_app. cbn [app]. do 2 f_equal. lia.
      * exists (select_ 30 :: tr1 ++ [upstream_close; _access_log 200
                 (bytes_out + from_upstream (passed_on (step :: rlist)));
                 upstream_close])%list.
        rewrite !bind_emit. unfold emit. cbn [state trace].
        rewrite <- !app_assoc. cbn [app]. split; [done|].
        cbn [outbound_calls connections_opened upstream_closes access_log_records
             status_lines].
        rewrite outbound_calls_app, connections_opened_app, upstream_closes_app,
          access_log_records_app, status_lines_app, H1, H2, H3, H4, H5.
        change (until_idle ((step :: rlist) :: script))
          with ((step :: rlist) ++ until_idle script)%list.
        rewrite Hp.
        cbn [app outbound_calls connections_opened upstream_closes access_log_records
             status_lines].
        repeat split; lia.
Qed.

Section tunnel_properties.
Context `{Lib.PyLib}.

(** The ways [do_CONNECT] ends, with what its trace holds. *)
Lemma connect_run (dial : string → Z → bool) (established_ok : bool)
    (script : list (list (sock * recv_outcome))) (req : request) (s : hstate) :
  ∃ tr,
    (do_CONNECT dial established_ok script req s).2
      = mkHstate (state s) (trace s ++ tr) ∧
    outbound_calls tr = 0%nat ∧
    match connect_target req with
    | Raise _ =>
      connections_opened tr = 0%nat ∧ upstream_closes tr = 0%nat ∧
      (do_CONNECT dial established_ok script req s).1 = Ok tt ∧
      access_log_records tr = [(400, 0)] ∧ status_lines tr = [400]
    | Ok (host, port) =>
      connections_opened tr = 1%nat ∧
      if dial host port then
        (1 ≤ upstream_closes tr)%nat ∧
        status_lines tr = [] ∧
        if established_ok then
          (do_CONNECT dial established_ok script req s).1 = Ok tt ∧
          access_log_records tr = [(200, relayed_bytes script)]
        else
          (do_CONNECT dial established_ok script req s).1
            = Raise (OtherException "sendall") ∧
          access_log_records tr = []
      else
        upstream_closes tr = 0%nat ∧
        (do_CONNECT dial established_ok script req s).1 = Ok tt ∧
        access_log_records tr = [(502, 0)] ∧ status_lines tr = [502]
    end.
Proof.
  destruct (connect_target req) as [[host port]|e] eqn:Ht.
  - destruct (dial host port) eqn:Hdial.
    + unfold do_CONNECT. rewrite Ht. rewrite bind_emit. cbn [state trace].
      rewrite Hdial. cbn [negb]. rewrite bind_emit. cbn [state trace].
      destruct established_ok.
      * match goal with |- context [relay script 0 ?s1] =>
          destruct (relay_run script 0 s1) as (tr & -> & H1 & H2 & H3 & H4 & H5) end.
        cbn [fst snd state trace]. rewrite <- !app_assoc. cbn [app].
        eexists. split; [reflexivity|].
        cbn [outbound_calls connections_opened upstream_closes access_log_records
             status_lines].
        rewrite H1, H2, H4, H5. repeat split; try lia.
      * rewrite bind_emit. unfold lift. cbn [fst snd state trace].
        rewrite <- !app_assoc. cbn [app].
        eexists. split; [reflexivity|]. cbn. repeat split; lia.
    + rewrite (connect_dial_fails dial established_ok script req s host port Ht Hdial).
      eexists. split; [reflexivity|]. cbn. repeat split; lia.
  - rewrite (connect_bad_target dial established_ok script req s e Ht).
    eexists. split; [reflexivity|]. cbn. repeat split; lia.
Qed.

(** X6. A CONNECT request never touches the endpoint pool, whatever the
    dial and the tunnel do: the selection state is as it was and no
    outbound call through an endpoint is made. *)
Theorem connect_bypasses_pool (dial : string → Z → bool) (established_ok : bool)
    (script : list (list (sock * recv_outcome))) (req : request) (s : hstate) :
  state (do_CONNECT dial established_ok script req s).2 = state s ∧
  ∃ tr,
    trace (do_CONNECT dial established_ok script req s).2 = (trace s ++ tr)%list ∧
    outbound_calls tr = 0%nat.
Proof.
  destruct (connect_run dial established_ok script req s) as (tr & -> & Hout & _).
  split; [done|]. by exists tr.
Qed.

(** X7. [do_CONNECT] closes the upstream socket exactly when it opened
    one: on every path after a dial that succeeded, also when the first
    write to the client fails or a peer closes, and on no path where the
    target did not parse or the dial failed. *)
Theorem connect_closes_what_it_opened (dial : string → Z → bool) (established_ok : bool)
    (script : list (list (sock * recv_outcome))) (req : request) (s : hstate) :
  ∃ tr,
    trace (do_CONNECT dial established_ok script req s).2 = (trace s ++ tr)%list ∧
    ((1 ≤ upstream_closes tr)%nat ↔
     ∃ host port, connect_target req = Ok (host, port) ∧ dial host port = true).
Proof.
  destruct (connect_run dial established_ok script req s) as (tr & -> & _ & Hcase).
  exists tr. split; [done|].
  destruct (connect_target req) as [[host port]|e].
  - destruct Hcase as [_ Hcase]. destruct (dial host port) eqn:Hdial.
    + destruct Hcase as [Hc _]. split; [|done]. intros _. by exists host, port.
    + destruct Hcase as [Hc _]. split; [lia|].
      intros (h & p & [= <- <-] & Hd). congruence.
  - destruct Hcase as (_ & Hc & _). split; [lia|]. by intros (h & p & [=] & _).
Qed.

(** X8. A tunnel whose 200 line reached the client ends normally with one
    access log record, of status 200 and of as many bytes as came from
    upstream and were passed to the client before the first time-out,
    closed peer or failed read or write; no status line is sent through
    [send_response].  When the 200 line cannot be written the exception
    leaves the handler and nothing is logged. *)
Theorem tunnel_logs_bytes_from_upstream (dial : string → Z → bool)
    (established_ok : bool) (script : list (list (sock * recv_outcome)))
    (req : request) (s : hstate) (host : string) (port : Z) :
  connect_target req = Ok (host, port) →
  dial host port = true →
  ∃ tr,
    trace (do_CONNECT dial established_ok script req s).2 = (trace s ++ tr)%list ∧
    status_lines tr = [] ∧
    if established_ok then
      (do_CONNECT dial established_ok script req s).1 = Ok tt ∧
      access_log_records tr = [(200, relayed_bytes script)]
    else
      (∃ e, (do_CONNECT dial established_ok script req s).1 = Raise e) ∧
      access_log_records tr = [].
Proof.
  intros Ht Hdial.
  destruct (connect_run dial established_ok script req s) as (tr & -> & _ & Hcase).
  exists tr. split; [done|]. rewrite Ht, Hdial in Hcase.
  destruct Hcase as (_ & _ & Hst & Hcase). split; [done|].
  destruct established_ok; destruct Hcase as [Hr Hlog]; [done|].
  split; [by eexists|done].
Qed.

End tunnel_properties.

Lemma tunnel_logs_bytes_from_upstream_witness :
  @connect_target CPython.lib (Ex.req_connect "example.com:443") = Ok ("example.com", 443) ∧
  ∃ tr,
    trace (@do_CONNECT CPython.lib (fun _ _ => true) true Sample.script
             (Ex.req_connect "example.com:443") Ex.s0).2 = (trace Ex.s0 ++ tr)%list ∧
    status_lines tr = [] ∧
    (@do_CONNECT CPython.lib (fun _ _ => true) true Sample.script
       (Ex.req_connect "example.com:443") Ex.s0).1 = Ok tt ∧
    access_log_records tr = [(200, 6)].
Proof.
  assert (@connect_target CPython.lib (Ex.req_connect "example.com:443")
          = Ok ("example.com", 443)) as Ht by (vm_compute; reflexivity).
  split; [exact Ht|].
  destruct (tunnel_logs_bytes_from_upstream (H := CPython.lib) (fun _ _ => true) true
              Sample.script (Ex.req_connect "example.com:443") Ex.s0 "example.com" 443
              Ht eq_refl) as (tr & Htr & Hst & Hok & Hlog).
  exists tr. repeat split; try done.
Defined.

(** ** The serving loop *)

Section serving.
Context `{Lib.PyLib}.

(** The selection state after [_forward]: the one the selection left
    when the target resolved, the one before otherwise. *)
Lemma forward_state (ctx : context)
    (net : string → string → gmap string string → option string → result response)
    (rnd : Z) (req : request) (s : hstate) (w : option string) (st : gmap string Z) :
  _choose_endpoint (endpoints ctx) (policy ctx) (state s) rnd = Ok (w, st) →
  state (_forward ctx net rnd req s).2
  = if match _forward_target req with Ok t => Py.truthy t | Raise _ => false end
    then st else state s.
Proof.
  intros Hch.
  destruct (forward_outcomes ctx net rnd req s)
    as [(e & -> & ->) | [(t & -> & -> & ->) | (t & w' & st' & -> & -> & Hch' & Hrest)]];
    [done..|].
  rewrite Hch in Hch'. injection Hch' as <- <-.
  destruct Hrest as [(_ & ->) | [(e & _ & ->) | (url & data & _ & ->)]]; [done..|].
  cbv zeta.
  match goal with |- context [_forward_relay ?o ?s1] =>
    destruct (forward_relay_outcomes o s1)
      as [(resp & _ & ->) | [(e & _ & ->) | (e & _ & ->)]] end; done.
Qed.

Lemma handle_one_request_state (ctx : context) (w : world) (req : request) (s : hstate)
    (url : option string) (st : gmap string Z) :
  _choose_endpoint (endpoints ctx) (policy ctx) (state s) (w_rnd w) = Ok (url, st) →
  state (handle_one_request ctx w req s).2 = if selects req then st else state s.
Proof.
  intros Hch. unfold handle_one_request, selects.
  destruct (bool_decide (command req ∈ forwarded_methods)); cbn [andb].
  - by apply forward_state with url.
  - destruct (String.eqb (command req) "CONNECT"); [|done].
    by destruct (connect_run (w_dial w) (w_established_ok w) (w_script w) req s)
      as (tr & -> & _).
Qed.

(** The cursor after serving, from any state. *)
Lemma serve_forever_cursor (endpoints : list (gmap string string)) (timeout : Q)
    (reqs : list (world * request)) (s : hstate) :
  endpoints ≠ [] →
  state (serve_forever (mkContext endpoints "roundrobin" timeout) reqs s)
  = match length (List.filter (fun wr : world * request => selects wr.2) reqs) with
    | O => state s
    | S n =>
      <["idx" := (default 0 (state s !! "idx") + Z.of_nat (S n)) `mod` Py.len endpoints]>
        (state s)
    end.
Proof.
  intros Hne. revert s. induction reqs as [|[w req] reqs IH]; intros s; [done|].
  cbn [serve_forever List.filter snd]. rewrite IH.
  destruct (choose_roundrobin endpoints (state s) (w_rnd w) Hne) as (ep & _ & Hch).
  rewrite (handle_one_request_state (mkContext endpoints "roundrobin" timeout)
             w req s _ _ Hch).
  destruct (selects req); [|done].
  cbn [length].
  destruct (length (List.filter (fun wr : world * request => selects wr.2) reqs))
    as [|n]; [done|].
  rewrite lookup_insert_eq. cbn [from_option id]. rewrite insert_insert_eq.
  f_equal. rewrite Zplus_mod_idemp_l. f_equal. lia.
Qed.

(** X9. Under round-robin, with requests handled one after the other,
    the cursor of a serving proxy counts the requests that reached the
    selection: those of a forwarded method whose target resolved, whether
    or not they were answered in the end.  CONNECT requests, requests
    without a target and requests of other methods use up no endpoint.
    After any such run the cursor is that count modulo the size of the
    pool (and is not stored before the first selection). *)
Theorem cursor_counts_selections (endpoints : list (gmap string string)) (timeout : Q)
    (reqs : list (world * request)) :
  endpoints ≠ [] →
  state (run_local_proxy endpoints "roundrobin" timeout reqs) !! "idx"
  = match length (List.filter (fun wr : world * request => selects wr.2) reqs) with
    | O => None
    | S n => Some (Z.of_nat (S n) `mod` Py.len endpoints)
    end.
Proof.
  intros Hne. unfold run_local_proxy. rewrite serve_forever_cursor by done.
  cbn [state]. destruct (length _); [done|].
  by rewrite lookup_insert_eq, lookup_empty.
Qed.

End serving.

Lemma cursor_counts_selections_witness :
  Ex.pool3 ≠ [] ∧
  state (@run_local_proxy CPython.lib Ex.pool3 "roundrobin" 30 Sample.reqs) !! "idx"
  = Some 2.
Proof.
  split; [done|].
  rewrite (cursor_counts_selections (H := CPython.lib) Ex.pool3 30 Sample.reqs) by done.
  vm_compute. reflexivity.
Defined.

(** ** The PID marker *)

(** [int(str(n).strip())] is [n] in the model of CPython. *)

Lemma digits_value_of_uint_acc (d : Decimal.uint) (acc : positive) :
  CPython.digits_value (Z.pos acc) (NilEmpty.string_of_uint d)
  = Some (Z.pos (Pos.of_uint_acc d acc)).
Proof.
  revert acc. induction d; intros acc; cbn [NilEmpty.string_of_uint]; [done|..];
    cbn [CPython.digits_value];
    match goal with |- context [CPython.is_digit ?c] =>
      change (CPython.is_digit c) with true end;
    cbv iota; cbn [Pos.of_uint_acc]; rewrite <- IHd; f_equal;
    match goal with |- context [Z.of_nat ?n] =>
      let v := eval vm_compute in (Z.of_nat n) in change (Z.of_nat n) with v end;
    lia.
Qed.

Lemma digits_value_of_uint (d : Decimal.uint) :
  CPython.digits_value 0 (NilEmpty.string_of_uint d) = Some (Z.of_N (Pos.of_uint d)).
Proof.
  induction d; cbn [NilEmpty.string_of_uint]; [done|..];
    cbn [CPython.digits_value];
    match goal with |- context [CPython.is_digit ?c] =>
      change (CPython.is_digit c) with true end;
    cbv iota; cbn [Pos.of_uint];
    match goal with |- context [Z.of_nat ?n] =>
      let v := eval vm_compute in (Z.of_nat n) in change (Z.of_nat n) with v end;
    [exact IHd|..];
    match goal with |- CPython.digits_value ?a _ = _ =>
      let v := eval vm_compute in a in change a with v end;
    apply digits_value_of_uint_acc.
Qed.

Lemma digit_not_space (c : ascii) :
  CPython.is_digit c = true → Py.is_space c = false ∧ CPython.is_int_space c = false.
Proof.
  destruct c as [[] [] [] [] [] [] [] []]; vm_compute; (done || (intros; split; reflexivity)).
Qed.

Lemma string_of_uint_digits (d : Decimal.uint) :
  Forall (fun c => CPython.is_digit c = true)
    (String.list_ascii_of_string (NilEmpty.string_of_uint d)).
Proof.
  induction d; cbn [NilEmpty.string_of_uint String.list_ascii_of_string];
    [constructor|..]; (constructor; [reflexivity|done]).
Qed.

Lemma rstrip_id (s : string) :
  Forall (fun c => Py.is_space c = false) (String.list_ascii_of_string s) →
  Py.rstrip s = s.
Proof.
  induction s as [|c r IH]; [done|].
  cbn [String.list_ascii_of_string]. intros [Hc Hr]%Forall_cons.
  cbn [Py.rstrip]. rewrite (IH Hr). destruct r; [by rewrite Hc|done].
Qed.

Lemma strip_id (s : string) :
  Forall (fun c => Py.is_space c = false) (String.list_ascii_of_string s) →
  Py.strip s = s.
Proof.
  intros Hs. unfold Py.strip.
  assert (Py.lstrip s = s) as ->; [|by apply rstrip_id].
  destruct s as [|c r]; [done|].
  cbn [String.list_ascii_of_string] in Hs. apply Forall_cons in Hs as [Hc _].
  cbn [Py.lstrip]. by rewrite Hc.
Qed.

Lemma dropwhile_str_id (p : ascii → bool) (s : string) :
  Forall (fun c => p c = false) (String.list_ascii_of_string s) →
  CPython.dropwhile_str p s = s.
Proof.
  destruct s as [|c r]; [done|].
  cbn [String.list_ascii_of_string]. intros [Hc _]%Forall_cons.
  cbn [CPython.dropwhile_str]. by rewrite Hc.
Qed.

Lemma int_trim_id (s : string) :
  Forall (fun c => CPython.is_int_space c = false) (String.list_ascii_of_string s) →
  CPython.rev_str (CPython.dropwhile_str CPython.is_int_space
                     (CPython.rev_str (CPython.dropwhile_str CPython.is_int_space s)))
  = s.
Proof.
  intros Hs. rewrite (dropwhile_str_id _ s Hs).
  rewrite dropwhile_str_id.
  - unfold CPython.rev_str.
    by rewrite list_ascii_of_string_of_list_ascii, rev_involutive,
      string_of_list_ascii_of_string.
  - unfold CPython.rev_str. rewrite list_ascii_of_string_of_list_ascii.
    by apply Forall_rev.
Qed.

Lemma int_of_digits (neg : bool) (p : positive) :
  let s := NilEmpty.string_of_uint (Pos.to_uint p) in
  CPython.int_ (Py.strip (if neg then String "-" s else s))
  = Ok (if neg then Z.neg p else Z.pos p).
Proof.
  intros s.
  pose proof (string_of_uint_digits (Pos.to_uint p)) as Hd. fold s in Hd.
  assert (Forall (fun c => Py.is_space c = false ∧ CPython.is_int_space c = false)
            (String.list_ascii_of_string s)) as Hsp.
  { eapply Forall_impl; [exact Hd|]. intros c. apply digit_not_space. }
  assert (∃ c r, s = String c r ∧ CPython.is_digit c = true) as (c & r & Hs & Hc).
  { destruct s as [|c r] eqn:Hs.
    - exfalso. subst s. pose proof (DecimalPos.Unsigned.to_uint_nonnil p) as Hnn.
      destruct (Pos.to_uint p); done.
    - exists c, r. split; [done|]. by apply Forall_cons in Hd as [Hc _]. }
  assert (CPython.digits_value 0 s = Some (Z.pos p)) as Hv.
  { subst s. rewrite digits_value_of_uint.
    by rewrite DecimalPos.Unsigned.of_to. }
  destruct neg.
  - rewrite strip_id.
    2:{ cbn [String.list_ascii_of_string]. constructor; [reflexivity|].
        eapply Forall_impl; [exact Hsp|]. by intros ? [? _]. }
    unfold CPython.int_. rewrite int_trim_id.
    2:{ cbn [String.list_ascii_of_string]. constructor; [reflexivity|].
        eapply Forall_impl; [exact Hsp|]. by intros ? [_ ?]. }
    change (Ascii.eqb "-" "-") with true. cbv iota beta.
    rewrite Hs in *. rewrite Hc, Hv. done.
  - rewrite strip_id.
    2:{ eapply Forall_impl; [exact Hsp|]. by intros ? [? _]. }
    unfold CPython.int_. rewrite int_trim_id.
    2:{ eapply Forall_impl; [exact Hsp|]. by intros ? [_ ?]. }
    rewrite Hs in *.
    assert (Ascii.eqb c "-" = false ∧ Ascii.eqb c "+" = false) as [-> ->].
    { clear -Hc. destruct c as [[] [] [] [] [] [] [] []]; vm_compute in Hc |- *; done. }
    cbv iota beta. rewrite Hc, Hv. done.
Qed.

Lemma int_str (n : Z) : CPython.int_ (Py.strip (Py.str n)) = Ok n.
Proof.
  destruct n as [|p|p].
  - vm_compute. reflexivity.
  - pose proof (int_of_digits false p) as Hp. cbv zeta iota in Hp.
    unfold Py.str. cbn [Z.to_int NilZero.string_of_int]. unfold NilZero.string_of_uint.
    pose proof (DecimalPos.Unsigned.to_uint_nonnil p).
    destruct (Pos.to_uint p) eqn:Hu; done.
  - pose proof (int_of_digits true p) as Hp. cbv zeta iota in Hp.
    unfold Py.str. cbn [Z.to_int NilZero.string_of_int]. unfold NilZero.string_of_uint.
    pose proof (DecimalPos.Unsigned.to_uint_nonnil p).
    destruct (Pos.to_uint p) eqn:Hu; done.
Qed.

Lemma read_pid_written (cwd : string) (pid : Z) (fs : gmap string string) :
  @_read_pid CPython.lib cwd (_write_pid cwd pid fs) = Some pid.
Proof.
  unfold _read_pid, _write_pid. rewrite lookup_insert_eq.
  change (Lib.int_ (Py.strip (Py.str pid))) with (CPython.int_ (Py.strip (Py.str pid))).
  by rewrite int_str.
Qed.

(** X10. The marker round trip: the process id that [_write_pid] stores
    is the one [_read_pid] reads back, for every integer and whatever the
    marker held before. *)
Theorem pid_marker_round_trip (cwd : string) (pid : Z) (fs : gmap string string) :
  @_read_pid CPython.lib cwd (_write_pid cwd pid fs) = Some pid.
Proof.
  unfold _read_pid, _write_pid. rewrite lookup_insert_eq.
  pose proof (int_str pid) as Hint.
  change (CPython.int_ (Py.strip (Py.str pid)))
    with (@Lib.int_ CPython.lib (Py.strip (Py.str pid))) in Hint.
  by rewrite Hint.
Qed.

(** X11. The life of a background server: after [serve --daemon] started
    a child, [serve-status] probes that process and reports it running;
    [serve-stop] sends it SIGTERM and removes the marker, leaving the
    files as they were without it; after that [serve-status] reports no
    server and a second [serve-stop] finds no marker and sends nothing. *)
Theorem daemon_lifecycle (spawn : list string → Z + string) (alive : Z → bool)
    (kill : Z → signal → option string)
    (executable script host : string) (port : Z) (selection timeout : string)
    (cwd : string) (fs : gmap string string) (pid : Z) :
  spawn (daemon_cmd executable script host port selection timeout) = inl pid →
  pid ≠ 0 → alive pid = true → kill pid SIGTERM = None →
  let fs1 := (serve_daemon spawn executable script host port selection timeout cwd fs).2 in
  let fs2 := (@serve_stop CPython.lib kill true cwd fs1).2 in
  @serve_status CPython.lib alive cwd fs1
    = [os_kill_0 pid;
       printed (Py.nl +:+ "  ✓ Server running (PID " +:+ Py.str pid +:+ ")" +:+ Py.nl)] ∧
  (@serve_stop CPython.lib kill true cwd fs1).1
    = [os_kill pid SIGTERM; os_remove (_pid_path cwd);
       print (Py.nl +:+ "  ✓ Server stopped" +:+ Py.nl)] ∧
  fs2 = delete (_pid_path cwd) fs ∧
  @serve_status CPython.lib alive cwd fs2
    = [printed (Py.nl +:+ "  • Server not running" +:+ Py.nl)] ∧
  @serve_stop CPython.lib kill true cwd fs2
    = ([print (Py.nl +:+ "  ✗ No PID file found" +:+ Py.nl)], fs2).
Proof.
  intros Hspawn Hpid Halive Hkill fs1 fs2.
  assert (fs1 = _write_pid cwd pid fs) as Hfs1.
  { unfold fs1, serve_daemon. by rewrite Hspawn. }
  assert (@_read_pid CPython.lib cwd fs1 = Some pid) as Hread.
  { rewrite Hfs1. apply read_pid_written. }
  assert (@serve_stop CPython.lib kill true cwd fs1
          = ([os_kill pid SIGTERM; os_remove (_pid_path cwd);
              print (Py.nl +:+ "  ✓ Server stopped" +:+ Py.nl)],
             delete (_pid_path cwd) fs)) as Hstop.
  { unfold serve_stop. rewrite Hread, (truthy_int_nonzero pid Hpid).
    cbn [negb from_option id]. rewrite Hkill.
    unfold _remove_pid. rewrite Hfs1. unfold _write_pid.
    rewrite lookup_insert_eq, delete_insert_eq. done. }
  assert (fs2 = delete (_pid_path cwd) fs) as Hfs2.
  { unfold fs2. by rewrite Hstop. }
  assert (@_read_pid CPython.lib cwd fs2 = None) as Hread2.
  { apply read_pid_absent. rewrite Hfs2. apply lookup_delete_eq. }
  split; [|split; [|split; [|split]]].
  - unfold serve_status. rewrite Hread, (truthy_int_nonzero pid Hpid).
    cbn [negb from_option id]. by rewrite Halive.
  - by rewrite Hstop.
  - done.
  - unfold serve_status. by rewrite Hread2.
  - unfold serve_stop. by rewrite Hread2.
Qed.

Lemma daemon_lifecycle_witness :
  let fs1 := (serve_daemon Sample.spawn "python3" "/srv/fp/flareprox.py" "127.0.0.1" 8080
                "roundrobin" "30.0" Ex.cwd ∅).2 in
  @serve_status CPython.lib (fun _ => true) Ex.cwd fs1
    = [os_kill_0 4242;
       printed (Py.nl +:+ "  ✓ Server running (PID " +:+ Py.str 4242 +:+ ")" +:+ Py.nl)] ∧
  (@serve_stop CPython.lib (fun _ _ => None) true Ex.cwd fs1).2 = ∅.
Proof.
  destruct (daemon_lifecycle Sample.spawn (fun _ => true) (fun _ _ => None)
              "python3" "/srv/fp/flareprox.py" "127.0.0.1" 8080 "roundrobin" "30.0"
              Ex.cwd ∅ 4242 eq_refl ltac:(done) eq_refl eq_refl)
    as (Hstatus & _ & Hfs2 & _).
  cbv zeta in *. split; [exact Hstatus|]. rewrite Hfs2. apply delete_empty.
Defined.

Section marker.
Context `{Lib.PyLib}.

(** X12. A marker that does not hold a process id (text that [int]
    rejects, or the number 0) is treated as if there were none:
    [serve-stop] reports that no PID file was found, sends no signal and
    leaves the file where it is, and [serve-status] reports no server
    without probing any process. *)
Theorem unreadable_marker_is_ignored (kill : Z → signal → option string)
    (alive : Z → bool) (remove_ok : bool) (cwd : string) (fs : gmap string string)
    (text : string) :
  fs !! _pid_path cwd = Some text →
  (Lib.int_ (Py.strip text) = Ok 0 ∨ ∃ e, Lib.int_ (Py.strip text) = Raise e) →
  serve_stop kill remove_ok cwd fs
    = ([print (Py.nl +:+ "  ✗ No PID file found" +:+ Py.nl)], fs) ∧
  serve_status alive cwd fs = [printed (Py.nl +:+ "  • Server not running" +:+ Py.nl)].
Proof.
  intros Hfs Hint.
  assert (Py.truthy_int (_read_pid cwd fs) = false) as Hread.
  { unfold _read_pid. rewrite Hfs. by destruct Hint as [->|(e & ->)]. }
  unfold serve_stop, serve_status. by rewrite Hread.
Qed.

End marker.

Lemma unreadable_marker_is_ignored_witness :
  @serve_stop CPython.lib (fun _ _ => None) true Ex.cwd Sample.fs_garbled
    = ([print (Py.nl +:+ "  ✗ No PID file found" +:+ Py.nl)], Sample.fs_garbled) ∧
  @serve_status CPython.lib (fun _ => true) Ex.cwd Sample.fs_garbled
    = [printed (Py.nl +:+ "  • Server not running" +:+ Py.nl)].
Proof.
  apply (unreadable_marker_is_ignored (H := CPython.lib) (fun _ _ => None) (fun _ => true)
           true Ex.cwd Sample.fs_garbled "4242 (stopped)").
  - vm_compute. reflexivity.
  - right. exists ValueError. vm_compute. reflexivity.
Defined.

(** ** Workers: names, listing, deletion *)

Lemma choices_from_ok (population : list ascii) (rnd : nat → Z) (i k : nat) :
  population ≠ [] →
  ∃ s, Cf.choices_from population rnd i k = Ok s ∧
       String.length s = k ∧
       Forall (fun c => c ∈ population) (String.list_ascii_of_string s).
Proof.
  intros Hne. pose proof (len_pos _ Hne) as Hlen. revert i.
  induction k as [|k IH]; intros i.
  - exists EmptyString. repeat split. constructor.
  - cbn [Cf.choices_from].
    destruct (getitem_in_range population (rnd i `mod` Py.len population))
      as (c & Hc & ->); [apply Z.mod_pos_bound; lia|].
    destruct (IH (S i)) as (s & -> & Hl & Hall).
    exists (String c s). cbn [mbind result_bind]. split; [done|].
    cbn [String.length String.list_ascii_of_string]. split; [by rewrite Hl|].
    constructor; [|done]. by eapply list_elem_of_lookup_2.
Qed.

Lemma choices_ok (population : string) (k : nat) (rnd : nat → Z) :
  population ≠ "" →
  ∃ s, Cf.choices population k rnd = Ok s ∧
       String.length s = k ∧
       Forall (fun c => c ∈ String.list_ascii_of_string population)
         (String.list_ascii_of_string s).
Proof.
  intros Hne. unfold Cf.choices.
  destruct (String.list_ascii_of_string population) as [|c pop] eqn:Hpop.
  - destruct population; done.
  - apply choices_from_ok. done.
Qed.

Lemma startswith_app (prefix rest : string) : Py.startswith (prefix +:+ rest) prefix = true.
Proof.
  unfold Py.startswith. induction prefix as [|c p IH]; [by destruct rest|].
  change (String c p +:+ rest) with (String c (p +:+ rest)).
  cbn [String.prefix]. by destruct (ascii_dec c c).
Qed.

(** X13. Names are always generated, never an exception: a worker name
    is [flareprox-], the time in seconds, a dash and six lower-case
    letters; a subdomain name ends in a dash and three characters that
    are lower-case letters or digits. *)
Theorem generated_names_shape (now : Z) (account_id : string) (rnd : nat → Z) :
  (∃ suffix,
     Cf._generate_worker_name now rnd
       = Ok ("flareprox-" +:+ Py.str now +:+ "-" +:+ suffix) ∧
     String.length suffix = 6%nat ∧
     Forall (fun c => c ∈ String.list_ascii_of_string Cf.ascii_lowercase)
       (String.list_ascii_of_string suffix)) ∧
  (∃ suffix,
     Cf._generate_subdomain_name account_id rnd
       = Ok (Py.lower (Py.take 10 account_id) +:+ "-" +:+ suffix) ∧
     String.length suffix = 3%nat ∧
     Forall (fun c => c ∈ String.list_ascii_of_string (Cf.ascii_lowercase +:+ Cf.digits))
       (String.list_ascii_of_string suffix)).
Proof.
  split.
  - destruct (choices_ok Cf.ascii_lowercase 6 rnd) as (s & Hs & Hl & Hall); [done|].
    exists s. unfold Cf._generate_worker_name. by rewrite Hs.
  - destruct (choices_ok (Cf.ascii_lowercase +:+ Cf.digits) 3 rnd)
      as (s & Hs & Hl & Hall); [done|].
    exists s. unfold Cf._generate_subdomain_name. by rewrite Hs.
Qed.

(** The loop of [list_deployments] keeps the scripts whose id has the
    prefix, in their order. *)
Lemma list_deployments_loop_ok (subdomain : string)
    (scripts workers : list (gmap string string)) :
  Cf.list_deployments_loop (Ok subdomain) scripts workers
  = Ok (workers ++ (Cf.deployment subdomain <$> List.filter Cf.is_flareprox scripts))%list.
Proof.
  revert workers. induction scripts as [|script scripts IH]; intros workers.
  - cbn. by rewrite app_nil_r.
  - cbn [Cf.list_deployments_loop List.filter].
    destruct (Cf.is_flareprox script).
    + cbn [mbind result_bind]. rewrite IH, <- app_assoc. done.
    + apply IH.
Qed.

Lemma list_deployments_loop_raise (e : exn) (scripts workers : list (gmap string string)) :
  Cf.list_deployments_loop (Raise e) scripts workers
  = match List.filter Cf.is_flareprox scripts with
    | [] => Ok workers
    | _ => Raise e
    end.
Proof.
  induction scripts as [|script scripts IH]; [done|].
  cbn [Cf.list_deployments_loop List.filter].
  destruct (Cf.is_flareprox script); [done|apply IH].
Qed.

(** What [list_deployments] returns, whenever it returns. *)
Lemma list_deployments_returns (api : result (list (gmap string string)))
    (worker_subdomain : result string) (workers : list (gmap string string)) :
  Cf.list_deployments api worker_subdomain = Ok workers →
  ∃ scripts, api = Ok scripts ∧
    match worker_subdomain with
    | Ok subdomain =>
      workers = Cf.deployment subdomain <$> List.filter Cf.is_flareprox scripts
    | Raise _ => workers = [] ∧ List.filter Cf.is_flareprox scripts = []
    end.
Proof.
  destruct api as [scripts|e]; [|by destruct e]. cbn [Cf.list_deployments].
  intros Hl. exists scripts. split; [done|].
  destruct worker_subdomain as [subdomain|e].
  - rewrite list_deployments_loop_ok in Hl. by injection Hl as <-.
  - rewrite list_deployments_loop_raise in Hl.
    destruct (List.filter Cf.is_flareprox scripts); [|done]. by injection Hl as <-.
Qed.

(** X14. [list_deployments] returns the scripts of the account whose id
    starts with [flareprox-], in the order of the account, each with its
    [workers.dev] URL; the others are left out.  The subdomain is looked
    up only when there is such a script: without one the result is the
    empty list even when the subdomain cannot be had, and with one the
    exception of the lookup is the outcome. *)
Theorem list_deployments_keeps_flareprox_scripts
    (scripts : list (gmap string string)) (worker_subdomain : result string) :
  (∀ subdomain, worker_subdomain = Ok subdomain →
     Cf.list_deployments (Ok scripts) worker_subdomain
     = Ok (Cf.deployment subdomain <$> List.filter Cf.is_flareprox scripts)) ∧
  (List.filter Cf.is_flareprox scripts = [] →
     Cf.list_deployments (Ok scripts) worker_subdomain = Ok []) ∧
  (∀ e, worker_subdomain = Raise e → List.filter Cf.is_flareprox scripts ≠ [] →
     Cf.list_deployments (Ok scripts) worker_subdomain = Raise e).
Proof.
  split; [|split].
  - intros subdomain ->. apply list_deployments_loop_ok.
  - intros Hnone. cbn [Cf.list_deployments]. destruct worker_subdomain as [subdomain|e].
    + by rewrite list_deployments_loop_ok, Hnone.
    + by rewrite list_deployments_loop_raise, Hnone.
  - intros e -> Hsome. cbn [Cf.list_deployments].
    rewrite list_deployments_loop_raise.
    by destruct (List.filter Cf.is_flareprox scripts).
Qed.

Lemma list_deployments_keeps_flareprox_scripts_witness :
  Cf.list_deployments (Ok Sample.scripts) (Ok "acct")
  = Ok [Cf.deployment "acct" Sample.script_a; Cf.deployment "acct" Sample.script_c] ∧
  Cf.list_deployments (Ok [Sample.script_b]) (Raise (OtherException "no subdomain"))
  = Ok [] ∧
  Cf.list_deployments (Ok Sample.scripts) (Raise (OtherException "no subdomain"))
  = Raise (OtherException "no subdomain").
Proof.
  split; [|split].
  - rewrite (proj1 (list_deployments_keeps_flareprox_scripts Sample.scripts (Ok "acct"))
               "acct" eq_refl).
    vm_compute. reflexivity.
  - apply (proj1 (proj2 (list_deployments_keeps_flareprox_scripts [Sample.script_b]
                           (Raise (OtherException "no subdomain"))))).
    vm_compute. reflexivity.
  - apply (proj2 (proj2 (list_deployments_keeps_flareprox_scripts Sample.scripts
                           (Raise (OtherException "no subdomain"))))); [reflexivity|].
    intros Hf. apply (f_equal length) in Hf. vm_compute in Hf. discriminate.
Defined.

(** X15. A worker deployed under a generated name is found again: when
    the account lists a script whose id is a name that
    [_generate_worker_name] produced, [list_deployments] returns its
    entry. *)
Theorem generated_name_is_listed (now : Z) (rnd : nat → Z) (name subdomain : string)
    (script : gmap string string) (scripts : list (gmap string string)) :
  Cf._generate_worker_name now rnd = Ok name →
  script !! "id" = Some name →
  script ∈ scripts →
  ∃ workers,
    Cf.list_deployments (Ok scripts) (Ok subdomain) = Ok workers ∧
    Cf.deployment subdomain script ∈ workers.
Proof.
  intros Hname Hid Hin.
  assert (Cf.is_flareprox script = true) as Hfp.
  { unfold Cf.is_flareprox. rewrite Hid. cbn [from_option id].
    unfold Cf._generate_worker_name in Hname.
    destruct (Cf.choices Cf.ascii_lowercase 6 rnd) as [suffix|e]; [|done].
    cbn [mbind result_bind] in Hname. injection Hname as <-.
    apply startswith_app. }
  eexists. split; [apply list_deployments_loop_ok|].
  cbn [app]. apply list_elem_of_fmap_2.
  apply list_elem_of_In, filter_In. split; [by apply list_elem_of_In|done].
Qed.

Lemma generated_name_is_listed_witness :
  Cf._generate_worker_name 1700000000 (fun i => Z.of_nat i)
    = Ok "flareprox-1700000000-abcdef" ∧
  ∃ workers,
    Cf.list_deployments (Ok Sample.scripts) (Ok "acct") = Ok workers ∧
    Cf.deployment "acct" Sample.script_a ∈ workers.
Proof.
  assert (Cf._generate_worker_name 1700000000 (fun i => Z.of_nat i)
          = Ok "flareprox-1700000000-abcdef") as Hname by (vm_compute; reflexivity).
  split; [exact Hname|].
  apply (generated_name_is_listed 1700000000 (fun i => Z.of_nat i)
           "flareprox-1700000000-abcdef" "acct" Sample.script_a Sample.scripts Hname).
  - vm_compute. reflexivity.
  - apply list_elem_of_here.
Defined.

(** X16. A pool made of listed workers always yields an endpoint: every
    entry that [list_deployments] returns has an [https] URL, so that on
    a non-empty list the selection, under either policy and from any
    state, returns a URL that is not empty, and the forwarder does not
    take its 503 branch. *)
Theorem listed_pool_always_selects (api : result (list (gmap string string)))
    (worker_subdomain : result string) (workers : list (gmap string string))
    (policy : string) (state : gmap string Z) (rnd : Z) :
  Cf.list_deployments api worker_subdomain = Ok workers →
  workers ≠ [] →
  ∃ url st,
    _choose_endpoint workers policy state rnd = Ok (Some url, st) ∧
    Py.startswith url "https://" = true ∧
    Py.truthy (Some url) = true.
Proof.
  intros Hl Hne.
  destruct (list_deployments_returns _ _ _ Hl) as (scripts & _ & Hw).
  destruct worker_subdomain as [subdomain|e]; [|by destruct Hw].
  assert (∀ ep, ep ∈ workers →
            ∃ name, ep !! "url"
                    = Some ("https://" +:+ (name +:+ "." +:+ subdomain +:+ ".workers.dev")))
    as Hurl.
  { intros ep Hep. rewrite Hw in Hep. apply list_elem_of_fmap in Hep as (script & -> & _).
    eexists. unfold Cf.deployment. cbv zeta.
    rewrite lookup_insert_ne by done. rewrite lookup_insert_eq. reflexivity. }
  assert (∃ ep st, ep ∈ workers ∧
            _choose_endpoint workers policy state rnd = Ok (ep !! "url", st))
    as (ep & st & Hep & Hch).
  { destruct (decide (policy = "roundrobin")) as [->|Hpol].
    - destruct (choose_roundrobin workers state rnd Hne) as (ep & Hep & Hch).
      exists ep. eexists. split; [by eapply list_elem_of_lookup_2|done].
    - destruct (choose_random workers policy state rnd Hne Hpol) as (ep & Hep & Hch).
      exists ep. eexists. split; [by eapply list_elem_of_lookup_2|done]. }
  destruct (Hurl ep Hep) as (name & Hu). rewrite Hu in Hch.
  eexists _, st. split; [exact Hch|]. split; [apply startswith_app|done].
Qed.

Lemma listed_pool_always_selects_witness :
  Cf.list_deployments (Ok Sample.scripts) (Ok "acct") = Ok Sample.workers ∧
  ∃ url st,
    _choose_endpoint Sample.workers "random" ∅ 7 = Ok (Some url, st) ∧
    Py.startswith url "https://" = true ∧
    Py.truthy (Some url) = true.
Proof.
  assert (Cf.list_deployments (Ok Sample.scripts) (Ok "acct") = Ok Sample.workers) as Hl
    by (vm_compute; reflexivity).
  split; [exact Hl|].
  apply (listed_pool_always_selects (Ok Sample.scripts) (Ok "acct") Sample.workers
           "random" ∅ 7 Hl).
  done.
Defined.

Lemma deletes_app (evs1 evs2 : list cli_event) :
  deletes (evs1 ++ evs2) = (deletes evs1 ++ deletes evs2)%list.
Proof.
  induction evs1 as [|e evs1 IH]; [done|].
  destruct e; cbn [app deletes]; try done. by rewrite IH.
Qed.

Lemma gone_spec (status_code : Z) :
  Cf.gone status_code = true ↔ status_code = 200 ∨ status_code = 404.
Proof.
  unfold Cf.gone. rewrite bool_decide_eq_true, !elem_of_cons, elem_of_nil. tauto.
Qed.

Lemma delete_workers_loop_spec (account_id : string) (delete : nat → string → result Z)
    (i : nat) (worker_names : list string) (results : gmap string bool) :
  (∀ j url e, delete j url = Raise e → ∃ msg, e = RequestException msg) →
  ∃ evs results',
    Cf.delete_workers_loop account_id delete i worker_names results = (evs, Ok results') ∧
    deletes evs = Cf.script_url account_id <$> worker_names ∧
    (∀ name, is_Some (results' !! name) ↔ is_Some (results !! name) ∨ name ∈ worker_names) ∧
    (∀ name, results' !! name = Some true →
       results !! name = Some true ∨
       ∃ k status_code,
         worker_names !! k = Some name ∧
         delete (i + k)%nat (Cf.script_url account_id name) = Ok status_code ∧
         (status_code = 200 ∨ status_code = 404)).
Proof.
  intros Hdel. revert i results.
  induction worker_names as [|name names IH]; intros i results.
  - exists [], results. split; [done|]. split; [done|]. split.
    + intros n. rewrite elem_of_nil. tauto.
    + intros n Hn. by left.
  - cbn [Cf.delete_workers_loop].
    assert (∃ b, (∀ results0,
              match delete i (Cf.script_url account_id name) with
              | Ok status_code =>
                let '(evs, r) := Cf.delete_workers_loop account_id delete (S i) names
                                   (<[name := Cf.gone status_code]> results0) in
                (requests_delete (Cf.script_url account_id name) :: evs, r)
              | Raise (RequestException _) =>
                let '(evs, r) := Cf.delete_workers_loop account_id delete (S i) names
                                   (<[name := false]> results0) in
                (requests_delete (Cf.script_url account_id name) :: evs, r)
              | Raise e => ([requests_delete (Cf.script_url account_id name)], Raise e)
              end
              = let '(evs, r) := Cf.delete_workers_loop account_id delete (S i) names
                                   (<[name := b]> results0) in
                (requests_delete (Cf.script_url account_id name) :: evs, r)) ∧
            (b = true → ∃ status_code,
               delete i (Cf.script_url account_id name) = Ok status_code ∧
               (status_code = 200 ∨ status_code = 404))) as (b & Hstep & Hb).
    { destruct (delete i (Cf.script_url account_id name)) as [c|e] eqn:Hd.
      - exists (Cf.gone c). split; [done|]. intros Hg. exists c. split; [done|].
        by apply gone_spec.
      - destruct (Hdel _ _ _ Hd) as (msg & ->). exists false. split; [done|]. done. }
    cbv zeta. rewrite (Hstep results).
    destruct (IH (S i) (<[name := b]> results)) as (evs & results' & -> & Hev & Hdom & Htrue).
    exists (requests_delete (Cf.script_url account_id name) :: evs), results'.
    split; [done|]. split; [cbn [deletes fmap list_fmap]; by rewrite Hev|]. split.
    + intros n. rewrite Hdom, elem_of_cons.
      destruct (decide (n = name)) as [->|Hn].
      * rewrite lookup_insert_eq. split; [tauto|]. intros _. left. by eexists.
      * rewrite lookup_insert_ne by done. split; [tauto|]. intros [?|[?|?]]; tauto.
    + intros n Hn. destruct (Htrue n Hn) as [Hins|(k & c & Hk & Hd & Hc)].
      * destruct (decide (n = name)) as [->|Hne].
        -- rewrite lookup_insert_eq in Hins. injection Hins as ->.
           destruct (Hb eq_refl) as (c & Hd & Hc).
           right. exists 0%nat, c. rewrite Nat.add_0_r. done.
        -- rewrite lookup_insert_ne in Hins by done. by left.
      * right. exists (S k), c. split; [done|]. split; [|done].
        by replace (i + S k)%nat with (S i + k)%nat by lia.
Qed.

(** X17. When the only exceptions of the DELETE requests are request
    exceptions, [delete_workers] sends one DELETE per name, in order, to
    the script of that name, and returns a verdict for exactly the names
    it was given; a name is reported deleted only if a DELETE for it was
    answered 200 or 404. *)
Theorem delete_workers_reports_every_name (account_id : string)
    (delete : nat → string → result Z) (worker_names : list string) :
  (∀ j url e, delete j url = Raise e → ∃ msg, e = RequestException msg) →
  ∃ evs results,
    Cf.delete_workers account_id delete worker_names = (evs, Ok results) ∧
    deletes evs = Cf.script_url account_id <$> worker_names ∧
    (∀ name, is_Some (results !! name) ↔ name ∈ worker_names) ∧
    (∀ name, results !! name = Some true →
       ∃ k status_code,
         worker_names !! k = Some name ∧
         delete k (Cf.script_url account_id name) = Ok status_code ∧
         (status_code = 200 ∨ status_code = 404)).
Proof.
  intros Hdel. unfold Cf.delete_workers.
  destruct (delete_workers_loop_spec account_id delete 0 worker_names ∅ Hdel)
    as (evs & results & -> & Hev & Hdom & Htrue).
  exists evs, results. split; [done|]. split; [done|]. split.
  - intros name. rewrite Hdom, lookup_empty. split; [|tauto].
    intros [[? [=]]|?]; done.
  - intros name Hn. destruct (Htrue name Hn) as [Hempty|Hk]; [|done].
    by rewrite lookup_empty in Hempty.
Qed.

Lemma sample_delete_raises (j : nat) (url : string) (e : exn) :
  Sample.delete j url = Raise e → ∃ msg, e = RequestException msg.
Proof. destruct j as [|[|[|j]]]; cbn; intros [= <-]. by eexists. Qed.

Lemma delete_workers_reports_every_name_witness :
  ∃ evs results,
    Cf.delete_workers "acct" Sample.delete ["w0"; "w1"; "w2"; "w3"] = (evs, Ok results) ∧
    deletes evs = Cf.script_url "acct" <$> ["w0"; "w1"; "w2"; "w3"] ∧
    (∀ name, is_Some (results !! name) ↔ name ∈ ["w0"; "w1"; "w2"; "w3"]) ∧
    (∀ name, results !! name = Some true →
       ∃ k status_code,
         ["w0"; "w1"; "w2"; "w3"] !! k = Some name ∧
         Sample.delete k (Cf.script_url "acct" name) = Ok status_code ∧
         (status_code = 200 ∨ status_code = 404)).
Proof.
  apply (delete_workers_reports_every_name "acct" Sample.delete ["w0"; "w1"; "w2"; "w3"]).
  exact sample_delete_raises.
Defined.

Lemma cleanup_loop_spec (account_id : string) (delete : nat → string → result Z)
    (n : Z) (i : nat) (workers : list (gmap string string))
    (deleted_count failed_count : Z) :
  (∀ j url e, delete j url = Raise e → ∃ msg, e = RequestException msg) →
  Forall (fun worker : gmap string string => is_Some (worker !! "name")) workers →
  ∃ evs deleted_count' failed_count',
    Cf.cleanup_loop account_id delete n i workers deleted_count failed_count
    = (evs, Ok (deleted_count', failed_count')) ∧
    deletes evs
    = (fun worker : gmap string string =>
         Cf.script_url account_id (default "" (worker !! "name"))) <$> workers ∧
    (deleted_count' + failed_count' = deleted_count + failed_count + Py.len workers)%Z ∧
    (deleted_count ≤ deleted_count')%Z ∧ (failed_count ≤ failed_count')%Z.
Proof.
  intros Hdel Hnames. revert i deleted_count failed_count.
  induction Hnames as [|worker workers [name Hname] _ IH];
    intros i deleted_count failed_count.
  - exists [], deleted_count, failed_count. unfold Py.len. cbn. repeat split; lia.
  - cbn [Cf.cleanup_loop]. unfold Cf.item. rewrite Hname. cbn [from_option id fmap list_fmap].
    cbv zeta.
    destruct (delete i (Cf.script_url account_id name)) as [c|e] eqn:Hd.
    + destruct (Cf.gone c).
      * destruct (IH (S i) (deleted_count + 1) failed_count)
          as (evs & d' & f' & -> & Hev & Hsum & Hd' & Hf').
        eexists _, d', f'. split; [reflexivity|]. cbn [deletes]. rewrite Hev, Hname.
        split; [done|]. unfold Py.len in *. cbn [length]. lia.
      * destruct (IH (S i) deleted_count (failed_count + 1))
          as (evs & d' & f' & -> & Hev & Hsum & Hd' & Hf').
        eexists _, d', f'. split; [reflexivity|]. cbn [deletes]. rewrite Hev, Hname.
        split; [done|]. unfold Py.len in *. cbn [length]. lia.
    + destruct (Hdel _ _ _ Hd) as (msg & ->).
      destruct (IH (S i) deleted_count (failed_count + 1))
        as (evs & d' & f' & -> & Hev & Hsum & Hd' & Hf').
      eexists _, d', f'. split; [reflexivity|]. cbn [deletes]. rewrite Hev, Hname.
      split; [done|]. unfold Py.len in *. cbn [length]. lia.
Qed.

(** X18. [cleanup_all] on an account without FlareProx workers says so
    and deletes nothing.  Otherwise, when the only exceptions of the
    DELETE requests are request exceptions, it sends one DELETE for every
    listed worker, in the order of the listing, and ends with a summary
    whose two counts add up to the number of workers. *)
Theorem cleanup_all_accounts_for_every_worker (account_id : string)
    (api : result (list (gmap string string))) (worker_subdomain : result string)
    (delete : nat → string → result Z) (workers : list (gmap string string)) :
  Cf.list_deployments api worker_subdomain = Ok workers →
  (∀ j url e, delete j url = Raise e → ∃ msg, e = RequestException msg) →
  (workers = [] →
   Cf.cleanup_all account_id api worker_subdomain delete
   = ([printed "  • No workers to delete"], Ok tt)) ∧
  (workers ≠ [] →
   ∃ evs deleted_count failed_count,
     Cf.cleanup_all account_id api worker_subdomain delete = (evs, Ok tt) ∧
     deletes evs
     = (fun worker : gmap string string =>
          Cf.script_url account_id (default "" (worker !! "name"))) <$> workers ∧
     last evs = Some (printed (Cf.summary deleted_count failed_count)) ∧
     (deleted_count + failed_count = Py.len workers)%Z ∧
     (0 ≤ deleted_count)%Z ∧ (0 ≤ failed_count)%Z).
Proof.
  intros Hl Hdel. split.
  - intros ->. unfold Cf.cleanup_all. by rewrite Hl.
  - intros Hne.
    assert (Forall (fun worker : gmap string string => is_Some (worker !! "name")) workers)
      as Hnames.
    { destruct (list_deployments_returns _ _ _ Hl) as (scripts & _ & Hw).
      destruct worker_subdomain as [subdomain|e]; [|by destruct Hw].
      rewrite Hw. apply Forall_fmap, Forall_forall. intros script _.
      unfold Cf.deployment. cbv zeta. cbn [compose].
      rewrite lookup_insert_eq. by eexists. }
    destruct (cleanup_loop_spec account_id delete (Py.len workers) 0 workers 0 0
                Hdel Hnames) as (evs & d & f & Hloop & Hev & Hsum & Hd & Hf).
    unfold Cf.cleanup_all. rewrite Hl.
    destruct workers as [|worker workers']; [done|].
    cbv zeta. rewrite Hloop.
    eexists _, d, f. split; [reflexivity|].
    split; [|split; [|lia]].
    + cbn [deletes]. rewrite deletes_app, Hev. cbn [deletes]. by rewrite app_nil_r.
    + rewrite app_comm_cons. apply last_snoc.
Qed.

Lemma cleanup_all_accounts_for_every_worker_witness :
  Cf.list_deployments (Ok Sample.scripts) (Ok "acct") = Ok Sample.workers ∧
  ∃ evs deleted_count failed_count,
    Cf.cleanup_all "acct" (Ok Sample.scripts) (Ok "acct") Sample.delete = (evs, Ok tt) ∧
    deletes evs
    = (fun worker : gmap string string =>
         Cf.script_url "acct" (default "" (worker !! "name"))) <$> Sample.workers ∧
    last evs = Some (printed (Cf.summary deleted_count failed_count)) ∧
    (deleted_count + failed_count = Py.len Sample.workers)%Z ∧
    (0 ≤ deleted_count)%Z ∧ (0 ≤ failed_count)%Z.
Proof.
  assert (Cf.list_deployments (Ok Sample.scripts) (Ok "acct") = Ok Sample.workers) as Hl
    by (vm_compute; reflexivity).
  split; [exact Hl|].
  apply (proj2 (cleanup_all_accounts_for_every_worker "acct" (Ok Sample.scripts) (Ok "acct")
                  Sample.delete Sample.workers Hl sample_delete_raises)).
  done.
Defined.

(** ** The configuration *)

Section configuration.
Context `{Config.PyJson}.
Variable no_such_file : string → string.

(** Once the section is filled, loading a file changes nothing, and
    reads of the file no more than whether it has the key. *)
Lemma load_config_file_filled (fs : Config.files) (config_path : string)
    (section : Config.pydict) :
  Config.dict_bool section = true →
  (∀ x, fs !! config_path = Some (inr x) →
        ∃ file_config b, x = Ok file_config ∧
                         Config.contains file_config "cloudflare" = Ok b) →
  ∃ evs,
    Config._load_config_file no_such_file fs config_path {[ "cloudflare" := section ]}
    = (evs, Ok {[ "cloudflare" := section ]}).
Proof.
  intros Hfilled Hshape. unfold Config._load_config_file.
  destruct (fs !! config_path) as [[e|x]|]; [by eexists| |by eexists].
  destruct (Hshape x eq_refl) as (file_config & b & -> & ->).
  destruct b; [|by eexists].
  rewrite lookup_singleton_eq, Hfilled. by eexists.
Qed.

Lemma load_first_existing_filled (fs : Config.files) (default_configs : list string)
    (section : Config.pydict) :
  Config.dict_bool section = true →
  (∀ d x, d ∈ default_configs → fs !! d = Some (inr x) →
          ∃ file_config b, x = Ok file_config ∧
                           Config.contains file_config "cloudflare" = Ok b) →
  ∃ evs,
    Config.load_first_existing no_such_file fs default_configs {[ "cloudflare" := section ]}
    = (evs, Ok {[ "cloudflare" := section ]}).
Proof.
  intros Hfilled. induction default_configs as [|d rest IH]; intros Hshape.
  - by exists [].
  - cbn [Config.load_first_existing].
    destruct (bool_decide (is_Some (fs !! d))).
    + apply load_config_file_filled; [done|]. intros x. apply Hshape. left.
    + apply IH. intros d' x Hd'. apply Hshape. by right.
Qed.

(** X19. Credentials given with [--config] win over the default files.
    When [json.load] returns for the named file a value that has the key
    [cloudflare], and updating the empty dictionary with the value under
    that key gives a dictionary that is not empty, that dictionary is the
    configuration, provided that on every default file that [json.load]
    or [open] does not reject with [JSONDecodeError] or [IOError] the
    load returns a value and the test [in] on it does not raise (it does
    on [null], a number and a boolean). *)
Theorem explicit_config_wins (fs : Config.files) (home_config config_file : string)
    (file_config section : Config.value) (cloudflare : Config.pydict) :
  config_file ≠ "" →
  fs !! config_file = Some (inr (Ok file_config)) →
  Config.contains file_config "cloudflare" = Ok true →
  Config.getitem file_config "cloudflare" = Ok section →
  Config.dict_update Config.empty_dict section = Ok cloudflare →
  Config.dict_bool cloudflare = true →
  (∀ d x, d ∈ ["flareprox.json"; "cloudproxy.json"; home_config] →
          fs !! d = Some (inr x) →
          ∃ file_config' b, x = Ok file_config' ∧
                            Config.contains file_config' "cloudflare" = Ok b) →
  (Config._load_config no_such_file fs home_config (Some config_file)).2
  = Ok {[ "cloudflare" := cloudflare ]}.
Proof.
  intros Hne Hfs Hin Hget Hupd Hfilled Hdefaults. unfold Config._load_config. cbv zeta.
  rewrite (truthy_nonempty config_file Hne). cbn [from_option id].
  rewrite bool_decide_eq_true_2 by (rewrite Hfs; by eexists). cbn [andb].
  unfold Config._load_config_file at 1.
  rewrite Hfs, Hin, lookup_singleton_eq, Config.empty_dict_bool. cbn [negb].
  rewrite Hget, Hupd, insert_singleton_eq.
  destruct (load_first_existing_filled fs
              ["flareprox.json"; "cloudproxy.json"; home_config] cloudflare
              Hfilled Hdefaults) as (evs2 & ->).
  done.
Qed.

(** X20. The first default file that exists ends the search, also when
    it cannot be loaded: with a [flareprox.json] that [json.load] or
    [open] rejects and no [--config], the warning is all that happens and
    the tool is not configured, whatever [cloudproxy.json] and the file
    in the home directory hold. *)
Theorem broken_first_default_shadows_the_rest (fs : Config.files) (home_config e : string) :
  fs !! "flareprox.json" = Some (inl e) →
  Config._load_config no_such_file fs home_config None
  = ([printed ("Warning: Could not load config file flareprox.json: " +:+ e)],
     Ok {[ "cloudflare" := Config.empty_dict ]}) ∧
  Config.is_configured no_such_file fs home_config None = Ok false.
Proof.
  intros Hfs.
  assert (Config._load_config no_such_file fs home_config None
          = ([printed ("Warning: Could not load config file flareprox.json: " +:+ e)],
             Ok {[ "cloudflare" := Config.empty_dict ]})) as Hload.
  { unfold Config._load_config. cbv zeta. cbn [Py.truthy andb app].
    cbn [Config.load_first_existing]. rewrite Hfs.
    rewrite bool_decide_eq_true_2 by by eexists.
    unfold Config._load_config_file. rewrite Hfs. done. }
  split; [done|]. unfold Config.is_configured. rewrite Hload. cbn [snd].
  unfold Config._setup_cloudflare. rewrite lookup_singleton_eq. cbn [from_option id].
  rewrite !Config.empty_dict_get. done.
Qed.

(** X21. A default file that holds a value on which the test
    [in] raises, as [null], a number and a boolean do, stops the tool:
    without [--config], when the first default file that exists is
    [flareprox.json] and [json.load] returns such a value for it, the
    exception leaves [_load_config], nothing is printed by it, and there
    is no answer to [is_configured], whatever the other files hold. *)
Theorem misshapen_default_raises (fs : Config.files) (home_config : string)
    (file_config : Config.value) (e : exn) :
  fs !! "flareprox.json" = Some (inr (Ok file_config)) →
  Config.contains file_config "cloudflare" = Raise e →
  Config._load_config no_such_file fs home_config None = ([], Raise e) ∧
  Config.is_configured no_such_file fs home_config None = Raise e.
Proof.
  intros Hfs Hin.
  assert (Config._load_config no_such_file fs home_config None = ([], Raise e)) as Hload.
  { unfold Config._load_config. cbv zeta. cbn [Py.truthy andb app].
    cbn [Config.load_first_existing]. rewrite Hfs.
    rewrite bool_decide_eq_true_2 by by eexists.
    unfold Config._load_config_file. rewrite Hfs, Hin. done. }
  split; [done|]. unfold Config.is_configured. by rewrite Hload.
Qed.

End configuration.

Lemma explicit_config_wins_witness :
  (Config._load_config Sample.no_such_file Sample.config_files "/home/u/.flareprox.json"
     (Some "my.json")).2
  = Ok {[ "cloudflare" := Sample.credentials ]}.
Proof.
  apply (explicit_config_wins (H := Config.cpython) Sample.no_such_file Sample.config_files
           "/home/u/.flareprox.json" "my.json" Sample.settings
           (Config.JObj Sample.credentials) Sample.credentials).
  - done.
  - vm_compute. reflexivity.
  - vm_compute. reflexivity.
  - vm_compute. reflexivity.
  - vm_compute. reflexivity.
  - vm_compute. reflexivity.
  - intros d x Hd Hx. rewrite !elem_of_cons, elem_of_nil in Hd.
    destruct Hd as [->|[->|[->|[]]]].
    + vm_compute in Hx. discriminate.
    + exists Sample.settings, true. split; [|vm_compute; reflexivity].
      assert (Sample.config_files !! "cloudproxy.json" = Some (inr (Ok Sample.settings)))
        as Hc by (vm_compute; reflexivity).
      pose proof (eq_trans (eq_sym Hc) Hx) as Heq. by injection Heq as <-.
    + vm_compute in Hx. discriminate.
Defined.

Lemma broken_first_default_shadows_the_rest_witness :
  Config.is_configured Sample.no_such_file Sample.config_files "/home/u/.flareprox.json" None
  = Ok false.
Proof.
  apply (broken_first_default_shadows_the_rest (H := Config.cpython) Sample.no_such_file
           Sample.config_files "/home/u/.flareprox.json"
           "Expecting value: line 1 column 1 (char 0)").
  vm_compute. reflexivity.
Defined.

Lemma misshapen_default_raises_witness :
  Config.is_configured Sample.no_such_file Sample.null_files "/home/u/.flareprox.json" None
  = Raise (OtherException "TypeError").
Proof.
  apply (misshapen_default_raises (H := Config.cpython) Sample.no_such_file
           Sample.null_files "/home/u/.flareprox.json" Config.JNull
           (OtherException "TypeError")).
  - vm_compute. reflexivity.
  - reflexivity.
Defined.
